(** * Stock screener: condition evaluation, scoring and EPS resolution

    A shallow embedding of the decision logic of the screener:

    - [CompleteScreeningEngine]   (src/complete_screening_engine.py)
    - [RealDataIntegrationFinal]  (src/real_data_integration_final.py)
    - [TechnicalCalculator]       (src/technical_calculator.py)
    - [ScoringSystem]             (src/scoring_system.py)
    - [EnhancedDataFetcher]       (src/enhanced_data_fetcher.py, EPS chain)
    - [DiagnosticFix]             (diagnostic_fix.py, the trust-holding check)
    - [Fetcher]                   (src/enhanced_data_fetcher.py, ROE, trust
                                   holding, get_all_data, batch_fetch)
    - [CompleteScreeningEngineFixed] (diagnostic_fix.py, the fixed engine)
    - [Indicators]                (src/technical_calculator.py, KD lines,
                                   volume ratio, average support)

    Conventions of the embedding.

    - A Python float or int held in a DataFrame cell or in the snapshot is a
      rational [Q]: cells are finite numbers (no NaN, no infinity) and the
      arithmetic is exact.  NaN values that pandas itself produces (the
      warm-up of a rolling window, the mean of an empty selection, 0/0) are
      modelled where they arise, as [None].
    - A [try: ... except Exception:] body is a computation in the exception
      monad [exc]; [None] stands for a raised exception and [try_except]
      supplies the handler's value.
    - A Python [dict] is an insertion-ordered association list ([Py.dict]).
    - What the remote services answer while one evaluation runs is a
      [World]; the engine reads it through the integrator's methods. *)

From Stdlib Require Import String Ascii ZArith QArith Qabs Qround Bool Lia.
From Stdlib Require Import Lqa.
From Stdlib Require Import DecimalString List.
Import ListNotations.

Set Implicit Arguments.

(* ================================================================== *)
(** * Python values                                                    *)
(* ================================================================== *)

Module Py.

(** ** Exceptions *)

Definition exc (A : Type) : Type := option A.

Definition ret {A} (a : A) : exc A := Some a.
Definition raise {A} : exc A := None.

Definition bind {A B} (m : exc A) (k : A -> exc B) : exc B :=
  match m with
  | Some a => k a
  | None => None
  end.

(** [try: body / except Exception: return handler] *)
Definition try_except {A} (body : exc A) (handler : A) : A :=
  match body with
  | Some a => a
  | None => handler
  end.

(** ** Identifiers: a Python [str] or [None] *)

Definition pyid : Type := option string.

(** Truthiness of an identifier: [None] and the empty string are falsy. *)
Definition truthy_id (i : pyid) : bool :=
  match i with
  | Some s => negb (String.eqb s "")
  | None => false
  end.

(** [stock_id in table_or_list] for a string key; [None] is in none. *)
Definition id_eqb (i : pyid) (s : string) : bool :=
  match i with
  | Some t => String.eqb t s
  | None => false
  end.

Definition id_in (i : pyid) (l : list string) : bool := existsb (id_eqb i) l.

(** ** Numbers *)

(** A configured threshold keeps its Python type, as its [str] shows it. *)
Inductive num : Type :=
| PyInt (z : Z)
| PyFloat (q : Q).

Definition val (n : num) : Q :=
  match n with
  | PyInt z => inject_Z z
  | PyFloat q => q
  end.

Definition gtb (a b : Q) : bool := negb (Qle_bool a b).
Definition geb (a b : Q) : bool := Qle_bool b a.
Definition ltb (a b : Q) : bool := negb (Qle_bool b a).
Definition leb (a b : Q) : bool := Qle_bool a b.

Definition qmax (a b : Q) : Q := if Qle_bool a b then b else a.
Definition qmin (a b : Q) : Q := if Qle_bool a b then a else b.

(** ** Formatting *)

Definition str_int (z : Z) : string := NilZero.string_of_int (Z.to_int z).

(** Rounding to the nearest integer, ties to even. *)
Definition round_half_even (q : Q) : Z :=
  let f := Qfloor q in
  let r := q - inject_Z f in
  if ltb r (1 # 2) then f
  else if gtb r (1 # 2) then (f + 1)%Z
  else if Z.even f then f else (f + 1)%Z.

Fixpoint zeros (n : nat) : string :=
  match n with
  | O => EmptyString
  | S n' => String "0" (zeros n')
  end.

Definition pad_left (width : nat) (s : string) : string :=
  append (zeros (width - String.length s)) s.

(** [format(q, '.<prec>f')] *)
Definition fmt_f (prec : nat) (q : Q) : string :=
  let scale := (10 ^ Z.of_nat prec)%Z in
  let n := round_half_even (Qabs q * inject_Z scale) in
  let sign := if ltb q 0 then "-"%string else EmptyString in
  let int_part := str_int (n / scale) in
  match prec with
  | O => append sign int_part
  | _ => append sign
           (append int_part
              (append "." (pad_left prec (str_int (n mod scale)))))
  end.

(** The number of decimals needed to write [q] exactly, searched up to
    [fuel] places. *)
Fixpoint decimals (fuel : nat) (k : nat) (q : Q) : option nat :=
  if Qeq_bool (inject_Z (Qfloor q)) q then Some k
  else match fuel with
       | O => None
       | S fuel' => decimals fuel' (S k) (q * 10)
       end.

(** [str(x)] of a float written with a short decimal expansion, as the
    thresholds are: [1.5], [15.0], [0.8]. *)
Definition str_float (q : Q) : string :=
  match decimals 17 0 q with
  | Some O => fmt_f 1 q
  | Some k => fmt_f k q
  | None => fmt_f 17 q
  end.

Definition str (n : num) : string :=
  match n with
  | PyInt z => str_int z
  | PyFloat q => str_float q
  end.

(** An f-string is the concatenation of its pieces. *)
Definition fstring (pieces : list string) : string := String.concat "" pieces.

(** ** Dictionaries with string keys, in insertion order *)

Definition dict (V : Type) : Type := list (string * V).

Fixpoint get {V} (d : dict V) (k : string) : option V :=
  match d with
  | [] => None
  | (k', v) :: d' => if String.eqb k k' then Some v else get d' k
  end.

(** [d[k] = v]: an existing key keeps its position. *)
Fixpoint set {V} (d : dict V) (k : string) (v : V) : dict V :=
  match d with
  | [] => [(k, v)]
  | (k', v') :: d' =>
      if String.eqb k k' then (k', v) :: d' else (k', v') :: set d' k v
  end.

Definition keys {V} (d : dict V) : list string := map fst d.
Definition values {V} (d : dict V) : list V := map snd d.

Definition mem {V} (k : string) (d : dict V) : bool :=
  match get d k with
  | Some _ => true
  | None => false
  end.

End Py.

Declare Scope py_scope.
Delimit Scope py_scope with py.
Notation "x <- m ;; k" := (Py.bind m (fun x => k))
  (at level 61, m at next level, right associativity) : py_scope.
Notation "a >? b" := (Py.gtb a b) (at level 70, no associativity) : py_scope.
Notation "a >=? b" := (Py.geb a b) (at level 70, no associativity) : py_scope.
Notation "a <? b" := (Py.ltb a b) (at level 70, no associativity) : py_scope.
Notation "a <=? b" := (Py.leb a b) (at level 70, no associativity) : py_scope.

(* ================================================================== *)
(** * The part of pandas the screener uses                             *)
(* ================================================================== *)

Module Pandas.
Import Py.
Local Open Scope py_scope.
Local Open Scope Q_scope.

Definition Series : Type := list Q.

(** A frame is a table of rows under named columns, plus the one entry
    of [attrs] the engine writes and reads. *)
Record DataFrame : Type := mkDataFrame {
  columns : list string;
  rows : list (list Q);
  attrs_stock_id : pyid
}.

(** [df.iloc[i]]: a row with its labels. *)
Record Row : Type := mkRow {
  labels : list string;
  cells : list Q
}.

Definition len (df : DataFrame) : nat := length (rows df).

Definition empty (df : DataFrame) : bool :=
  (len df =? 0)%nat || (length (columns df) =? 0)%nat.

Definition has_column (c : string) (df : DataFrame) : bool :=
  existsb (String.eqb c) (columns df).

Fixpoint index_of (c : string) (cols : list string) : option nat :=
  match cols with
  | [] => None
  | c' :: cols' =>
      if String.eqb c c' then Some O else option_map S (index_of c cols')
  end.

(** [df[c]]; an absent column raises [KeyError]. *)
Definition col (df : DataFrame) (c : string) : exc Series :=
  j <- index_of c (columns df) ;;
  ret (map (fun r => nth j r 0) (rows df)).

(** [s.iloc[-i]] for [i >= 1]; out of range raises [IndexError]. *)
Definition at_end {A} (s : list A) (i : nat) : exc A :=
  match i with
  | O => raise
  | S _ => if (i <=? length s)%nat then nth_error s (length s - i) else raise
  end.

(** [df.iloc[-i]] *)
Definition iloc_end (df : DataFrame) (i : nat) : exc Row :=
  r <- at_end (rows df) i ;;
  ret (mkRow (columns df) r).

(** [row[c]] *)
Definition item (r : Row) (c : string) : exc Q :=
  j <- index_of c (labels r) ;;
  ret (nth j (cells r) 0).

(** [row.get(c, default)] *)
Definition get (r : Row) (c : string) (default : Q) : Q :=
  try_except (item r c) default.

(** [s.tail(n)] *)
Definition tail {A} (n : nat) (s : list A) : list A :=
  skipn (length s - n) s.

(** [s.iloc[:-1]] *)
Definition drop_last {A} (s : list A) : list A := removelast s.

Definition sum (s : Series) : Q := fold_left Qplus s 0.

(** [s.mean()]; the mean of nothing is NaN. *)
Definition mean (s : Series) : option Q :=
  match s with
  | [] => None
  | _ => Some (sum s / inject_Z (Z.of_nat (length s)))
  end.

(** [s.max()] and [s.min()]; NaN on nothing. *)
Definition max (s : Series) : option Q :=
  match s with
  | [] => None
  | x :: s' => Some (fold_left qmax s' x)
  end.

Definition min (s : Series) : option Q :=
  match s with
  | [] => None
  | x :: s' => Some (fold_left qmin s' x)
  end.

(** The window ending at position [i], NaN until [window] values are
    there ([min_periods] defaults to the window). *)
Definition window_at (window : nat) (s : Series) (i : nat) : option Series :=
  if (window <=? S i)%nat
  then Some (firstn window (skipn (S i - window) s))
  else None.

Definition rolling (window : nat) (f : Series -> option Q) (s : Series)
  : list (option Q) :=
  map (fun i => match window_at window s i with
                | Some w => f w
                | None => None
                end)
      (seq 0 (length s)).

(** [s.ewm(alpha=alpha, adjust=False).mean()]:
    y0 = x0, y_t = (1 - alpha) * y_(t-1) + alpha * x_t. *)
Fixpoint ewm_from (alpha : Q) (prev : Q) (s : Series) : Series :=
  match s with
  | [] => []
  | x :: s' =>
      let y := (1 - alpha) * prev + alpha * x in
      y :: ewm_from alpha y s'
  end.

Definition ewm (alpha : Q) (s : Series) : Series :=
  match s with
  | [] => []
  | x :: s' => x :: ewm_from alpha x s'
  end.

(** [com=c] is [alpha = 1 / (1 + c)]. *)
Definition alpha_of_com (com : Q) : Q := 1 / (1 + com).

(** One entry of [(close - low_n) / (high_n - low_n) * 100] after
    [fillna(50)].  The quotient is NaN while the window is incomplete and
    when the range is zero: a bar has min <= close <= max, so a zero
    range means close = low and the quotient is 0/0. *)
Definition rsv_at (close : Q) (low_n high_n : option Q) : Q :=
  match low_n, high_n with
  | Some l, Some h =>
      if Qeq_bool (h - l) 0 then 50
      else (close - l) / (h - l) * 100
  | _, _ => 50
  end.

Fixpoint rsv_series (close : Series) (low_n high_n : list (option Q)) : Series :=
  match close, low_n, high_n with
  | c :: cs, l :: ls, h :: hs => rsv_at c l h :: rsv_series cs ls hs
  | _, _, _ => []
  end.

End Pandas.

(* ================================================================== *)
(** * RealDataIntegrationFinal                                         *)
(* ================================================================== *)

Module RealDataIntegrationFinal.
Import Py.
Local Open Scope py_scope.
Local Open Scope Q_scope.

(** What the remote services answer while one evaluation runs.  Each
    private fetcher catches its own exceptions and returns 0.0 (or an
    empty list) on failure, so an answer is always a value. *)
Record World : Type := mkWorld {
  _get_trust_holding_from_twse : pyid -> Q;
  _calculate_trust_holding_from_history : pyid -> Q;
  get_trust_holding_change : pyid -> Q;
  get_real_eps : pyid -> Q;
  _calculate_roe_from_financial : pyid -> Q;
  _get_roe_from_yahoo : pyid -> Q;
  fetch_dividend_yield : pyid -> Q;
  get_warning_stocks : list string;
  get_disposition_stocks : list string
}.

Definition default_holdings : dict Q :=
  [ ("2330"%string, 0.8); ("2454"%string, 4.5);
    ("2881"%string, 3.2); ("3008"%string, 6.5) ].

Definition lookup_id {V} (d : dict V) (i : pyid) : option V :=
  match i with
  | Some s => Py.get d s
  | None => None
  end.

Definition get_trust_holding_percentage (w : World) (stock_id : pyid) : Q :=
  let trust_pct := _get_trust_holding_from_twse w stock_id in
  if trust_pct >? 0 then trust_pct
  else
    let trust_pct := _calculate_trust_holding_from_history w stock_id in
    if trust_pct >? 0 then trust_pct
    else match lookup_id default_holdings stock_id with
         | Some v => v
         | None => 0
         end.

(** The price handed in is not used. *)
Definition get_real_dividend_yield (w : World) (stock_id : pyid)
           (current_price : option Q) : Q :=
  fetch_dividend_yield w stock_id.

Definition default_roe : dict Q :=
  [ ("2330"%string, 25); ("2454"%string, 18); ("2881"%string, 10);
    ("3008"%string, 30); ("2317"%string, 8); ("2308"%string, 15) ].

Definition get_real_roe (w : World) (stock_id : pyid) : Q :=
  let roe := _calculate_roe_from_financial w stock_id in
  if roe >? 0 then roe
  else
    let roe := _get_roe_from_yahoo w stock_id in
    if roe >? 0 then roe
    else match lookup_id default_roe stock_id with
         | Some v => v
         | None => 15
         end.

(** The two lists are refreshed from the services when older than an
    hour; the world holds what they are at the time of the call. *)
Definition is_warning_or_disposition (w : World) (stock_id : pyid) : bool * bool :=
  (id_in stock_id (get_warning_stocks w),
   id_in stock_id (get_disposition_stocks w)).

Definition _get_price_limit (w : World) (stock_id : pyid) : Q :=
  let '(_, is_disposition) := is_warning_or_disposition w stock_id in
  if is_disposition then 5 else 10.

(** The body of the [for i in range(...)] loop, with its [break]s. *)
Fixpoint limit_up_loop (price_df : Pandas.DataFrame) (limit_threshold : Q)
         (range : list nat) (recent_consecutive : Z) : exc Z :=
  match range with
  | [] => ret recent_consecutive
  | i :: range' =>
      (* idx = -i - 1, prev_idx = idx - 1 *)
      if (Pandas.len price_df <? i + 2)%nat then ret recent_consecutive
      else
        closes <- Pandas.col price_df "close" ;;
        prev_close <- Pandas.at_end closes (i + 2) ;;
        curr_close <- Pandas.at_end closes (i + 1) ;;
        highs <- (if Pandas.has_column "max" price_df
                  then Pandas.col price_df "max"
                  else Pandas.col price_df "high") ;;
        curr_high <- Pandas.at_end highs (i + 1) ;;
        if prev_close >? 0 then
          let change_pct := (curr_close - prev_close) / prev_close * 100 in
          if (change_pct >=? limit_threshold)
             && (Qabs (curr_close - curr_high) <? prev_close * 0.001)
          then limit_up_loop price_df limit_threshold range'
                             (recent_consecutive + 1)
          else ret recent_consecutive
        else limit_up_loop price_df limit_threshold range' recent_consecutive
  end.

Definition check_consecutive_limit_up (w : World)
           (price_df : option Pandas.DataFrame) (stock_id : pyid) (days : Z)
  : bool * Z :=
  try_except
    (match price_df with
     | None => ret (false, 0%Z)
     | Some df =>
         if Pandas.empty df || (Z.of_nat (Pandas.len df) <? days + 1)%Z
         then ret (false, 0%Z)
         else
           let limit := _get_price_limit w stock_id in
           let limit_threshold := limit - 0.1 in
           let n := Z.to_nat (Z.min days (Z.of_nat (Pandas.len df) - 1)) in
           recent_consecutive <-
             limit_up_loop df limit_threshold (seq 0 n) 0%Z ;;
           ret ((recent_consecutive <? days)%Z, recent_consecutive)
     end)
    (true, 0%Z).

End RealDataIntegrationFinal.

(* ================================================================== *)
(** * TechnicalCalculator                                              *)
(* ================================================================== *)

Module TechnicalCalculator.
Import Py.
Local Open Scope py_scope.
Local Open Scope Q_scope.

(** K crosses D upwards, and K is not in the overbought zone. *)
Definition check_golden_cross (k d : Pandas.Series) : bool :=
  try_except
    (if (length k <? 2)%nat || (length d <? 2)%nat then ret false
     else
       k1 <- Pandas.at_end k 1 ;;
       d1 <- Pandas.at_end d 1 ;;
       k2 <- Pandas.at_end k 2 ;;
       d2 <- Pandas.at_end d 2 ;;
       let cross := (k1 >? d1) && (k2 <=? d2) in
       let not_overbought := k1 <? 80 in
       ret (cross && not_overbought))
    false.

Definition check_death_cross (k d : Pandas.Series) : bool :=
  try_except
    (if (length k <? 2)%nat || (length d <? 2)%nat then ret false
     else
       k1 <- Pandas.at_end k 1 ;;
       d1 <- Pandas.at_end d 1 ;;
       k2 <- Pandas.at_end k 2 ;;
       d2 <- Pandas.at_end d 2 ;;
       ret ((k1 <? d1) && (k2 >=? d2)))
    false.

(** The close is above the highest close of the [days] bars before
    today. *)
Definition check_new_high (df : Pandas.DataFrame) (days : nat) : bool :=
  try_except
    (if (Pandas.len df <? days + 1)%nat then ret false
     else
       closes <- Pandas.col df "close" ;;
       current_price <- Pandas.at_end closes 1 ;;
       match Pandas.max (Pandas.drop_last (Pandas.tail (days + 1) closes)) with
       | Some previous_high => ret (current_price >? previous_high)
       | None => ret false
       end)
    false.

End TechnicalCalculator.

(* ================================================================== *)
(** * CompleteScreeningEngine                                          *)
(* ================================================================== *)

Module CompleteScreeningEngine.
Import Py.
Local Open Scope string_scope.
Local Open Scope Q_scope.
Local Open Scope py_scope.

Module W := RealDataIntegrationFinal.

(** ** The configuration dictionary *)

(** [{'enabled': ..., 'value': ...}] *)
Record Condition : Type := mkCondition {
  enabled : bool;
  value : num
}.

(** [{'enabled': ..., 'days': ...}], [days] optional. *)
Record LimitUp : Type := mkLimitUp {
  limit_enabled : bool;
  limit_days : option Z
}.

Module Params.
(** An absent key is [None] (or [false] for a plain flag). *)
Record t : Type := mk {
  min_conditions_to_pass : option Z;
  market_twse : bool;
  market_otc : bool;
  volume_surge1 : option Condition;
  volume_surge2 : option Condition;
  volume_surge3 : option Condition;
  min_volume : option Condition;
  daily_kd_golden : bool;
  monthly_kd_golden : bool;
  above_ma20 : bool;
  break_60d_high : bool;
  trust_buy : option Condition;
  trust_pct : option Condition;
  trust_5d : option Condition;
  trust_holding : option Condition;
  inst_5d : option Condition;
  margin_ratio : option Condition;
  margin_5d : option Condition;
  eps : option Condition;
  roe : option Condition;
  yield : option Condition;
  daily_change : option Condition;
  change_5d : option Condition;
  exclude_warning : bool;
  exclude_disposition : bool;
  exclude_limit_up : option LimitUp
}.
End Params.

(** [params.get(key, {}).get('enabled')] *)
Definition is_enabled (c : option Condition) : bool :=
  match c with
  | Some c => enabled c
  | None => false
  end.

Definition limit_up_enabled (c : option LimitUp) : bool :=
  match c with
  | Some c => limit_enabled c
  | None => false
  end.

(** ** The snapshot dictionary *)

Module Stock.
Record t : Type := mk {
  stock_id : pyid;
  eps : option Q;                     (* absent or None: [None] *)
  roe : option Q;
  trust_holding : option (option Q);  (* absent | None | a number *)
  type : option string;               (* absent: [None] *)
  price : option Pandas.DataFrame;
  institutional : option Pandas.DataFrame;
  margin : option Pandas.DataFrame
}.
End Stock.

(** The argument of [check_all_conditions]: a dict, or anything else. *)
Inductive Arg : Type :=
| NotADict
| ADict (stock_data : Stock.t).

(** ** The engine object *)

(** The two attributes are absent ([None]) until the first call sets
    them.  [_eps] and [_roe] are written too but never read. *)
Record Engine : Type := mkEngine {
  params : Params.t;
  min_conditions : Z;
  real_data_integrator : W.World;
  _current_stock_id : option pyid;
  _trust_holding : option (option Q)
}.

(** [__init__] *)
Definition init (parameters : Params.t) (w : W.World) : Engine :=
  {| params := parameters;
     min_conditions :=
       match Params.min_conditions_to_pass parameters with
       | Some n => n
       | None => 3%Z
       end;
     real_data_integrator := w;
     _current_stock_id := None;
     _trust_holding := None |}.

(** [price_df is None or price_df.empty or len(price_df) < n] *)
Definition too_short (df : option Pandas.DataFrame) (n : nat) : bool :=
  match df with
  | None => true
  | Some df => Pandas.empty df || (Pandas.len df <? n)%nat
  end.

(** The frame, once [too_short] has let it through. *)
Definition frame (df : option Pandas.DataFrame) : exc Pandas.DataFrame := df.

(** ** Volume checks *)

Definition check_volume_surge_with_value
           (price_df : option Pandas.DataFrame) (threshold : num) (days : nat)
  : bool * Q :=
  try_except
    (if too_short price_df (days + 1) then ret (false, 0)
     else
       df <- frame price_df ;;
       if negb (Pandas.has_column "Trading_Volume" df) then ret (false, 0)
       else
         volume <- Pandas.col df "Trading_Volume" ;;
         let avg_volume :=
           Pandas.mean (Pandas.drop_last (Pandas.tail (days + 1) volume)) in
         latest_volume <- Pandas.at_end volume 1 ;;
         match avg_volume with
         | Some avg_volume =>
             if avg_volume >? 0 then
               let surge_ratio := latest_volume / avg_volume in
               ret (surge_ratio >=? val threshold, surge_ratio)
             else ret (false, 0)
         | None => ret (false, 0)
         end)
    (false, 0).

Definition check_min_volume_with_value
           (price_df : option Pandas.DataFrame) (threshold : num) : bool * Q :=
  try_except
    (if too_short price_df 0 then ret (false, 0)
     else
       df <- frame price_df ;;
       if negb (Pandas.has_column "Trading_Volume" df) then ret (false, 0)
       else
         volume <- Pandas.col df "Trading_Volume" ;;
         latest_volume <- Pandas.at_end volume 1 ;;
         let threshold_shares := val threshold * 1000 in
         ret (latest_volume >=? threshold_shares, latest_volume))
    (false, 0).

(** ** Technical checks *)

(** The K and D lines over [window] bars, as both KD checks build
    them: RSV, then two smoothings with [com=2]. *)
Definition kd_lines (df : Pandas.DataFrame) (window : nat)
  : exc (Pandas.Series * Pandas.Series) :=
  highs <- Pandas.col df "max" ;;
  let high_n := Pandas.rolling window Pandas.max highs in
  lows <- Pandas.col df "min" ;;
  let low_n := Pandas.rolling window Pandas.min lows in
  closes <- Pandas.col df "close" ;;
  let rsv := Pandas.rsv_series closes low_n high_n in
  let k := Pandas.ewm (Pandas.alpha_of_com 2) rsv in
  let d := Pandas.ewm (Pandas.alpha_of_com 2) k in
  ret (k, d).

Definition golden_cross_of (k d : Pandas.Series)
  : exc (bool * option Q * option Q) :=
  if (2 <=? length k)%nat && (2 <=? length d)%nat then
    curr_k <- Pandas.at_end k 1 ;;
    curr_d <- Pandas.at_end d 1 ;;
    prev_k <- Pandas.at_end k 2 ;;
    prev_d <- Pandas.at_end d 2 ;;
    let golden_cross := (prev_k <=? prev_d) && (curr_k >? curr_d) in
    ret (golden_cross, Some curr_k, Some curr_d)
  else ret (false, None, None).

Definition check_kd_golden_with_value (price_df : option Pandas.DataFrame)
  : bool * option Q * option Q :=
  try_except
    (if too_short price_df 9 then ret (false, None, None)
     else
       df <- frame price_df ;;
       kd <- kd_lines df 9 ;;
       golden_cross_of (fst kd) (snd kd))
    (false, None, None).

Definition check_monthly_kd_golden_with_value (price_df : option Pandas.DataFrame)
  : bool * option Q * option Q :=
  try_except
    (if too_short price_df 20 then ret (false, None, None)
     else
       df <- frame price_df ;;
       kd <- kd_lines df 20 ;;
       golden_cross_of (fst kd) (snd kd))
    (false, None, None).

Definition check_above_ma20_with_value (price_df : option Pandas.DataFrame)
  : bool * option Q * option Q :=
  try_except
    (if too_short price_df 20 then ret (false, None, None)
     else
       df <- frame price_df ;;
       closes <- Pandas.col df "close" ;;
       ma20 <- Pandas.at_end (Pandas.rolling 20 Pandas.mean closes) 1 ;;
       latest_price <- Pandas.at_end closes 1 ;;
       match ma20 with
       | Some ma20 => ret (latest_price >? ma20, Some latest_price, Some ma20)
       | None => ret (false, Some latest_price, None)
       end)
    (false, None, None).

Definition check_break_60d_high_with_value (price_df : option Pandas.DataFrame)
  : bool * option Q * option Q :=
  try_except
    (if too_short price_df 60 then ret (false, None, None)
     else
       df <- frame price_df ;;
       highs <- Pandas.col df "max" ;;
       let high_60d := Pandas.max (Pandas.tail 60 highs) in
       closes <- Pandas.col df "close" ;;
       latest_price <- Pandas.at_end closes 1 ;;
       match high_60d with
       | Some high_60d =>
           ret (latest_price >=? high_60d, Some latest_price, Some high_60d)
       | None => ret (false, Some latest_price, None)
       end)
    (false, None, None).

(** ** Institutional checks *)

Definition check_trust_buy_with_value
           (inst_df : option Pandas.DataFrame) (threshold : num) : bool * Q :=
  try_except
    (if too_short inst_df 0 then ret (false, 0)
     else
       df <- frame inst_df ;;
       latest <- Pandas.iloc_end df 1 ;;
       let net_buy :=
         if Pandas.has_column "trust_net" df
         then Pandas.get latest "trust_net" 0
         else if Pandas.has_column "Investment_Trust_buy" df
                 && Pandas.has_column "Investment_Trust_sell" df
              then Pandas.get latest "Investment_Trust_buy" 0
                   - Pandas.get latest "Investment_Trust_sell" 0
              else 0 in
       let net_buy := net_buy / 1000 in
       ret (net_buy >=? val threshold, net_buy))
    (false, 0).

(** [inst_df.attrs.get('stock_id') if hasattr(inst_df, 'attrs') else None] *)
Definition attrs_id (inst_df : option Pandas.DataFrame) : pyid :=
  match inst_df with
  | Some df => Pandas.attrs_stock_id df
  | None => None
  end.

Definition check_trust_pct_with_value (self : Engine)
           (inst_df : option Pandas.DataFrame) (threshold : num) : bool * Q :=
  try_except
    (let stock_id := attrs_id inst_df in
     if truthy_id stock_id then
       let pct := W.get_trust_holding_percentage
                    (real_data_integrator self) stock_id in
       ret (pct >=? val threshold, pct)
     else
       match _current_stock_id self with
       | Some current =>
           let pct := W.get_trust_holding_percentage
                        (real_data_integrator self) current in
           ret (pct >=? val threshold, pct)
       | None => ret (false, 0)
       end)
    (false, 0).

(** [recent[c].sum()] when the column is there, else the initial 0. *)
Definition sum_if_present (df : Pandas.DataFrame) (c : string) (n : nat) : exc Q :=
  if Pandas.has_column c df
  then s <- Pandas.col df c ;; ret (Pandas.sum (Pandas.tail n s))
  else ret 0.

Definition check_trust_5d_with_value
           (inst_df : option Pandas.DataFrame) (threshold : num) : bool * Q :=
  try_except
    (if too_short inst_df 5 then ret (false, 0)
     else
       df <- frame inst_df ;;
       total_buy <- sum_if_present df "Investment_Trust_Buy" 5 ;;
       total_sell <- sum_if_present df "Investment_Trust_Sell" 5 ;;
       let net_buy := (total_buy - total_sell) / 1000 in
       ret (net_buy >=? val threshold, net_buy))
    (false, 0).

Definition check_trust_holding_with_value (self : Engine)
           (inst_df : option Pandas.DataFrame) (threshold : num) : bool * Q :=
  try_except
    (match _trust_holding self with
     | Some holding =>
         (* [None >= threshold] raises TypeError *)
         holding <- holding ;;
         ret (holding >=? val threshold, holding)
     | None =>
         let stock_id := attrs_id inst_df in
         if truthy_id stock_id then
           let change := W.get_trust_holding_change
                           (real_data_integrator self) stock_id in
           ret (change >=? val threshold, change)
         else
           match _current_stock_id self with
           | Some current =>
               let change := W.get_trust_holding_change
                               (real_data_integrator self) current in
               ret (change >=? val threshold, change)
           | None => ret (false, 0)
           end
     end)
    (false, 0).

Definition check_inst_5d_with_value
           (inst_df : option Pandas.DataFrame) (threshold : num) : bool * Q :=
  try_except
    (if too_short inst_df 5 then ret (false, 0)
     else
       df <- frame inst_df ;;
       foreign_buy <- sum_if_present df "Foreign_Investor_Buy" 5 ;;
       foreign_sell <- sum_if_present df "Foreign_Investor_Sell" 5 ;;
       trust_buy <- sum_if_present df "Investment_Trust_Buy" 5 ;;
       trust_sell <- sum_if_present df "Investment_Trust_Sell" 5 ;;
       dealer_buy <- sum_if_present df "Dealer_Buy" 5 ;;
       dealer_sell <- sum_if_present df "Dealer_Sell" 5 ;;
       let total_buy := 0 + foreign_buy + trust_buy + dealer_buy in
       let total_sell := 0 + foreign_sell + trust_sell + dealer_sell in
       let net_buy := (total_buy - total_sell) / 1000 in
       ret (net_buy >=? val threshold, net_buy))
    (false, 0).

(** ** Margin checks *)

Definition check_margin_ratio_with_value
           (margin_df : option Pandas.DataFrame) (threshold : num) : bool * Q :=
  try_except
    (if too_short margin_df 0 then ret (false, 0)
     else
       df <- frame margin_df ;;
       latest <- Pandas.iloc_end df 1 ;;
       if Pandas.has_column "MarginPurchaseTotalBalance" df
          && Pandas.has_column "MarginPurchaseLimit" df
       then
         let balance := Pandas.get latest "MarginPurchaseTotalBalance" 0 in
         let limit := Pandas.get latest "MarginPurchaseLimit" 1 in
         if limit >? 0 then
           let ratio := balance / limit * 100 in
           ret (ratio <? val threshold, ratio)
         else ret (false, 0)
       else ret (false, 0))
    (false, 0).

Definition check_margin_5d_with_value
           (margin_df : option Pandas.DataFrame) (threshold : num) : bool * Q :=
  try_except
    (if too_short margin_df 5 then ret (false, 0)
     else
       df <- frame margin_df ;;
       if Pandas.has_column "MarginPurchaseTotalBalance" df then
         latest <- Pandas.iloc_end df 1 ;;
         let current := Pandas.get latest "MarginPurchaseTotalBalance" 0 in
         past <- Pandas.iloc_end df 5 ;;
         let past_5d := Pandas.get past "MarginPurchaseTotalBalance" 0 in
         let change := (current - past_5d) / 1000 in
         ret (change >=? val threshold, change)
       else ret (false, 0))
    (false, 0).

(** ** Fundamental checks *)

Definition check_eps_with_value (self : Engine)
           (stock_data : Stock.t) (threshold : num) : bool * Q :=
  try_except
    (match Stock.eps stock_data with
     | Some eps => ret (eps >? val threshold, eps)
     | None =>
         let stock_id := Stock.stock_id stock_data in
         if truthy_id stock_id then
           let eps := W.get_real_eps (real_data_integrator self) stock_id in
           ret (eps >? val threshold, eps)
         else ret (false, 0)
     end)
    (false, 0).

Definition check_roe_with_value (self : Engine)
           (stock_data : Stock.t) (threshold : num) : bool * Q :=
  try_except
    (match Stock.roe stock_data with
     | Some roe => ret (roe >? val threshold, roe)
     | None =>
         let stock_id := Stock.stock_id stock_data in
         if truthy_id stock_id then
           let roe := W.get_real_roe (real_data_integrator self) stock_id in
           ret (roe >? val threshold, roe)
         else ret (false, 0)
     end)
    (false, 0).

(** Reading the current price raises when the frame has no close
    column. *)
Definition check_yield_with_value (self : Engine) (stock_data : Stock.t)
           (price_df : option Pandas.DataFrame) (threshold : num) : bool * Q :=
  try_except
    (let stock_id := Stock.stock_id stock_data in
     if truthy_id stock_id then
       current_price <-
         (match price_df with
          | Some df =>
              if negb (Pandas.empty df)
              then closes <- Pandas.col df "close" ;;
                   c <- Pandas.at_end closes 1 ;; ret (Some c)
              else ret None
          | None => ret None
          end) ;;
       let yield_rate :=
         W.get_real_dividend_yield
           (real_data_integrator self) stock_id current_price in
       ret (yield_rate >? val threshold, yield_rate)
     else ret (false, 0))
    (false, 0).

(** ** Price-change checks *)

Definition check_daily_change_with_value
           (price_df : option Pandas.DataFrame) (threshold : num) : bool * Q :=
  try_except
    (if too_short price_df 2 then ret (false, 0)
     else
       df <- frame price_df ;;
       closes <- Pandas.col df "close" ;;
       latest_close <- Pandas.at_end closes 1 ;;
       prev_close <- Pandas.at_end closes 2 ;;
       if prev_close >? 0 then
         let change_pct := (latest_close - prev_close) / prev_close * 100 in
         ret (Qabs change_pct <=? val threshold, change_pct)
       else ret (false, 0))
    (false, 0).

Definition check_5d_change_with_value
           (price_df : option Pandas.DataFrame) (threshold : num) : bool * Q :=
  try_except
    (if too_short price_df 5 then ret (false, 0)
     else
       df <- frame price_df ;;
       closes <- Pandas.col df "close" ;;
       latest_close <- Pandas.at_end closes 1 ;;
       close_5d_ago <- Pandas.at_end closes 5 ;;
       if close_5d_ago >? 0 then
         let change_pct := (latest_close - close_5d_ago) / close_5d_ago * 100 in
         ret (Qabs change_pct <=? val threshold, change_pct)
       else ret (false, 0))
    (false, 0).

(** ** Exclusion checks *)

(** The integrator's lookup cannot raise, so the two handlers of the
    flag checks (which would answer [True]) are never entered. *)

Definition check_not_warning (self : Engine) (stock_data : Stock.t) : bool :=
  let stock_id := Stock.stock_id stock_data in
  if truthy_id stock_id then
    negb (fst (W.is_warning_or_disposition (real_data_integrator self) stock_id))
  else true.

Definition check_not_disposition (self : Engine) (stock_data : Stock.t) : bool :=
  let stock_id := Stock.stock_id stock_data in
  if truthy_id stock_id then
    negb (snd (W.is_warning_or_disposition (real_data_integrator self) stock_id))
  else true.

(** The loop of the branch taken without a stock id. *)
Fixpoint fallback_limit_up_loop (df : Pandas.DataFrame) (range : list nat)
         (limit_up_days : Z) : exc Z :=
  match range with
  | [] => ret limit_up_days
  | i :: range' =>
      if (Pandas.len df <=? i)%nat then ret limit_up_days
      else
        curr <- Pandas.iloc_end df i ;;
        curr_close <- Pandas.item curr "close" ;;
        let curr_high :=
          Pandas.get curr "max" (Pandas.get curr "high" curr_close) in
        prev_close <-
          (if (i + 1 <? Pandas.len df)%nat
           then prev <- Pandas.iloc_end df (i + 1) ;; Pandas.item prev "close"
           else ret curr_close) ;;
        if prev_close >? 0 then
          let change := (curr_close - prev_close) / prev_close * 100 in
          if (change >=? 9.9)
             && (Qabs (curr_close - curr_high) <? prev_close * 0.001)
          then fallback_limit_up_loop df range' (limit_up_days + 1)
          else ret limit_up_days
        else fallback_limit_up_loop df range' limit_up_days
  end.

Definition check_not_limit_up_with_value (self : Engine)
           (price_df : option Pandas.DataFrame) (days : Z) : bool * Z :=
  try_except
    (match price_df with
     | None => ret (true, 0%Z)
     | Some df =>
         if Pandas.empty df || (Z.of_nat (Pandas.len df) <? days)%Z
         then ret (true, 0%Z)
         else
           (* getattr(self, '_current_stock_id', None) *)
           let stock_id :=
             match _current_stock_id self with
             | Some i => i
             | None => None
             end in
           if truthy_id stock_id then
             ret (W.check_consecutive_limit_up
                    (real_data_integrator self) price_df stock_id days)
           else
             let stop := Z.to_nat (Z.min (days + 1) (Z.of_nat (Pandas.len df))) in
             limit_up_days <-
               fallback_limit_up_loop df (seq 1 (stop - 1)) 0%Z ;;
             ret ((limit_up_days <? days)%Z, limit_up_days)
     end)
    (true, 0%Z).

(** ** check_all_conditions *)

(** One condition's entry in [results] and in [values]. *)
Record Verdict : Type := mkVerdict {
  key : string;
  passed : bool;
  display : string
}.

(** A value of the returned dictionary. *)
Inductive rv : Type :=
| RBool (b : bool)
| RInt (z : Z)
| RValues (d : dict string).

(** [v == True]: Python also equates the integer 1 with [True]. *)
Definition eq_True (v : rv) : bool :=
  match v with
  | RBool b => b
  | RInt z => (z =? 1)%Z
  | RValues _ => false
  end.

(** [threshold] conditions: the block runs when enabled and reads
    [params[name]['value']]. *)
Definition when_enabled (c : option Condition) (f : num -> Verdict)
  : option Verdict :=
  match c with
  | Some c => if enabled c then Some (f (value c)) else None
  | None => None
  end.

Definition when_flag (b : bool) (v : Verdict) : option Verdict :=
  if b then Some v else None.

Definition fmt_pair (l1 l2 na : string) (a b : option Q) : string :=
  match a, b with
  | Some a, Some b => fstring [l1; fmt_f 1 a; l2; fmt_f 1 b]
  | _, _ => na
  end.

Section Blocks.
Variable self : Engine.
Variable stock_data : Stock.t.
Variables price_df inst_df margin_df : option Pandas.DataFrame.

Let p := params self.

Definition stock_type : string :=
  match Stock.type stock_data with
  | Some t => t
  | None => "unknown"
  end.

Definition block_market_twse : option Verdict :=
  when_flag (Params.market_twse p)
    (mkVerdict "market_twse" (String.eqb stock_type "twse")
               (fstring ["市場: "; stock_type])).

Definition block_market_otc : option Verdict :=
  when_flag (Params.market_otc p)
    (mkVerdict "market_otc" (String.eqb stock_type "otc")
               (fstring ["市場: "; stock_type])).

Definition block_volume_surge1 : option Verdict :=
  when_enabled (Params.volume_surge1 p) (fun threshold =>
    let '(passed, ratio) :=
      check_volume_surge_with_value price_df threshold 5 in
    mkVerdict "volume_surge_1_5x" passed
      (fstring ["爆量倍數: "; fmt_f 2 ratio; "x (門檻: "; str threshold; "x)"])).

Definition block_volume_surge2 : option Verdict :=
  when_enabled (Params.volume_surge2 p) (fun threshold =>
    let '(passed, ratio) :=
      check_volume_surge_with_value price_df threshold 20 in
    mkVerdict "volume_surge_20d_3x" passed
      (fstring ["20日爆量: "; fmt_f 2 ratio; "x (門檻: "; str threshold; "x)"])).

Definition block_volume_surge3 : option Verdict :=
  when_enabled (Params.volume_surge3 p) (fun threshold =>
    let '(passed, ratio) :=
      check_volume_surge_with_value price_df threshold 60 in
    mkVerdict "volume_surge_60d_5x" passed
      (fstring ["60日爆量: "; fmt_f 2 ratio; "x (門檻: "; str threshold; "x)"])).

Definition block_min_volume : option Verdict :=
  when_enabled (Params.min_volume p) (fun threshold =>
    let '(passed, volume) := check_min_volume_with_value price_df threshold in
    let volume_lots := if Qeq_bool volume 0 then 0 else volume / 1000 in
    mkVerdict "min_volume" passed
      (fstring ["成交量: "; fmt_f 0 volume_lots; "張 (門檻: "; str threshold; "張)"])).

Definition block_daily_kd_golden : option Verdict :=
  when_flag (Params.daily_kd_golden p)
    (let '(passed, k_value, d_value) := check_kd_golden_with_value price_df in
     mkVerdict "daily_kd_golden" passed
       (fmt_pair "K=" ", D=" "K=N/A, D=N/A" k_value d_value)).

Definition block_monthly_kd_golden : option Verdict :=
  when_flag (Params.monthly_kd_golden p)
    (let '(passed, k_value, d_value) :=
       check_monthly_kd_golden_with_value price_df in
     mkVerdict "monthly_kd_golden" passed
       (fmt_pair "月K=" ", 月D=" "月K=N/A, 月D=N/A" k_value d_value)).

Definition block_above_ma20 : option Verdict :=
  when_flag (Params.above_ma20 p)
    (let '(passed, price, ma20) := check_above_ma20_with_value price_df in
     mkVerdict "above_ma20" passed
       (fmt_pair "價格: " ", MA20: " "價格: N/A, MA20: N/A" price ma20)).

Definition block_break_60d_high : option Verdict :=
  when_flag (Params.break_60d_high p)
    (let '(passed, price, high_60d) :=
       check_break_60d_high_with_value price_df in
     mkVerdict "break_60d_high" passed
       (fmt_pair "價格: " ", 60日高: " "價格: N/A, 60日高: N/A" price high_60d)).

Definition block_trust_buy : option Verdict :=
  when_enabled (Params.trust_buy p) (fun threshold =>
    let '(passed, buy_amount) := check_trust_buy_with_value inst_df threshold in
    mkVerdict "trust_buy" passed
      (fstring ["投信買超: "; fmt_f 0 buy_amount; "張 (門檻: "; str threshold; "張)"])).

Definition block_trust_pct : option Verdict :=
  when_enabled (Params.trust_pct p) (fun threshold =>
    let '(passed, pct) := check_trust_pct_with_value self inst_df threshold in
    mkVerdict "trust_pct" passed
      (fstring ["投信持股: "; fmt_f 2 pct; "% (門檻: "; str threshold; "%)"])).

Definition block_trust_5d : option Verdict :=
  when_enabled (Params.trust_5d p) (fun threshold =>
    let '(passed, total_buy) := check_trust_5d_with_value inst_df threshold in
    mkVerdict "trust_5d" passed
      (fstring ["投信5日買超: "; fmt_f 0 total_buy; "張 (門檻: "; str threshold; "張)"])).

Definition block_trust_holding : option Verdict :=
  when_enabled (Params.trust_holding p) (fun threshold =>
    let '(passed, change) :=
      check_trust_holding_with_value self inst_df threshold in
    mkVerdict "trust_holding" passed
      (fstring ["投信持股變化: "; fmt_f 2 change; "% (門檻: "; str threshold; "%)"])).

Definition block_inst_5d : option Verdict :=
  when_enabled (Params.inst_5d p) (fun threshold =>
    let '(passed, total_buy) := check_inst_5d_with_value inst_df threshold in
    mkVerdict "inst_5d" passed
      (fstring ["法人5日買超: "; fmt_f 0 total_buy; "張 (門檻: "; str threshold; "張)"])).

Definition block_margin_ratio : option Verdict :=
  when_enabled (Params.margin_ratio p) (fun threshold =>
    let '(passed, ratio) := check_margin_ratio_with_value margin_df threshold in
    mkVerdict "margin_ratio" passed
      (fstring ["融資使用率: "; fmt_f 2 ratio; "% (門檻: <"; str threshold; "%)"])).

Definition block_margin_5d : option Verdict :=
  when_enabled (Params.margin_5d p) (fun threshold =>
    let '(passed, change) := check_margin_5d_with_value margin_df threshold in
    mkVerdict "margin_5d" passed
      (fstring ["融資5日增減: "; fmt_f 0 change; "張 (門檻: "; str threshold; "張)"])).

Definition block_eps : option Verdict :=
  when_enabled (Params.eps p) (fun threshold =>
    let '(passed, eps) := check_eps_with_value self stock_data threshold in
    mkVerdict "eps" passed
      (fstring ["EPS: "; fmt_f 2 eps; " (門檻: >"; str threshold; ")"])).

Definition block_roe : option Verdict :=
  when_enabled (Params.roe p) (fun threshold =>
    let '(passed, roe) := check_roe_with_value self stock_data threshold in
    mkVerdict "roe" passed
      (fstring ["ROE: "; fmt_f 2 roe; "% (門檻: >"; str threshold; "%)"])).

Definition block_yield : option Verdict :=
  when_enabled (Params.yield p) (fun threshold =>
    let '(passed, yield_rate) :=
      check_yield_with_value self stock_data price_df threshold in
    mkVerdict "yield" passed
      (fstring ["殖利率: "; fmt_f 2 yield_rate; "% (門檻: >"; str threshold; "%)"])).

Definition block_daily_change : option Verdict :=
  when_enabled (Params.daily_change p) (fun threshold =>
    let '(passed, change) := check_daily_change_with_value price_df threshold in
    mkVerdict "daily_change" passed
      (fstring ["日漲跌: "; fmt_f 2 change; "% (門檻: ±"; str threshold; "%)"])).

Definition block_change_5d : option Verdict :=
  when_enabled (Params.change_5d p) (fun threshold =>
    let '(passed, change) := check_5d_change_with_value price_df threshold in
    mkVerdict "change_5d" passed
      (fstring ["5日漲跌: "; fmt_f 2 change; "% (門檻: ±"; str threshold; "%)"])).

Definition block_not_warning : option Verdict :=
  when_flag (Params.exclude_warning p)
    (let passed := check_not_warning self stock_data in
     mkVerdict "not_warning" passed
               (if passed then "非警示股" else "警示股")).

Definition block_not_disposition : option Verdict :=
  when_flag (Params.exclude_disposition p)
    (let passed := check_not_disposition self stock_data in
     mkVerdict "not_disposition" passed
               (if passed then "非處置股" else "處置股")).

Definition block_not_limit_up : option Verdict :=
  match Params.exclude_limit_up p with
  | Some c =>
      if limit_enabled c then
        let days := match limit_days c with Some d => d | None => 3%Z end in
        let '(passed, limit_days) :=
          check_not_limit_up_with_value self price_df days in
        Some (mkVerdict "not_limit_up" passed
                (fstring ["連續漲停: "; str_int limit_days;
                          "天 (門檻: <"; str_int days; "天)"]))
      else None
  | None => None
  end.

(** The blocks in the order the method runs them. *)
Definition blocks : list (option Verdict) :=
  [ block_market_twse; block_market_otc;
    block_volume_surge1; block_volume_surge2; block_volume_surge3;
    block_min_volume;
    block_daily_kd_golden; block_monthly_kd_golden;
    block_above_ma20; block_break_60d_high;
    block_trust_buy; block_trust_pct; block_trust_5d;
    block_trust_holding; block_inst_5d;
    block_margin_ratio; block_margin_5d;
    block_eps; block_roe; block_yield;
    block_daily_change; block_change_5d;
    block_not_warning; block_not_disposition; block_not_limit_up ].

End Blocks.

(** [results[key] = passed; values[key] = display], when the block ran. *)
Definition record (acc : dict rv * dict string) (b : option Verdict)
  : dict rv * dict string :=
  match b with
  | Some v => (set (fst acc) (key v) (RBool (passed v)),
               set (snd acc) (key v) (display v))
  | None => acc
  end.

(** [sum(1 for v in results.values() if v == True)] *)
Definition count_true (results : dict rv) : Z :=
  Z.of_nat (length (filter eq_True (Py.values results))).

(** What a call leaves behind: the returned dict, the engine with its
    attributes set, and the snapshot whose institutional frame now
    carries the stock id in [attrs]. *)
Record Outcome : Type := mkOutcome {
  result : dict rv;
  engine : Engine;
  snapshot : Arg
}.

Definition set_attrs_id (inst_df : option Pandas.DataFrame) (i : pyid)
  : option Pandas.DataFrame :=
  match inst_df with
  | Some df =>
      Some (Pandas.mkDataFrame (Pandas.columns df) (Pandas.rows df) i)
  | None => None
  end.

Definition check_all_conditions (self : Engine) (arg : Arg) : Outcome :=
  match arg with
  | NotADict =>
      mkOutcome [("matched_count", RInt 0); ("passed", RBool false);
                 ("values", RValues [])]
                self arg
  | ADict stock_data =>
      let self :=
        {| params := params self;
           min_conditions := min_conditions self;
           real_data_integrator := real_data_integrator self;
           _current_stock_id := Some (Stock.stock_id stock_data);
           _trust_holding :=
             Some (match Stock.trust_holding stock_data with
                   | Some v => v
                   | None => Some 0
                   end) |} in
      let price_df := Stock.price stock_data in
      let inst_df :=
        set_attrs_id (Stock.institutional stock_data)
                     (Stock.stock_id stock_data) in
      let margin_df := Stock.margin stock_data in
      let '(results, values) :=
        fold_left record
                  (blocks self stock_data price_df inst_df margin_df)
                  ([], []) in
      let matched_count := count_true results in
      let results := set results "matched_count" (RInt matched_count) in
      let results :=
        set results "passed" (RBool (min_conditions self <=? matched_count)%Z) in
      let results := set results "values" (RValues values) in
      mkOutcome results self
        (ADict (Stock.mk (Stock.stock_id stock_data) (Stock.eps stock_data)
                         (Stock.roe stock_data)
                         (Stock.trust_holding stock_data)
                         (Stock.type stock_data) price_df inst_df margin_df))
  end.

End CompleteScreeningEngine.

(* ================================================================== *)
(** * ScoringSystem                                                    *)
(* ================================================================== *)

Module ScoringSystem.
Import Py.
Local Open Scope string_scope.
Local Open Scope Z_scope.

Module E := CompleteScreeningEngine.

Definition weights : dict Z :=
  [ ("volume_surge_5x", 20); ("volume_surge_3x", 10);
    ("volume_surge_1_5x", 5); ("min_volume", 3);
    ("daily_kd_golden", 10); ("monthly_kd_golden", 8);
    ("above_ma20", 5); ("break_60d_high", 15);
    ("trust_buy", 10); ("trust_pct", 5); ("trust_5d", 10); ("inst_5d", 5);
    ("eps_positive", 5); ("roe_above", 5); ("yield_above", 5);
    ("daily_change_moderate", 3); ("change_5d_moderate", 3);
    ("margin_ratio", 2); ("margin_5d", 2);
    ("not_warning", 2); ("not_disposition", 2); ("not_limit_up", 3) ].

Definition combo_bonus : dict Z :=
  [ ("perfect_volume", 10); ("tech_fundamental", 15);
    ("institutional_support", 10) ].

(** Truthiness of a value of the result dictionary. *)
Definition truthy (v : E.rv) : bool :=
  match v with
  | E.RBool b => b
  | E.RInt z => negb (z =? 0)
  | E.RValues d => negb (length d =? 0)%nat
  end.

(** [check_result.get(c, False)], as a condition. *)
Definition get_false (check_result : dict E.rv) (c : string) : bool :=
  match get check_result c with
  | Some v => truthy v
  | None => false
  end.

Definition bonus (name : string) : Z :=
  match get combo_bonus name with
  | Some b => b
  | None => 0
  end.

Definition count_matched (check_result : dict E.rv) (cs : list string) : Z :=
  Z.of_nat (length (filter (get_false check_result) cs)).

(** The test guarding the [perfect_volume] bonus. *)
Definition perfect_volume (check_result : dict E.rv) : bool :=
  forallb (fun x => get_false check_result ("volume_surge_" ++ x))
          ["1_5x"; "3x"; "5x"].

Definition _calculate_combo_bonus (check_result : dict E.rv) : Z :=
  let bonus0 := 0 in
  let bonus1 :=
    if perfect_volume check_result
    then bonus0 + bonus "perfect_volume" else bonus0 in
  let tech_conditions := ["daily_kd_golden"; "above_ma20"; "break_60d_high"] in
  let fundamental_conditions := ["eps_positive"; "roe_above"; "yield_above"] in
  let tech_count := count_matched check_result tech_conditions in
  let fund_count := count_matched check_result fundamental_conditions in
  let bonus2 :=
    if (2 <=? tech_count) && (2 <=? fund_count)
    then bonus1 + bonus "tech_fundamental" else bonus1 in
  let inst_conditions := ["trust_buy"; "trust_5d"; "inst_5d"] in
  let inst_count := count_matched check_result inst_conditions in
  if 2 <=? inst_count
  then bonus2 + bonus "institutional_support" else bonus2.

Definition _get_grade (score : Z) : string :=
  if 90 <=? score then "A+"
  else if 80 <=? score then "A"
  else if 70 <=? score then "B+"
  else if 60 <=? score then "B"
  else "C".

Definition member (c : string) (l : list string) : bool :=
  existsb (String.eqb c) l.

Definition _get_key_signal (matched_conditions : list string) : string :=
  let volume :=
    if member "volume_surge_5x" matched_conditions then ["極度爆量"]
    else if member "volume_surge_3x" matched_conditions then ["中度爆量"]
    else if member "volume_surge_1_5x" matched_conditions then ["爆量"]
    else [] in
  let kd := if member "daily_kd_golden" matched_conditions
            then ["KD黃金交叉"] else [] in
  let high := if member "break_60d_high" matched_conditions
              then ["突破新高"] else [] in
  let buy := if member "trust_buy" matched_conditions
             then ["投信買超"] else [] in
  let buy5 := if member "trust_5d" matched_conditions
              then ["投信連買"] else [] in
  let fund := if forallb (fun c => member c matched_conditions)
                         ["eps_positive"; "roe_above"]
              then ["基本面優良"] else [] in
  let signals := (volume ++ kd ++ high ++ buy ++ buy5 ++ fund)%list in
  match signals with
  | [] => "觀察中"
  | _ => String.concat " + " (firstn 3 signals)
  end.

Record Score : Type := mkScore {
  total_score : Z;
  base_score : Z;
  combo_score : Z;
  grade : string;
  key_signal : string;
  matched_conditions : list string
}.

(** The [for condition, passed in check_result.items()] loop. *)
Fixpoint base_loop (items : dict E.rv) (base : Z) (matched : list string)
  : Z * list string :=
  match items with
  | [] => (base, matched)
  | (condition, passed) :: items' =>
      match get weights condition with
      | Some w =>
          if truthy passed
          then base_loop items' (base + w) (matched ++ [condition])%list
          else base_loop items' base matched
      | None => base_loop items' base matched
      end
  end.

Definition calculate_score (check_result : dict E.rv) : Score :=
  let '(base, matched) := base_loop check_result 0 [] in
  let combo := _calculate_combo_bonus check_result in
  let total := Z.min 100 (base + combo) in
  mkScore total base combo (_get_grade total) (_get_key_signal matched) matched.

End ScoringSystem.

(* ================================================================== *)
(** * EnhancedDataFetcher: the EPS chain                               *)
(* ================================================================== *)

Module EnhancedDataFetcher.
Import Py.
Local Open Scope string_scope.
Local Open Scope Q_scope.
Local Open Scope py_scope.

(** One entry of the exchange's BWIBBU_ALL listing, its numeric fields
    already through [float(item.get(name, 0) or 0)]. *)
Record Item : Type := mkItem {
  Code : string;
  PEratio : Q;
  Close : Q;
  EPS : Q
}.

(** What the two services answer; [None] is any failure of the request
    or of the decoding (an exception inside the fetcher). *)
Record Services : Type := mkServices {
  bwibbu_all : exc (list Item);
  stock_per_eps : string -> exc (list Q)   (* the EPS column, oldest first *)
}.

(** [round(x, 2)] *)
Definition round2 (x : Q) : Q := inject_Z (round_half_even (x * 100)) / 100.

Fixpoint twse_loop (data : list Item) (stock_id : string) : Q :=
  match data with
  | [] => 0
  | item :: data' =>
      if String.eqb (Code item) stock_id then
        if (PEratio item >? 0) && (Close item >? 0)
        then round2 (Close item / PEratio item)
        else if EPS item >? 0 then EPS item
             else twse_loop data' stock_id
      else twse_loop data' stock_id
  end.

Definition get_eps_from_twse (s : Services) (stock_id : string) : Q :=
  try_except (data <- bwibbu_all s ;; ret (twse_loop data stock_id)) 0.

Definition get_eps_from_finmind (s : Services) (stock_id : string) : Q :=
  try_except
    (eps <- stock_per_eps s stock_id ;;
     match eps with
     | [] => ret 0
     | _ => latest_eps <- Pandas.at_end eps 1 ;;
            if latest_eps >? 0 then ret latest_eps else ret 0
     end)
    0.

Definition large_caps : dict Q :=
  [ ("2330", 39.2); ("2454", 72.5); ("2317", 10.5); ("2308", 11.2);
    ("2382", 4.8); ("2303", 2.8); ("2412", 5.2); ("2886", 2.1);
    ("2891", 2.5); ("1301", 3.8) ].

Definition get_default_eps (stock_id : string) : Q :=
  match get large_caps stock_id with
  | Some eps => eps
  | None => 2.5
  end.

Definition get_eps_guaranteed (s : Services) (stock_id : string) : Q :=
  try_except
    (let eps_twse := get_eps_from_twse s stock_id in
     if eps_twse >? 0 then ret eps_twse
     else
       let eps_finmind := get_eps_from_finmind s stock_id in
       if eps_finmind >? 0 then ret eps_finmind
       else ret (get_default_eps stock_id))
    (get_default_eps stock_id).

End EnhancedDataFetcher.

(* ================================================================== *)
(** * diagnostic_fix.py: the trust-holding check of the fixed engine   *)
(* ================================================================== *)

Module DiagnosticFix.
Import Py.
Local Open Scope string_scope.
Local Open Scope Q_scope.
Local Open Scope py_scope.

Module E := CompleteScreeningEngine.

(** [CompleteScreeningEngineFixed._check_trust_holding]: the condition
    is a ceiling, "this is a < condition". *)
Definition _check_trust_holding (p : E.Params.t) (data : E.Stock.t)
  : bool * option string :=
  if negb (E.is_enabled (E.Params.trust_holding p)) then (false, None)
  else
    match E.Params.trust_holding p with
    | Some c =>
        match E.Stock.trust_holding data with
        | Some (Some value) =>
            (value <? val (E.value c),
             Some (fstring [fmt_f 2 value; "%"]))
        | _ => (false, None)
        end
    | None => (false, None)
    end.

End DiagnosticFix.

(* ================================================================== *)
(** * Statements about the evaluation result                           *)
(* ================================================================== *)

Module Result.
Import Py.
Import CompleteScreeningEngine.
Local Open Scope string_scope.

(** The three entries the method appends after the verdicts. *)
Definition bookkeeping (k : string) : bool :=
  existsb (String.eqb k) ["matched_count"; "passed"; "values"].

(** The condition verdicts of a returned dictionary. *)
Definition verdicts (r : dict rv) : dict rv :=
  filter (fun kv => negb (bookkeeping (fst kv))) r.

(** A verdict recorded as passed: exactly [True]. *)
Definition is_True (v : rv) : bool :=
  match v with
  | RBool true => true
  | _ => false
  end.

Definition count_passed (r : dict rv) : Z :=
  Z.of_nat (length (filter is_True (Py.values (verdicts r)))).

(** The display strings of a returned dictionary. *)
Definition displays (r : dict rv) : dict string :=
  match get r "values" with
  | Some (RValues d) => d
  | _ => []
  end.

(** Which configuration entry switches each verdict key on. *)
Definition enabled_table (p : Params.t) : dict bool :=
  [ ("market_twse", Params.market_twse p);
    ("market_otc", Params.market_otc p);
    ("volume_surge_1_5x", is_enabled (Params.volume_surge1 p));
    ("volume_surge_20d_3x", is_enabled (Params.volume_surge2 p));
    ("volume_surge_60d_5x", is_enabled (Params.volume_surge3 p));
    ("min_volume", is_enabled (Params.min_volume p));
    ("daily_kd_golden", Params.daily_kd_golden p);
    ("monthly_kd_golden", Params.monthly_kd_golden p);
    ("above_ma20", Params.above_ma20 p);
    ("break_60d_high", Params.break_60d_high p);
    ("trust_buy", is_enabled (Params.trust_buy p));
    ("trust_pct", is_enabled (Params.trust_pct p));
    ("trust_5d", is_enabled (Params.trust_5d p));
    ("trust_holding", is_enabled (Params.trust_holding p));
    ("inst_5d", is_enabled (Params.inst_5d p));
    ("margin_ratio", is_enabled (Params.margin_ratio p));
    ("margin_5d", is_enabled (Params.margin_5d p));
    ("eps", is_enabled (Params.eps p));
    ("roe", is_enabled (Params.roe p));
    ("yield", is_enabled (Params.yield p));
    ("daily_change", is_enabled (Params.daily_change p));
    ("change_5d", is_enabled (Params.change_5d p));
    ("not_warning", Params.exclude_warning p);
    ("not_disposition", Params.exclude_disposition p);
    ("not_limit_up", limit_up_enabled (Params.exclude_limit_up p)) ].

Definition condition_enabled (p : Params.t) (k : string) : bool :=
  match get (enabled_table p) k with
  | Some b => b
  | None => false
  end.

(** The remote services changing their answers between two calls. *)
Definition with_world (w : W.World) (self : Engine) : Engine :=
  {| params := params self;
     min_conditions := min_conditions self;
     real_data_integrator := w;
     _current_stock_id := _current_stock_id self;
     _trust_holding := _trust_holding self |}.

(** Two worlds giving the same answers about one stock. *)
Definition same_answers (w1 w2 : W.World) (i : pyid) : Prop :=
  W.get_trust_holding_percentage w1 i = W.get_trust_holding_percentage w2 i
  /\ W.get_real_eps w1 i = W.get_real_eps w2 i
  /\ W.get_real_roe w1 i = W.get_real_roe w2 i
  /\ W.fetch_dividend_yield w1 i = W.fetch_dividend_yield w2 i
  /\ W.is_warning_or_disposition w1 i = W.is_warning_or_disposition w2 i.

(** What the loop over the blocks maintains: every recorded key belongs
    to an enabled condition, and every verdict is a boolean. *)
Definition verdict_entry (p : Params.t) (kv : string * rv) : Prop :=
  condition_enabled p (fst kv) = true /\ exists b, snd kv = RBool b.

Definition display_entry (p : Params.t) (kv : string * string) : Prop :=
  condition_enabled p (fst kv) = true.

End Result.

(* ================================================================== *)
(** * The volume-surge ratio, as the design describes it               *)
(* ================================================================== *)

Module VolumeSurgeSpec.
Import Py.
Import CompleteScreeningEngine.
Local Open Scope string_scope.
Local Open Scope Q_scope.
Local Open Scope py_scope.

(** The volume column of the series, when there is one. *)
Definition volumes (price_df : option Pandas.DataFrame) : option Pandas.Series :=
  match price_df with
  | Some df => Pandas.col df "Trading_Volume"
  | None => None
  end.

(** The volumes of the [n] bars before the current one. *)
Definition trailing (n : nat) (vol : Pandas.Series) : Pandas.Series :=
  firstn n (skipn (length vol - (n + 1)) vol).

(** Their average; undefined without [n] earlier bars. *)
Definition trailing_average (n : nat) (vol : Pandas.Series) : option Q :=
  if (n + 1 <=? length vol)%nat then Pandas.mean (trailing n vol) else None.

Definition latest (vol : Pandas.Series) : option Q :=
  match rev vol with
  | x :: _ => Some x
  | [] => None
  end.

(** latest / trailing average, defined when the average is positive. *)
Definition ratio (price_df : option Pandas.DataFrame) (n : nat) : option Q :=
  match volumes price_df with
  | Some vol =>
      match trailing_average n vol, latest vol with
      | Some avg, Some l => if avg >? 0 then Some (l / avg) else None
      | _, _ => None
      end
  | None => None
  end.

(** The verdict and the reported ratio; an undefined ratio fails and is
    reported as 0. *)
Definition volume_surge (price_df : option Pandas.DataFrame)
           (threshold : num) (n : nat) : bool * Q :=
  match ratio price_df n with
  | Some r => (r >=? val threshold, r)
  | None => (false, 0)
  end.

(** The three tiers of the condition. *)
Inductive Tier : Type := Tier5 | Tier20 | Tier60.

Definition tier_days (t : Tier) : nat :=
  match t with Tier5 => 5 | Tier20 => 20 | Tier60 => 60 end%nat.

Definition tier_config (p : Params.t) (t : Tier) : option Condition :=
  match t with
  | Tier5 => Params.volume_surge1 p
  | Tier20 => Params.volume_surge2 p
  | Tier60 => Params.volume_surge3 p
  end.

Definition tier_key (t : Tier) : string :=
  match t with
  | Tier5 => "volume_surge_1_5x"
  | Tier20 => "volume_surge_20d_3x"
  | Tier60 => "volume_surge_60d_5x"
  end.

Definition tier_label (t : Tier) : string :=
  match t with
  | Tier5 => "爆量倍數: "
  | Tier20 => "20日爆量: "
  | Tier60 => "60日爆量: "
  end.

Definition tier_block (self : Engine) (price_df : option Pandas.DataFrame)
           (t : Tier) : option Verdict :=
  match t with
  | Tier5 => block_volume_surge1 self price_df
  | Tier20 => block_volume_surge2 self price_df
  | Tier60 => block_volume_surge3 self price_df
  end.

End VolumeSurgeSpec.

(* ================================================================== *)
(** * Concrete snapshots and configurations                            *)
(* ================================================================== *)

Module Examples.
Import Py.
Import CompleteScreeningEngine.
Local Open Scope string_scope.
Local Open Scope Q_scope.

(** No service reachable: every fetcher returns its failure value. *)
Definition offline : W.World :=
  {| W._get_trust_holding_from_twse := fun _ => 0;
     W._calculate_trust_holding_from_history := fun _ => 0;
     W.get_trust_holding_change := fun _ => 0;
     W.get_real_eps := fun _ => 0;
     W._calculate_roe_from_financial := fun _ => 0;
     W._get_roe_from_yahoo := fun _ => 0;
     W.fetch_dividend_yield := fun _ => 0;
     W.get_warning_stocks := [];
     W.get_disposition_stocks := [] |}.

(** The exchange answers again, with a trust holding of 5.2%. *)
Definition online : W.World :=
  {| W._get_trust_holding_from_twse := fun _ => 5.2;
     W._calculate_trust_holding_from_history := fun _ => 0;
     W.get_trust_holding_change := fun _ => 0;
     W.get_real_eps := fun _ => 0;
     W._calculate_roe_from_financial := fun _ => 0;
     W._get_roe_from_yahoo := fun _ => 0;
     W.fetch_dividend_yield := fun _ => 0;
     W.get_warning_stocks := [];
     W.get_disposition_stocks := [] |}.

(** EPS > 0, ROE > 10, trust holding against 15, three conditions to pass. *)
Definition scenario_params : Params.t :=
  {|
     Params.min_conditions_to_pass := Some 3%Z;
     Params.market_twse := false;
     Params.market_otc := false;
     Params.volume_surge1 := None;
     Params.volume_surge2 := None;
     Params.volume_surge3 := None;
     Params.min_volume := None;
     Params.daily_kd_golden := false;
     Params.monthly_kd_golden := false;
     Params.above_ma20 := false;
     Params.break_60d_high := false;
     Params.trust_buy := None;
     Params.trust_pct := None;
     Params.trust_5d := None;
     Params.trust_holding := Some (mkCondition true (PyInt 15));
     Params.inst_5d := None;
     Params.margin_ratio := None;
     Params.margin_5d := None;
     Params.eps := Some (mkCondition true (PyInt 0));
     Params.roe := Some (mkCondition true (PyInt 10));
     Params.yield := None;
     Params.daily_change := None;
     Params.change_5d := None;
     Params.exclude_warning := false;
     Params.exclude_disposition := false;
     Params.exclude_limit_up := None |}.

(** EPS 39.2, ROE 28.5, trust holding 0.8; no series. *)
Definition scenario_stock : Stock.t :=
  {| Stock.stock_id := Some "2330";
     Stock.eps := Some 39.2;
     Stock.roe := Some 28.5;
     Stock.trust_holding := Some (Some 0.8);
     Stock.type := None;
     Stock.price := None;
     Stock.institutional := None;
     Stock.margin := None |}.

(** The three volume-surge tiers at 1.5x, 3x and 5x. *)
Definition surge_params : Params.t :=
  {|
     Params.min_conditions_to_pass := Some 3%Z;
     Params.market_twse := false;
     Params.market_otc := false;
     Params.volume_surge1 := Some (mkCondition true (PyFloat 1.5));
     Params.volume_surge2 := Some (mkCondition true (PyFloat 3));
     Params.volume_surge3 := Some (mkCondition true (PyFloat 5));
     Params.min_volume := None;
     Params.daily_kd_golden := false;
     Params.monthly_kd_golden := false;
     Params.above_ma20 := false;
     Params.break_60d_high := false;
     Params.trust_buy := None;
     Params.trust_pct := None;
     Params.trust_5d := None;
     Params.trust_holding := None;
     Params.inst_5d := None;
     Params.margin_ratio := None;
     Params.margin_5d := None;
     Params.eps := None;
     Params.roe := None;
     Params.yield := None;
     Params.daily_change := None;
     Params.change_5d := None;
     Params.exclude_warning := false;
     Params.exclude_disposition := false;
     Params.exclude_limit_up := None |}.

(** Trust-holding percentage of at least 1%, one condition to pass. *)
Definition trust_pct_params : Params.t :=
  {|
     Params.min_conditions_to_pass := Some 1%Z;
     Params.market_twse := false;
     Params.market_otc := false;
     Params.volume_surge1 := None;
     Params.volume_surge2 := None;
     Params.volume_surge3 := None;
     Params.min_volume := None;
     Params.daily_kd_golden := false;
     Params.monthly_kd_golden := false;
     Params.above_ma20 := false;
     Params.break_60d_high := false;
     Params.trust_buy := None;
     Params.trust_pct := Some (mkCondition true (PyFloat 1));
     Params.trust_5d := None;
     Params.trust_holding := None;
     Params.inst_5d := None;
     Params.margin_ratio := None;
     Params.margin_5d := None;
     Params.eps := None;
     Params.roe := None;
     Params.yield := None;
     Params.daily_change := None;
     Params.change_5d := None;
     Params.exclude_warning := false;
     Params.exclude_disposition := false;
     Params.exclude_limit_up := None |}.

(** Exclusion of three consecutive limit-up days. *)
Definition limit_up_params : Params.t :=
  {|
     Params.min_conditions_to_pass := Some 3%Z;
     Params.market_twse := false;
     Params.market_otc := false;
     Params.volume_surge1 := None;
     Params.volume_surge2 := None;
     Params.volume_surge3 := None;
     Params.min_volume := None;
     Params.daily_kd_golden := false;
     Params.monthly_kd_golden := false;
     Params.above_ma20 := false;
     Params.break_60d_high := false;
     Params.trust_buy := None;
     Params.trust_pct := None;
     Params.trust_5d := None;
     Params.trust_holding := None;
     Params.inst_5d := None;
     Params.margin_ratio := None;
     Params.margin_5d := None;
     Params.eps := None;
     Params.roe := None;
     Params.yield := None;
     Params.daily_change := None;
     Params.change_5d := None;
     Params.exclude_warning := false;
     Params.exclude_disposition := false;
     Params.exclude_limit_up := Some (mkLimitUp true (Some 3%Z)) |}.

(** Daily KD golden cross and the 60-day breakout. *)
Definition technical_params : Params.t :=
  {|
     Params.min_conditions_to_pass := Some 3%Z;
     Params.market_twse := false;
     Params.market_otc := false;
     Params.volume_surge1 := None;
     Params.volume_surge2 := None;
     Params.volume_surge3 := None;
     Params.min_volume := None;
     Params.daily_kd_golden := true;
     Params.monthly_kd_golden := false;
     Params.above_ma20 := false;
     Params.break_60d_high := true;
     Params.trust_buy := None;
     Params.trust_pct := None;
     Params.trust_5d := None;
     Params.trust_holding := None;
     Params.inst_5d := None;
     Params.margin_ratio := None;
     Params.margin_5d := None;
     Params.eps := None;
     Params.roe := None;
     Params.yield := None;
     Params.daily_change := None;
     Params.change_5d := None;
     Params.exclude_warning := false;
     Params.exclude_disposition := false;
     Params.exclude_limit_up := None |}.

(** A price frame: one row per bar. *)
Definition price_frame (bars : list (list Q)) : Pandas.DataFrame :=
  Pandas.mkDataFrame ["close"; "max"; "min"; "Trading_Volume"] bars None.

Definition stock_with_price (df : Pandas.DataFrame) : Stock.t :=
  {| Stock.stock_id := Some "2330";
     Stock.eps := Some 39.2;
     Stock.roe := Some 28.5;
     Stock.trust_holding := Some (Some 0.8);
     Stock.type := Some "twse";
     Stock.price := Some df;
     Stock.institutional := None;
     Stock.margin := None |}.

(** Fourteen bars between 90 and 110: eight closes at 100, four at the
    high, one dip to 98, and a close at the high again. *)
Definition overbought_cross_frame : Pandas.DataFrame :=
  price_frame
    (repeat [100; 110; 90; 1000] 8 ++ repeat [110; 110; 90; 1000] 4
     ++ [[98; 110; 90; 1000]; [110; 110; 90; 1000]]).

(** Sixty flat bars at 100, then a bar reaching 120 and closing at 110. *)
Definition breakout_frame : Pandas.DataFrame :=
  price_frame (repeat [100; 100; 100; 1000] 60 ++ [[110; 120; 100; 1000]]).

(** Five bars without any volume, then 1000 shares. *)
Definition quiet_frame : Pandas.DataFrame :=
  price_frame (repeat [100; 100; 100; 0] 5 ++ [[100; 100; 100; 1000]]).

(** Sixty bars of 1000 shares, then 10000 shares. *)
Definition surge_frame : Pandas.DataFrame :=
  price_frame (repeat [100; 100; 100; 1000] 60 ++ [[100; 100; 100; 10000]]).

(** Two bars only. *)
Definition short_frame : Pandas.DataFrame :=
  price_frame [[100; 100; 100; 1000]; [110; 110; 100; 1000]].

(** The exchange lists a P/E of 25 at a close of 980 for 2330; the
    second service is down. *)
Definition twse_up : EnhancedDataFetcher.Services :=
  {| EnhancedDataFetcher.bwibbu_all :=
       Some [EnhancedDataFetcher.mkItem "2330" 25 980 0];
     EnhancedDataFetcher.stock_per_eps := fun _ => None |}.

End Examples.

(* ================================================================== *)
(** * EnhancedDataFetcher: ROE, trust holding, get_all_data            *)
(* ================================================================== *)

Module Fetcher.
Import Py.
Local Open Scope string_scope.
Local Open Scope Q_scope.
Local Open Scope py_scope.

Module F := EnhancedDataFetcher.

(** One row of the financial statements, its two fields already through
    [float(latest.get(name, 0) or 0)]. *)
Record Statement : Type := mkStatement {
  NetIncome : Q;
  Equity : Q
}.

(** One entry of the exchange's T86 listing. *)
Record Holding : Type := mkHolding {
  SecuritiesCompanyCode : string;
  SharesHeld : Q;
  TotalShares : Q
}.

(** One record of the institutional buy/sell feed. *)
Record Trade : Type := mkTrade {
  name : string;
  buy : Q;
  sell : Q
}.

(** One row of the stock list; [None] when the row has no type. *)
Record Listed : Type := mkListed {
  listed_id : string;
  listed_type : option string
}.

(** What the services answer; [None] is any failure of a request or of
    its decoding.  The four frame fetchers catch their own exceptions and
    always return a frame. *)
Record Feeds : Type := mkFeeds {
  eps_services : F.Services;
  financial_statements : string -> exc (list Statement);
  t86 : exc (list Holding);
  institutional_trades : string -> exc (list Trade);
  get_stock_list : list Listed;
  get_stock_price : string -> Pandas.DataFrame;
  get_institutional_trading : string -> Pandas.DataFrame;
  get_margin_trading : string -> Pandas.DataFrame;
  get_financial_statements : string -> Pandas.DataFrame
}.

(** ** ROE *)

Definition calculate_roe_from_financial (f : Feeds) (stock_id : string) : Q :=
  try_except
    (rows <- financial_statements f stock_id ;;
     match rows with
     | [] => ret 0
     | _ =>
         latest <- Pandas.at_end rows 1 ;;
         let net_income := NetIncome latest in
         let equity := Equity latest in
         if (equity >? 0) && (net_income >? 0) then
           let roe := net_income / equity * 100 in
           ret (F.round2 roe)
         else ret 0
     end)
    0.

Definition roe_large_caps : dict Q :=
  [ ("2330", 28.5); ("2454", 25.3); ("2317", 12.8); ("2308", 18.5);
    ("2382", 15.2); ("2303", 8.5); ("2412", 18.2); ("2886", 10.5);
    ("2891", 11.2); ("1301", 9.8) ].

Definition get_default_roe (stock_id : string) : Q :=
  match get roe_large_caps stock_id with
  | Some roe => roe
  | None => 12
  end.

Definition get_roe_guaranteed (f : Feeds) (stock_id : string) : Q :=
  try_except
    (let roe := calculate_roe_from_financial f stock_id in
     if roe >? 0 then ret roe
     else ret (get_default_roe stock_id))
    (get_default_roe stock_id).

(** ** Trust holding *)

Fixpoint t86_loop (data : list Holding) (stock_id : string) : Q :=
  match data with
  | [] => 0
  | item :: data' =>
      if String.eqb (SecuritiesCompanyCode item) stock_id then
        if TotalShares item >? 0 then
          let percentage := SharesHeld item / TotalShares item * 100 in
          F.round2 percentage
        else t86_loop data' stock_id
      else t86_loop data' stock_id
  end.

Definition get_trust_holding_from_twse (f : Feeds) (stock_id : string) : Q :=
  try_except (data <- t86 f ;; ret (t86_loop data stock_id)) 0.

(** [cumulative += buy - sell] over the investment-trust records. *)
Definition cumulative_net (trust_data : list Trade) : Q :=
  fold_left (fun cumulative record => cumulative + (buy record - sell record))
            trust_data 0.

Definition calculate_trust_holding (f : Feeds) (stock_id : string) : Q :=
  try_except
    (raw_data <- institutional_trades f stock_id ;;
     let trust_data :=
       filter (fun d => String.eqb (name d) "Investment_Trust") raw_data in
     match trust_data with
     | [] => ret 0
     | _ =>
         let cumulative := cumulative_net trust_data in
         if cumulative >? 0 then
           let percentage := cumulative / 100000000 * 0.1 in
           ret (qmin (F.round2 percentage) 5)
         else ret 0
     end)
    0.

Definition holding_large_caps : dict Q :=
  [ ("2330", 0.8); ("2454", 1.2); ("2317", 1.5); ("2308", 2.1);
    ("2382", 1.8); ("2303", 2.5); ("2412", 3.2); ("2886", 2.8);
    ("2891", 2.5); ("1301", 1.9) ].

Definition get_default_trust_holding (stock_id : string) : Q :=
  match get holding_large_caps stock_id with
  | Some holding => holding
  | None => 2
  end.

Definition get_trust_holding_percentage (f : Feeds) (stock_id : string) : Q :=
  try_except
    (let holding_twse := get_trust_holding_from_twse f stock_id in
     if holding_twse >? 0 then ret holding_twse
     else
       let holding_calc := calculate_trust_holding f stock_id in
       if holding_calc >? 0 then ret holding_calc
       else ret (get_default_trust_holding stock_id))
    (get_default_trust_holding stock_id).

(** ** get_all_data *)

(** The argument: a position in the stock list, or an identifier. *)
Inductive IdArg : Type :=
| IntId (index : Z)
| StrId (stock_id : string).

(** The progress callback: [Some message] when the call raises an
    exception with that message. *)
Definition Callback : Type := string -> option string.

Record AllData : Type := mkAllData {
  stock_id : string;
  type : string;
  price : option Pandas.DataFrame;
  institutional : option Pandas.DataFrame;
  margin : option Pandas.DataFrame;
  financial : option Pandas.DataFrame;
  eps : option Q;
  roe : option Q;
  trust_holding : option Q;
  error : option string
}.

(** [stock_list.iloc[i]['stock_id']] for a Python integer [i]. *)
Definition iloc_id (stock_list : list Listed) (i : Z) : exc string :=
  let n := Z.of_nat (length stock_list) in
  if (0 <=? i)%Z then option_map listed_id (nth_error stock_list (Z.to_nat i))
  else if (- n <=? i)%Z
       then option_map listed_id (nth_error stock_list (Z.to_nat (n + i)))
       else raise.

(** The conversion of the argument to the identifier string; it is not
    under a [try]. *)
Definition resolve_id (f : Feeds) (arg : IdArg) : exc string :=
  match arg with
  | IntId i =>
      let stock_list := get_stock_list f in
      if (i <? Z.of_nat (length stock_list))%Z
      then iloc_id stock_list i
      else ret (str_int i)
  | StrId s => ret s
  end.

(** The type of the first row of the list carrying the identifier. *)
Definition lookup_type (f : Feeds) (stock_id : string) : string :=
  match filter (fun r => String.eqb (listed_id r) stock_id) (get_stock_list f) with
  | r :: _ => match listed_type r with
              | Some t => t
              | None => "unknown"
              end
  | [] => "unknown"
  end.

(** [if progress_callback: progress_callback(message)] *)
Definition notify (cb : option Callback) (message : string) : option string :=
  match cb with
  | Some f => f message
  | None => None
  end.

(** The handler of the main [try]: the error is noted and the three key
    figures still missing get their defaults. *)
Definition on_error (r : AllData) (e : string) : AllData :=
  let id := stock_id r in
  {| stock_id := id;
     type := type r;
     price := price r;
     institutional := institutional r;
     margin := margin r;
     financial := financial r;
     eps := match eps r with
            | None => Some (F.get_default_eps id)
            | v => v
            end;
     roe := match roe r with
            | None => Some (get_default_roe id)
            | v => v
            end;
     trust_holding := match trust_holding r with
                      | None => Some (get_default_trust_holding id)
                      | v => v
                      end;
     error := Some e |}.

Definition get_all_data_of (f : Feeds) (id : string) (cb : option Callback)
  : AllData :=
  let r0 := mkAllData id (lookup_type f id) None None None None
                      None None None None in
  match notify cb (fstring ["取得 "; id; " 價格資料..."]) with
  | Some e => on_error r0 e
  | None =>
  let r1 := mkAllData id (type r0) (Some (get_stock_price f id)) None None None
                      None None None None in
  match notify cb (fstring ["取得 "; id; " 法人資料..."]) with
  | Some e => on_error r1 e
  | None =>
  let r2 := mkAllData id (type r0) (price r1)
                      (Some (get_institutional_trading f id)) None None
                      None None None None in
  match notify cb (fstring ["取得 "; id; " 融資券資料..."]) with
  | Some e => on_error r2 e
  | None =>
  let r3 := mkAllData id (type r0) (price r1) (institutional r2)
                      (Some (get_margin_trading f id)) None
                      None None None None in
  match notify cb (fstring ["取得 "; id; " 財報資料..."]) with
  | Some e => on_error r3 e
  | None =>
  let r4 := mkAllData id (type r0) (price r1) (institutional r2) (margin r3)
                      (Some (get_financial_statements f id))
                      None None None None in
  match notify cb (fstring ["取得 "; id; " 關鍵指標..."]) with
  | Some e => on_error r4 e
  | None =>
      mkAllData id (type r0) (price r1) (institutional r2) (margin r3)
                (financial r4)
                (Some (F.get_eps_guaranteed (eps_services f) id))
                (Some (get_roe_guaranteed f id))
                (Some (get_trust_holding_percentage f id))
                None
  end end end end end.

Definition get_all_data (f : Feeds) (arg : IdArg) (cb : option Callback)
  : exc AllData :=
  id <- resolve_id f arg ;;
  ret (get_all_data_of f id cb).

(** ** batch_fetch *)

(** The inner loop over one batch; [current] is the running count. *)
Fixpoint batch_loop (f : Feeds) (cb : option Callback) (total : nat)
         (batch : list string) (current : nat) (results : list AllData)
  : exc (list AllData) :=
  match batch with
  | [] => ret results
  | id :: batch' =>
      match notify cb (fstring ["處理中 "; str_int (Z.of_nat current); "/";
                                str_int (Z.of_nat total); ": "; id]) with
      | Some _ => raise
      | None =>
          let result := get_all_data_of f id None in
          batch_loop f cb total batch' (S current) (results ++ [result])
      end
  end.

(** The outer loop over [range(i, total, batch_size)], [batch_size >= 1];
    [fuel] bounds the number of batches. *)
Fixpoint batches_from (f : Feeds) (cb : option Callback)
         (stock_ids : list string) (batch_size : nat) (fuel : nat) (i : nat)
         (results : list AllData) : exc (list AllData) :=
  match fuel with
  | O => ret results
  | S fuel' =>
      if (i <? length stock_ids)%nat then
        let batch := firstn batch_size (skipn i stock_ids) in
        results' <- batch_loop f cb (length stock_ids) batch (i + 1) results ;;
        batches_from f cb stock_ids batch_size fuel' (i + batch_size) results'
      else ret results
  end.

(** A zero step makes [range] raise; a negative one gives no batch. *)
Definition batch_fetch (f : Feeds) (stock_ids : list string) (batch_size : Z)
           (cb : option Callback) : exc (list AllData) :=
  if (batch_size =? 0)%Z then raise
  else if (batch_size <? 0)%Z then ret []
  else batches_from f cb stock_ids (Z.to_nat batch_size)
                    (length stock_ids) 0 [].

End Fetcher.

(* ================================================================== *)
(** * diagnostic_fix.py: CompleteScreeningEngineFixed                  *)
(* ================================================================== *)

Module CompleteScreeningEngineFixed.
Import Py.
Local Open Scope string_scope.
Local Open Scope Q_scope.
Local Open Scope py_scope.

Module E := CompleteScreeningEngine.

(** The snapshot dictionary of the fixed engine: the keys the engine's
    snapshot has, and the indicator values this engine reads.  A field
    read with [data.get(key)] is [None] when absent or [None]; a field
    read with [data.get(key, 0)] distinguishes the absent key ([None],
    read as 0) from a key holding [None] ([Some None]). *)
Record Data : Type := mkData {
  snapshot : E.Stock.t;               (* eps, roe, trust_holding *)
  volume : option (option Q);
  volume_5d_avg : option (option Q);
  kd_k : option Q;
  kd_d : option Q;
  close : option Q;
  ma20 : option Q;
  trust_buy : option (option num)
}.

Inductive Arg : Type :=
| NotADict
| ADict (stock_data : Data).

(** [data.get(key, 0)] *)
Definition get0 (v : option (option Q)) : option Q :=
  match v with
  | Some x => x
  | None => Some 0
  end.

(** A number is needed: [None] in a comparison or a division raises
    [TypeError]. *)
Definition number {A} (v : option A) : exc A := v.

(** Each check returns the verdict and the display value. *)
Definition Check : Type := bool * option string.

Definition _check_eps (p : E.Params.t) (data : Data) : exc Check :=
  if negb (E.is_enabled (E.Params.eps p)) then ret (false, None)
  else
    c <- E.Params.eps p ;;
    match E.Stock.eps (snapshot data) with
    | None => ret (false, None)
    | Some eps_value =>
        ret (eps_value >? val (E.value c), Some (fmt_f 2 eps_value))
    end.

Definition _check_roe (p : E.Params.t) (data : Data) : exc Check :=
  if negb (E.is_enabled (E.Params.roe p)) then ret (false, None)
  else
    c <- E.Params.roe p ;;
    match E.Stock.roe (snapshot data) with
    | None => ret (false, None)
    | Some roe_value =>
        ret (roe_value >? val (E.value c),
             Some (fstring [fmt_f 1 roe_value; "%"]))
    end.

Definition _check_trust_holding (p : E.Params.t) (data : Data) : exc Check :=
  ret (DiagnosticFix._check_trust_holding p (snapshot data)).

Definition _check_volume_surge (p : E.Params.t) (data : Data) : exc Check :=
  if negb (E.is_enabled (E.Params.volume_surge1 p)) then ret (false, None)
  else
    let volume := get0 (volume data) in
    avg_volume <- number (get0 (volume_5d_avg data)) ;;
    if avg_volume <=? 0 then ret (false, None)
    else
      volume <- number volume ;;
      let ratio := volume / avg_volume in
      c <- E.Params.volume_surge1 p ;;
      ret (ratio >? val (E.value c), Some (fstring [fmt_f 2 ratio; "x"])).

Definition _check_kd_golden (p : E.Params.t) (data : Data) : exc Check :=
  if negb (E.Params.daily_kd_golden p) then ret (false, None)
  else
    match kd_k data, kd_d data with
    | Some k_value, Some d_value =>
        ret ((k_value >? d_value) && (k_value <? 80),
             Some (fstring ["K="; fmt_f 1 k_value; ", D="; fmt_f 1 d_value]))
    | _, _ => ret (false, None)
    end.

Definition _check_ma20 (p : E.Params.t) (data : Data) : exc Check :=
  if negb (E.Params.above_ma20 p) then ret (false, None)
  else
    match close data, ma20 data with
    | Some price, Some ma20 =>
        ret (price >? ma20,
             Some (fstring [fmt_f 2 price; " > "; fmt_f 2 ma20]))
    | _, _ => ret (false, None)
    end.

Definition _check_trust_buy (p : E.Params.t) (data : Data) : exc Check :=
  if negb (E.is_enabled (E.Params.trust_buy p)) then ret (false, None)
  else
    value <- number (match trust_buy data with
                     | Some v => v
                     | None => Some (PyInt 0)
                     end) ;;
    c <- E.Params.trust_buy p ;;
    ret (val value >? val (E.value c), Some (fstring [str value; "張"])).

(** A value of the returned dictionary. *)
Inductive rv : Type :=
| RBool (b : bool)
| RInt (z : Z)
| RValues (d : dict (option string)).

(** [self.min_conditions = params.get('min_conditions_to_pass', 0)] *)
Definition min_conditions (p : E.Params.t) : Z :=
  match E.Params.min_conditions_to_pass p with
  | Some n => n
  | None => 0%Z
  end.

(** The seven checks, evaluated in the order of the dict literal. *)
Definition conditions_check (p : E.Params.t) (data : Data)
  : exc (list (string * Check)) :=
  c_eps <- _check_eps p data ;;
  c_roe <- _check_roe p data ;;
  c_trust_holding <- _check_trust_holding p data ;;
  c_volume_surge <- _check_volume_surge p data ;;
  c_kd_golden <- _check_kd_golden p data ;;
  c_ma20 <- _check_ma20 p data ;;
  c_trust_buy <- _check_trust_buy p data ;;
  ret [ ("eps", c_eps); ("roe", c_roe); ("trust_holding", c_trust_holding);
        ("volume_surge", c_volume_surge); ("kd_golden", c_kd_golden);
        ("ma20", c_ma20); ("trust_buy", c_trust_buy) ].

(** The loop filling the result: the verdict, the display value, and the
    running count. *)
Fixpoint tally (checks : list (string * Check))
         (result : dict rv) (values : dict (option string)) (matched_count : Z)
  : dict rv * dict (option string) * Z :=
  match checks with
  | [] => (result, values, matched_count)
  | (condition, (passed, value)) :: checks' =>
      tally checks'
            (set result condition (RBool passed))
            (set values condition value)
            (if passed then (matched_count + 1)%Z else matched_count)
  end.

Definition check_all_conditions (p : E.Params.t) (arg : Arg) : exc (dict rv) :=
  let result :=
    [ ("matched_count", RInt 0); ("passed", RBool false);
      ("values", RValues []) ] in
  match arg with
  | NotADict => ret result
  | ADict stock_data =>
      checks <- conditions_check p stock_data ;;
      let '(result, values, matched_count) := tally checks result [] 0%Z in
      let result := set result "values" (RValues values) in
      let result := set result "matched_count" (RInt matched_count) in
      let result :=
        set result "passed" (RBool (min_conditions p <=? matched_count)%Z) in
      ret result
  end.

End CompleteScreeningEngineFixed.

(* ================================================================== *)
(** * TechnicalCalculator: KD lines and the volume ratio               *)
(* ================================================================== *)

Module Indicators.
Import Py.
Local Open Scope string_scope.
Local Open Scope Q_scope.
Local Open Scope py_scope.

(** The window ending at position [i] with [min_periods=1]: as many of
    the last [window] values as there are. *)
Definition window_min1 (window : nat) (s : Pandas.Series) (i : nat)
  : Pandas.Series :=
  firstn (Nat.min window (S i)) (skipn (S i - window) s).

Definition rolling_min1 (window : nat) (f : Pandas.Series -> option Q)
           (s : Pandas.Series) : list (option Q) :=
  map (fun i => f (window_min1 window s i)) (seq 0 (length s)).

(** [calculate_kd]: a window of 0 is below [min_periods] and raises;
    the handler returns two empty series. *)
Definition calculate_kd (df : Pandas.DataFrame) (period : nat)
  : Pandas.Series * Pandas.Series :=
  try_except
    (if (period =? 0)%nat then raise else
     highs <- Pandas.col df "high" ;;
     let high_n := rolling_min1 period Pandas.max highs in
     lows <- Pandas.col df "low" ;;
     let low_n := rolling_min1 period Pandas.min lows in
     closes <- Pandas.col df "close" ;;
     let rsv := Pandas.rsv_series closes low_n high_n in
     let k := Pandas.ewm (1 / 3) rsv in
     let d := Pandas.ewm (1 / 3) k in
     ret (k, d))
    ([], []).

(** [s.iloc[-6:-1]] *)
Definition five_before_last (s : Pandas.Series) : Pandas.Series :=
  Pandas.drop_last (Pandas.tail 6 s).

(** [calculate_volume_ratio]: today's volume over the average of the
    five bars before. *)
Definition calculate_volume_ratio (df : Pandas.DataFrame) : Q :=
  try_except
    (volumes <-
       (if Pandas.has_column "Trading_Volume" df
        then v <- Pandas.col df "Trading_Volume" ;;
             ret (map (fun x => x / 1000) v)
        else Pandas.col df "volume") ;;
     if (length volumes <? 5)%nat then ret 0
     else
       current_volume <- Pandas.at_end volumes 1 ;;
       match Pandas.mean (five_before_last volumes) with
       | Some avg_volume_5d =>
           if avg_volume_5d >? 0 then ret (current_volume / avg_volume_5d)
           else ret 0
       | None => ret 0
       end)
    0.

(** [check_ma_support]: the close is within 2% below the average, or
    above it. *)
Definition check_ma_support (df : Pandas.DataFrame) (ma_period : nat) : bool :=
  try_except
    (if (Pandas.len df <? ma_period)%nat then ret false
     else
       closes <- Pandas.col df "close" ;;
       current_price <- Pandas.at_end closes 1 ;;
       ma <- Pandas.at_end (Pandas.rolling ma_period Pandas.mean closes) 1 ;;
       match ma with
       | Some ma => ret (current_price >=? ma * 0.98)
       | None => ret false
       end)
    false.

End Indicators.

(* ================================================================== *)
(** * Further snapshots, series and feeds                              *)
(* ================================================================== *)

Module Cases.
Import Py.
Import CompleteScreeningEngine.
Import Examples.
Local Open Scope string_scope.
Local Open Scope Q_scope.

(** K crosses D from below, under 80. *)
Definition crossing_k : Pandas.Series := [40; 60].
Definition crossing_d : Pandas.Series := [50; 50].

(** Three rising bars. *)
Definition rising_frame : Pandas.DataFrame :=
  price_frame [[100; 101; 99; 1000]; [102; 103; 100; 1000];
               [105; 106; 101; 1000]].

(** Sixty flat bars at 100, then a bar closing at its high of 110. *)
Definition clean_breakout_frame : Pandas.DataFrame :=
  price_frame
    (repeat [100; 100; 100; 1000] 60 ++ [[110; 110; 100; 1000]])%list.

(** Its closes, which are its highs too. *)
Definition breakout_closes : Pandas.Series := (repeat 100 60 ++ [110])%list.


(** Three closes in a row 10% above the one before, each at the high. *)
Definition limit_up_frame : Pandas.DataFrame :=
  price_frame [[100; 100; 100; 1000]; [110; 110; 100; 1000];
               [121; 121; 110; 1000]; [133.1; 133.1; 121; 1000]].

(** The engine in the middle of the evaluation of 2330. *)
Definition engine_on_2330 : Engine :=
  {| params := limit_up_params;
     min_conditions := 3;
     real_data_integrator := offline;
     _current_stock_id := Some (Some "2330");
     _trust_holding := None |}.

(** The frame the calculator's indicators read: five bars. *)
Definition calculator_frame : Pandas.DataFrame :=
  Pandas.mkDataFrame ["close"; "high"; "low"; "volume"]
    [[100; 101; 99; 1000]; [102; 103; 100; 2000]; [105; 106; 101; 3000];
     [104; 107; 103; 2000]; [108; 108; 104; 6000]] None.

(** Every service of the fetcher is down; the stock list has two rows. *)
Definition feeds_down : Fetcher.Feeds :=
  {| Fetcher.eps_services :=
       {| EnhancedDataFetcher.bwibbu_all := None;
          EnhancedDataFetcher.stock_per_eps := fun _ => None |};
     Fetcher.financial_statements := fun _ => None;
     Fetcher.t86 := None;
     Fetcher.institutional_trades := fun _ => None;
     Fetcher.get_stock_list :=
       [Fetcher.mkListed "2330" (Some "twse");
        Fetcher.mkListed "6488" (Some "otc")];
     Fetcher.get_stock_price := fun _ => Pandas.mkDataFrame [] [] None;
     Fetcher.get_institutional_trading :=
       fun _ => Pandas.mkDataFrame [] [] None;
     Fetcher.get_margin_trading := fun _ => Pandas.mkDataFrame [] [] None;
     Fetcher.get_financial_statements :=
       fun _ => Pandas.mkDataFrame [] [] None |}.

(** The snapshot of the scenario as the fixed engine reads it: no
    indicator value is there. *)
Definition fixed_scenario : CompleteScreeningEngineFixed.Data :=
  {| CompleteScreeningEngineFixed.snapshot := scenario_stock;
     CompleteScreeningEngineFixed.volume := None;
     CompleteScreeningEngineFixed.volume_5d_avg := None;
     CompleteScreeningEngineFixed.kd_k := None;
     CompleteScreeningEngineFixed.kd_d := None;
     CompleteScreeningEngineFixed.close := None;
     CompleteScreeningEngineFixed.ma20 := None;
     CompleteScreeningEngineFixed.trust_buy := None |}.

End Cases.

(* ================================================================== *)
(** * Notions the further properties are stated with                   *)
(* ================================================================== *)

Module Properties.
Import Py.
Import CompleteScreeningEngine.
Import Result.
Import Examples.
Local Open Scope string_scope.

(** The conditions the loop of [calculate_score] counts, and their
    weights. *)
Definition weighted_and_matched (kv : string * rv) : bool :=
  mem (fst kv) ScoringSystem.weights && ScoringSystem.truthy (snd kv).

Definition weight_of (c : string) : Z :=
  match get ScoringSystem.weights c with
  | Some w => w
  | None => 0%Z
  end.

(** The verdict keys that carry a weight in the scoring table. *)
Definition scored_keys : list string :=
  [ "volume_surge_1_5x"; "min_volume"; "daily_kd_golden"; "monthly_kd_golden";
    "above_ma20"; "break_60d_high"; "trust_buy"; "trust_pct"; "trust_5d";
    "inst_5d"; "margin_ratio"; "margin_5d"; "not_warning"; "not_disposition";
    "not_limit_up" ].



(** Every bar has low <= close <= high. *)
Definition bars_ordered (lows closes highs : Pandas.Series) : Prop :=
  forall i lo c hi,
    nth_error lows i = Some lo -> nth_error closes i = Some c ->
    nth_error highs i = Some hi -> (lo <= c <= hi)%Q.

Definition percent (x : Q) : Prop := (0 <= x <= 100)%Q.

Definition positive_figure (v : option Q) : Prop :=
  exists x, v = Some x /\ (0 < x)%Q.

Module Fixed := CompleteScreeningEngineFixed.

(** The seven condition keys of the fixed engine. *)
Definition fixed_keys : list string :=
  [ "eps"; "roe"; "trust_holding"; "volume_surge"; "kd_golden"; "ma20";
    "trust_buy" ].

(** The place of a key among the seven. *)
Definition position (k : string) : nat :=
  if String.eqb k "eps" then 0
  else if String.eqb k "roe" then 1
  else if String.eqb k "trust_holding" then 2
  else if String.eqb k "volume_surge" then 3
  else if String.eqb k "kd_golden" then 4
  else if String.eqb k "ma20" then 5
  else 6.

Definition fixed_true (r : dict Fixed.rv) (k : string) : bool :=
  match get r k with
  | Some (Fixed.RBool true) => true
  | _ => false
  end.

(** The switch of each of the seven conditions. *)
Definition fixed_switch (p : Params.t) (k : string) : bool :=
  if String.eqb k "eps" then is_enabled (Params.eps p)
  else if String.eqb k "roe" then is_enabled (Params.roe p)
  else if String.eqb k "trust_holding" then is_enabled (Params.trust_holding p)
  else if String.eqb k "volume_surge" then is_enabled (Params.volume_surge1 p)
  else if String.eqb k "kd_golden" then Params.daily_kd_golden p
  else if String.eqb k "ma20" then Params.above_ma20 p
  else if String.eqb k "trust_buy" then is_enabled (Params.trust_buy p)
  else false.

(** The volume check needs numbers under both keys once it is enabled
    and the average is positive. *)
Definition volume_is_None (p : Params.t) (data : Fixed.Data) : Prop :=
  is_enabled (Params.volume_surge1 p) = true /\
  (Fixed.volume_5d_avg data = Some None \/
   ((exists avg, Fixed.get0 (Fixed.volume_5d_avg data) = Some avg /\ 0 < avg)%Q
    /\ Fixed.volume data = Some None)).

Definition trust_buy_is_None (p : Params.t) (data : Fixed.Data) : Prop :=
  is_enabled (Params.trust_buy p) = true /\ Fixed.trust_buy data = Some None.

End Properties.

(* ================================================================== *)
(** * Proofs                                                           *)
(* ================================================================== *)

Unset Implicit Arguments.

Import Py CompleteScreeningEngine Result Examples.
Local Open Scope string_scope.

(** ** Dictionaries *)

Section DictFacts.
Variable V : Type.
Implicit Types (d : dict V) (k : string) (v : V).

Lemma get_In_keys d k v : get d k = Some v -> In k (keys d).
Proof.
  induction d as [|[k' v'] d IH]; simpl; [discriminate|].
  destruct (String.eqb_spec k k') as [->|Hne]; auto.
Qed.

Lemma set_fresh d k v : ~ In k (keys d) -> set d k v = (d ++ [(k, v)])%list.
Proof.
  induction d as [|[k' v'] d IH]; simpl; intros Hn; [reflexivity|].
  destruct (String.eqb_spec k k') as [->|Hne].
  - exfalso; apply Hn; now left.
  - rewrite IH; auto.
Qed.

Lemma set_Forall (P : string * V -> Prop) d k v :
  (forall k', k' = k -> P (k', v)) -> Forall P d -> Forall P (set d k v).
Proof.
  intros Hk; induction 1 as [|[k' v'] d Hx Hd IH]; simpl.
  - constructor; auto.
  - destruct (String.eqb_spec k k') as [->|Hne]; constructor; auto.
Qed.

End DictFacts.

(** ** Every block records under the key of an enabled condition *)

Ltac split_pairs :=
  repeat match goal with
         | |- context [match ?e with pair _ _ => _ end] => destruct e
         | H : context [match ?e with pair _ _ => _ end] |- _ => destruct e
         end.

Ltac block_enabled :=
  intros v Hv;
  match type of Hv with
  | when_flag ?b _ = _ =>
      unfold when_flag in Hv; destruct b eqn:Hb; [|discriminate]
  | when_enabled ?c _ = _ =>
      unfold when_enabled in Hv; destruct c as [[[] ?]|] eqn:Hb;
      try discriminate
  | _ => idtac
  end;
  injection Hv as <-; split_pairs; unfold condition_enabled; cbn;
  repeat match goal with
         | H : _ = _ |- _ => rewrite H
         end; reflexivity.

Lemma blocks_enabled self sd price inst margin :
  Forall (fun b => forall v, b = Some v ->
                   condition_enabled (params self) (key v) = true)
         (blocks self sd price inst margin).
Proof.
  unfold blocks.
  repeat constructor.
  1-24: unfold block_market_twse, block_market_otc, block_volume_surge1,
    block_volume_surge2, block_volume_surge3, block_min_volume,
    block_daily_kd_golden, block_monthly_kd_golden, block_above_ma20,
    block_break_60d_high, block_trust_buy, block_trust_pct, block_trust_5d,
    block_trust_holding, block_inst_5d, block_margin_ratio, block_margin_5d,
    block_eps, block_roe, block_yield, block_daily_change, block_change_5d,
    block_not_warning, block_not_disposition; block_enabled.
  unfold block_not_limit_up. intros v Hv.
  destruct (Params.exclude_limit_up (params self)) as [[[] ?]|] eqn:Hb;
    try discriminate.
  split_pairs. injection Hv as <-. unfold condition_enabled; cbn.
  rewrite Hb. reflexivity.
Qed.

(** ** The shape of the returned dictionary *)

Lemma record_invariant p bs :
  Forall (fun b => forall v, b = Some v -> condition_enabled p (key v) = true) bs ->
  forall acc,
    Forall (verdict_entry p) (fst acc) -> Forall (display_entry p) (snd acc) ->
    Forall (verdict_entry p) (fst (fold_left record bs acc))
    /\ Forall (display_entry p) (snd (fold_left record bs acc)).
Proof.
  induction 1 as [|b bs Hb Hbs IH]; intros acc H1 H2; simpl; [auto|].
  apply IH; destruct b as [v|]; simpl; auto.
  - apply set_Forall; auto.
    intros k' ->. split; simpl; eauto.
  - apply set_Forall; auto.
    intros k' ->. red; simpl; eauto.
Qed.

Lemma enabled_not_bookkeeping p k :
  condition_enabled p k = true -> bookkeeping k = false.
Proof.
  unfold condition_enabled.
  destruct (get (enabled_table p) k) as [b|] eqn:Hg; [|discriminate].
  intros _. apply get_In_keys in Hg. cbn in Hg.
  repeat (destruct Hg as [<-|Hg]; [reflexivity|]).
  destruct Hg.
Qed.

Lemma verdicts_fresh p d k :
  Forall (verdict_entry p) d -> bookkeeping k = true -> ~ In k (keys d).
Proof.
  intros Hd Hk Hin. unfold keys in Hin. apply in_map_iff in Hin.
  destruct Hin as [[k' v] [<- Hin]].
  rewrite Forall_forall in Hd. destruct (Hd _ Hin) as [He _].
  apply enabled_not_bookkeeping in He. simpl in *. congruence.
Qed.

Lemma verdicts_only p d :
  Forall (verdict_entry p) d ->
  filter (fun kv => negb (bookkeeping (fst kv))) d = d.
Proof.
  induction 1 as [|[k v] d [He _] Hd IH]; simpl; [reflexivity|].
  apply enabled_not_bookkeeping in He. simpl in He. rewrite He. simpl.
  now rewrite IH.
Qed.

Lemma eq_True_is_True p d :
  Forall (verdict_entry p) d ->
  filter eq_True (Py.values d) = filter is_True (Py.values d).
Proof.
  induction 1 as [|[k v] d [_ [b Hb]] Hd IH]; simpl; [reflexivity|].
  simpl in Hb. subst v. simpl. rewrite IH. destruct b; reflexivity.
Qed.

Lemma check_all_conditions_shape self sd :
  exists results values,
    Forall (verdict_entry (params self)) results
    /\ Forall (display_entry (params self)) values
    /\ result (check_all_conditions self (ADict sd)) =
       (results ++ [ ("matched_count", RInt (count_true results));
                     ("passed", RBool (min_conditions self <=? count_true results)%Z);
                     ("values", RValues values) ])%list.
Proof.
  unfold check_all_conditions.
  match goal with
  | |- context [fold_left record (blocks ?s ?a ?b ?c ?d) ?acc] =>
      pose proof (record_invariant (params self) (blocks s a b c d)
                    (blocks_enabled s a b c d) acc) as Hinv;
      destruct (fold_left record (blocks s a b c d) acc)
        as [results values] eqn:Hfold
  end.
  simpl in Hinv.
  destruct Hinv as [Hr Hv]; [constructor|constructor|].
  exists results, values. split; [exact Hr|]. split; [exact Hv|].
  simpl.
  rewrite (set_fresh _ results "matched_count")
    by (eapply verdicts_fresh; eauto).
  rewrite (set_fresh _ (results ++ _)%list "passed").
  2:{ unfold keys. rewrite map_app. simpl. intros Hin.
      apply in_app_or in Hin. destruct Hin as [Hin|[Hin|[]]]; [|discriminate].
      revert Hin. eapply verdicts_fresh; eauto. }
  rewrite (set_fresh _ ((results ++ _) ++ _)%list "values").
  2:{ unfold keys. rewrite !map_app. simpl. intros Hin.
      apply in_app_or in Hin. destruct Hin as [Hin|[Hin|[]]]; [|discriminate].
      apply in_app_or in Hin. destruct Hin as [Hin|[Hin|[]]]; [|discriminate].
      revert Hin. eapply verdicts_fresh; eauto. }
  rewrite <- !app_assoc. reflexivity.
Qed.

Lemma get_bookkeeping p results k (a b c : rv) :
  Forall (verdict_entry p) results -> bookkeeping k = true ->
  get (results ++ [("matched_count", a); ("passed", b); ("values", c)])%list k =
  get [("matched_count", a); ("passed", b); ("values", c)] k.
Proof.
  intros Hr Hk. pose proof (verdicts_fresh _ _ _ Hr Hk) as Hn.
  clear Hr. induction results as [|[k' v'] d IH]; simpl; [reflexivity|].
  destruct (String.eqb_spec k k') as [->|Hne].
  - exfalso. apply Hn. now left.
  - apply IH. intros Hin. apply Hn. now right.
Qed.

Lemma verdicts_of_shape p results (a b c : rv) :
  Forall (verdict_entry p) results ->
  verdicts (results ++ [("matched_count", a); ("passed", b); ("values", c)])%list
  = results.
Proof.
  intros Hr. unfold verdicts. rewrite filter_app.
  rewrite (verdicts_only _ _ Hr). simpl. apply app_nil_r.
Qed.

(** C1.  For every snapshot and configuration, [matched_count] is the
    number of condition verdicts recorded as exactly [True], and [passed]
    is true exactly when that count reaches the engine's minimum
    ([min_conditions_to_pass], 3 when absent).  The count ranges over the
    verdicts only: the entries [matched_count], [passed] and [values]
    are not among them. *)
Theorem check_all_conditions_matched_count self sd :
  let r := result (check_all_conditions self (ADict sd)) in
  get r "matched_count" = Some (RInt (count_passed r))
  /\ get r "passed" = Some (RBool (min_conditions self <=? count_passed r)%Z).
Proof.
  intros r. subst r.
  destruct (check_all_conditions_shape self sd) as (results & values & Hr & _ & ->).
  unfold count_passed. rewrite (verdicts_of_shape _ _ _ _ _ Hr).
  rewrite <- (eq_True_is_True _ _ Hr).
  rewrite !(get_bookkeeping _ _ _ _ _ _ Hr) by reflexivity.
  split; reflexivity.
Qed.

(** C8.  A key under which the result holds a verdict, or a display
    string, is the key of a condition enabled in the configuration: a
    disabled condition leaves no entry at all. *)
Theorem disabled_conditions_have_no_verdict self sd k :
  let r := result (check_all_conditions self (ADict sd)) in
  In k (keys (verdicts r)) \/ In k (keys (displays r)) ->
  condition_enabled (params self) k = true.
Proof.
  intros r. subst r.
  destruct (check_all_conditions_shape self sd) as (results & values & Hr & Hv & ->).
  rewrite (verdicts_of_shape _ _ _ _ _ Hr).
  unfold displays. rewrite (get_bookkeeping _ _ _ _ _ _ Hr) by reflexivity. simpl.
  intros [Hin|Hin]; unfold keys in Hin; apply in_map_iff in Hin;
    destruct Hin as [[k' v] [<- Hin]].
  - rewrite Forall_forall in Hr. apply (Hr _ Hin).
  - rewrite Forall_forall in Hv. apply (Hv _ Hin).
Qed.

(** ** Two calls on the same snapshot *)

Section SameAnswers.
Variables (p : Params.t) (m : Z) (w1 w2 : W.World).
Variables (i : pyid) (th : option (option Q)).
Hypothesis Hw : same_answers w1 w2 i.

Let self1 := mkEngine p m w1 (Some i) th.
Let self2 := mkEngine p m w2 (Some i) th.

Lemma same_trust_pct inst threshold :
  (truthy_id (attrs_id inst) = true -> attrs_id inst = i) ->
  check_trust_pct_with_value self1 inst threshold
  = check_trust_pct_with_value self2 inst threshold.
Proof.
  destruct Hw as (Hpct & _). intros Hi.
  unfold check_trust_pct_with_value.
  unfold self1, self2;
    cbn [real_data_integrator _current_stock_id _trust_holding].
  destruct (truthy_id (attrs_id inst)) eqn:Ht.
  - rewrite (Hi eq_refl), Hpct. reflexivity.
  - rewrite Hpct. reflexivity.
Qed.

Lemma same_trust_holding inst threshold :
  th <> None ->
  check_trust_holding_with_value self1 inst threshold
  = check_trust_holding_with_value self2 inst threshold.
Proof.
  intros Hth. unfold check_trust_holding_with_value.
  unfold self1, self2;
    cbn [real_data_integrator _current_stock_id _trust_holding].
  destruct th; [reflexivity|contradiction].
Qed.

Lemma same_eps sd threshold :
  Stock.stock_id sd = i ->
  check_eps_with_value self1 sd threshold = check_eps_with_value self2 sd threshold.
Proof.
  destruct Hw as (_ & Heps & _). intros Hi.
  unfold check_eps_with_value.
  unfold self1, self2;
    cbn [real_data_integrator _current_stock_id _trust_holding]. rewrite Hi, Heps. reflexivity.
Qed.

Lemma same_roe sd threshold :
  Stock.stock_id sd = i ->
  check_roe_with_value self1 sd threshold = check_roe_with_value self2 sd threshold.
Proof.
  destruct Hw as (_ & _ & Hroe & _). intros Hi.
  unfold check_roe_with_value.
  unfold self1, self2;
    cbn [real_data_integrator _current_stock_id _trust_holding]. rewrite Hi, Hroe. reflexivity.
Qed.

Lemma same_yield sd price threshold :
  Stock.stock_id sd = i ->
  check_yield_with_value self1 sd price threshold
  = check_yield_with_value self2 sd price threshold.
Proof.
  destruct Hw as (_ & _ & _ & Hy & _). intros Hi.
  unfold check_yield_with_value, W.get_real_dividend_yield.
  unfold self1, self2;
    cbn [real_data_integrator _current_stock_id _trust_holding].
  rewrite Hi, Hy. reflexivity.
Qed.

Lemma same_not_warning sd :
  Stock.stock_id sd = i ->
  check_not_warning self1 sd = check_not_warning self2 sd.
Proof.
  destruct Hw as (_ & _ & _ & _ & Hf). intros Hi.
  unfold check_not_warning.
  unfold self1, self2;
    cbn [real_data_integrator _current_stock_id _trust_holding]. rewrite Hi, Hf. reflexivity.
Qed.

Lemma same_not_disposition sd :
  Stock.stock_id sd = i ->
  check_not_disposition self1 sd = check_not_disposition self2 sd.
Proof.
  destruct Hw as (_ & _ & _ & _ & Hf). intros Hi.
  unfold check_not_disposition.
  unfold self1, self2;
    cbn [real_data_integrator _current_stock_id _trust_holding]. rewrite Hi, Hf. reflexivity.
Qed.

Lemma same_not_limit_up price days :
  check_not_limit_up_with_value self1 price days
  = check_not_limit_up_with_value self2 price days.
Proof.
  destruct Hw as (_ & _ & _ & _ & Hf).
  unfold check_not_limit_up_with_value, W.check_consecutive_limit_up,
    W._get_price_limit.
  unfold self1, self2;
    cbn [real_data_integrator _current_stock_id _trust_holding]. rewrite Hf. reflexivity.
Qed.

Lemma same_blocks sd sd' price inst margin :
  Stock.stock_id sd = i -> Stock.stock_id sd' = i ->
  Stock.eps sd' = Stock.eps sd -> Stock.roe sd' = Stock.roe sd ->
  Stock.type sd' = Stock.type sd ->
  th <> None ->
  (truthy_id (attrs_id inst) = true -> attrs_id inst = i) ->
  blocks self2 sd' price inst margin = blocks self1 sd price inst margin.
Proof.
  intros Hi Hi' Heps Hroe Hty Hth Hat.
  unfold blocks.
  repeat match goal with
         | |- cons _ _ = cons _ _ => apply f_equal2
         end; try reflexivity.
  - unfold block_market_twse, stock_type. rewrite Hty. reflexivity.
  - unfold block_market_otc, stock_type. rewrite Hty. reflexivity.
  - unfold block_trust_pct, when_enabled. simpl.
    destruct (Params.trust_pct p) as [[[] v]|]; try reflexivity.
    simpl. fold self1 self2. rewrite (same_trust_pct _ _ Hat). reflexivity.
  - unfold block_trust_holding, when_enabled. simpl.
    destruct (Params.trust_holding p) as [[[] v]|]; try reflexivity.
    simpl. fold self1 self2. rewrite (same_trust_holding _ _ Hth). reflexivity.
  - unfold block_eps, when_enabled. simpl.
    destruct (Params.eps p) as [[[] v]|]; try reflexivity.
    simpl. fold self1 self2. rewrite (same_eps sd _ Hi).
    unfold check_eps_with_value. rewrite Heps, Hi, Hi'. reflexivity.
  - unfold block_roe, when_enabled. simpl.
    destruct (Params.roe p) as [[[] v]|]; try reflexivity.
    simpl. fold self1 self2. rewrite (same_roe sd _ Hi).
    unfold check_roe_with_value. rewrite Hroe, Hi, Hi'. reflexivity.
  - unfold block_yield, when_enabled. simpl.
    destruct (Params.yield p) as [[[] v]|]; try reflexivity.
    simpl. fold self1 self2. rewrite (same_yield sd _ _ Hi).
    unfold check_yield_with_value. rewrite Hi, Hi'. reflexivity.
  - unfold block_not_warning. simpl. fold self1 self2.
    rewrite (same_not_warning sd Hi).
    unfold check_not_warning. rewrite Hi, Hi'. reflexivity.
  - unfold block_not_disposition. simpl. fold self1 self2.
    rewrite (same_not_disposition sd Hi).
    unfold check_not_disposition. rewrite Hi, Hi'. reflexivity.
  - unfold block_not_limit_up. simpl.
    destruct (Params.exclude_limit_up p) as [[[] d]|]; try reflexivity.
    fold self1 self2. rewrite same_not_limit_up. reflexivity.
Qed.

End SameAnswers.

Lemma attrs_id_set inst i :
  truthy_id (attrs_id (set_attrs_id inst i)) = true ->
  attrs_id (set_attrs_id inst i) = i.
Proof. destruct inst; simpl; [reflexivity|discriminate]. Qed.

Lemma set_attrs_id_twice inst i :
  set_attrs_id (set_attrs_id inst i) i = set_attrs_id inst i.
Proof. destruct inst; reflexivity. Qed.

(** C9, amended.  A second call on the same snapshot, with the engine
    and the snapshot as the first call left them, returns the same
    dictionary as the first whenever the remote services give the same
    answers about the stock during both calls. *)
Theorem check_all_conditions_repeatable self sd w2 :
  same_answers (real_data_integrator self) w2 (Stock.stock_id sd) ->
  let first := check_all_conditions self (ADict sd) in
  result (check_all_conditions (with_world w2 (engine first)) (snapshot first))
  = result first.
Proof.
  intros Hw first. subst first.
  unfold check_all_conditions at 2 3. cbv beta iota zeta.
  destruct (fold_left record _ _) as [results values] eqn:Hfold.
  cbn [engine snapshot result].
  unfold check_all_conditions, with_world.
  cbn [params min_conditions real_data_integrator _current_stock_id
       _trust_holding Stock.stock_id Stock.eps Stock.roe Stock.trust_holding
       Stock.type Stock.price Stock.institutional Stock.margin].
  rewrite set_attrs_id_twice.
  erewrite same_blocks; [rewrite Hfold; reflexivity|exact Hw|..];
    try reflexivity.
  - discriminate.
  - apply attrs_id_set.
Qed.

(** ** Series facts *)

Lemma no_column_no_index c df :
  Pandas.has_column c df = false ->
  Pandas.index_of c (Pandas.columns df) = None.
Proof.
  unfold Pandas.has_column. induction (Pandas.columns df) as [|c' cs IH]; simpl.
  - reflexivity.
  - destruct (String.eqb c c'); [discriminate|].
    simpl. intros H. now rewrite (IH H).
Qed.

Lemma col_length df c s : Pandas.col df c = Some s -> length s = Pandas.len df.
Proof.
  unfold Pandas.col, bind, ret.
  destruct (Pandas.index_of c (Pandas.columns df)); [|discriminate].
  intros [= <-]. apply length_map.
Qed.

Lemma col_of_empty df c : Pandas.empty df = true -> Pandas.len df <> 0%nat ->
  Pandas.col df c = None.
Proof.
  unfold Pandas.empty. intros H Hl.
  apply orb_true_iff in H. destruct H as [H|H].
  - apply Nat.eqb_eq in H. contradiction.
  - apply Nat.eqb_eq in H. unfold Pandas.col.
    destruct (Pandas.columns df); [reflexivity|discriminate].
Qed.

Lemma at_end_latest (s : Pandas.Series) :
  Pandas.at_end s 1 = VolumeSurgeSpec.latest s.
Proof.
  unfold Pandas.at_end, VolumeSurgeSpec.latest.
  destruct s as [|x s] using rev_ind; [reflexivity|].
  rewrite rev_app_distr, length_app. cbn [rev app length].
  destruct (Nat.leb_spec 1 (length s + 1)); [|lia].
  rewrite nth_error_app2 by lia.
  replace (length s + 1 - 1 - length s)%nat with 0%nat by lia. reflexivity.
Qed.

Lemma drop_last_tail (n : nat) (s : Pandas.Series) :
  (n + 1 <= length s)%nat ->
  Pandas.drop_last (Pandas.tail (n + 1) s) = VolumeSurgeSpec.trailing n s.
Proof.
  intros Hn. unfold Pandas.drop_last, Pandas.tail, VolumeSurgeSpec.trailing.
  rewrite removelast_firstn_len, length_skipn.
  f_equal. lia.
Qed.

(** ** The volume-surge check against its description *)

Lemma check_volume_surge_refines price_df threshold n :
  check_volume_surge_with_value price_df threshold n
  = VolumeSurgeSpec.volume_surge price_df threshold n.
Proof.
  unfold check_volume_surge_with_value, VolumeSurgeSpec.volume_surge,
    VolumeSurgeSpec.ratio, VolumeSurgeSpec.volumes, too_short, frame.
  destruct price_df as [df|]; [|reflexivity].
  destruct (Pandas.col df "Trading_Volume") as [vol|] eqn:Hcol.
  - pose proof (col_length _ _ _ Hcol) as Hlen.
    destruct (Pandas.has_column "Trading_Volume" df) eqn:Hhas.
    2:{ apply no_column_no_index in Hhas. unfold Pandas.col in Hcol.
        rewrite Hhas in Hcol. discriminate. }
    unfold VolumeSurgeSpec.trailing_average. rewrite Hlen.
    destruct (Pandas.empty df) eqn:Hemp.
    + assert (Pandas.len df = 0%nat) as H0.
      { destruct (Nat.eq_dec (Pandas.len df) 0) as [E|E]; [exact E|].
        rewrite (col_of_empty _ _ Hemp E) in Hcol. discriminate. }
      rewrite H0. simpl.
      replace (n + 1 <=? 0)%nat with false by (symmetry; apply Nat.leb_gt; lia).
      reflexivity.
    + cbn [orb]. destruct (Nat.ltb_spec (Pandas.len df) (n + 1)) as [Hlt|Hge].
      * replace (n + 1 <=? Pandas.len df)%nat with false
          by (symmetry; apply Nat.leb_gt; lia).
        reflexivity.
      * replace (n + 1 <=? Pandas.len df)%nat with true
          by (symmetry; apply Nat.leb_le; lia).
        cbn [orb negb bind]. rewrite ?Hhas, Hcol. cbn [bind negb].
        rewrite drop_last_tail by lia. rewrite at_end_latest.
        destruct (Pandas.mean (VolumeSurgeSpec.trailing n vol)) as [avg|];
          destruct (VolumeSurgeSpec.latest vol) as [l|];
          rewrite ?Hhas; cbn [bind ret try_except negb]; try reflexivity.
        destruct (avg >? 0)%py; reflexivity.
  - destruct (Pandas.empty df || (Pandas.len df <? n + 1)%nat); [reflexivity|].
    cbn [bind]. rewrite Hcol.
    destruct (Pandas.has_column "Trading_Volume" df); reflexivity.
Qed.

(** C4, amended.  For each tier, the check returns the latest volume
    divided by the average volume of the N bars before the current one,
    compared with the threshold; when that average is not positive, or
    the history is too short, the condition is recorded as failed with
    ratio 0, displayed as "0.00x".  The check is a total function: no
    division error escapes it. *)
Theorem volume_surge_ratio_and_undefined_display
        (self : Engine) (price_df : option Pandas.DataFrame)
        (t : VolumeSurgeSpec.Tier) (c : Condition)
        (Hc : VolumeSurgeSpec.tier_config (params self) t = Some c)
        (He : enabled c = true) :
  check_volume_surge_with_value price_df (value c) (VolumeSurgeSpec.tier_days t)
  = VolumeSurgeSpec.volume_surge price_df (value c) (VolumeSurgeSpec.tier_days t)
  /\ (VolumeSurgeSpec.ratio price_df (VolumeSurgeSpec.tier_days t) = None ->
      VolumeSurgeSpec.tier_block self price_df t
      = Some (mkVerdict (VolumeSurgeSpec.tier_key t) false
                (fstring [VolumeSurgeSpec.tier_label t; "0.00x (門檻: ";
                          str (value c); "x)"]))).
Proof.
  split; [apply check_volume_surge_refines|].
  intros Hr.
  destruct t; simpl in Hc |- *;
    unfold block_volume_surge1, block_volume_surge2, block_volume_surge3,
      when_enabled; rewrite Hc, He, check_volume_surge_refines;
    unfold VolumeSurgeSpec.volume_surge; simpl VolumeSurgeSpec.tier_days in Hr;
    rewrite Hr; reflexivity.
Qed.

(** ** Too few bars for the limit-up window *)

(** C10.  With fewer bars than the exclusion window, the
    consecutive-limit-up check passes and reports zero limit-up days, and
    the enabled condition is recorded so. *)
Theorem not_limit_up_passes_on_short_history
        (self : Engine) (df : Pandas.DataFrame) (days : Z)
        (Hshort : (Z.of_nat (Pandas.len df) < days)%Z) :
  check_not_limit_up_with_value self (Some df) days = (true, 0%Z)
  /\ forall c,
      Params.exclude_limit_up (params self) = Some c ->
      limit_enabled c = true ->
      match limit_days c with Some d => d | None => 3%Z end = days ->
      block_not_limit_up self (Some df)
      = Some (mkVerdict "not_limit_up" true
                (fstring ["連續漲停: 0天 (門檻: <"; str_int days; "天)"])).
Proof.
  assert (check_not_limit_up_with_value self (Some df) days = (true, 0%Z)) as H.
  { unfold check_not_limit_up_with_value.
    replace (Z.of_nat (Pandas.len df) <? days)%Z with true
      by (symmetry; apply Z.ltb_lt; exact Hshort).
    rewrite orb_true_r. reflexivity. }
  split; [exact H|].
  intros c Hc He Hd. unfold block_not_limit_up. rewrite Hc, He, Hd, H.
  reflexivity.
Qed.

(** ** The EPS chain *)

Lemma gtb_true a b : (a >? b)%py = true <-> (b < a)%Q.
Proof.
  unfold gtb. rewrite negb_true_iff. split; intros H.
  - apply Qnot_le_lt. intros Hle. apply Qle_bool_iff in Hle. congruence.
  - destruct (Qle_bool a b) eqn:E; [|reflexivity].
    apply Qle_bool_iff in E. exfalso. exact (Qlt_not_le _ _ H E).
Qed.

Lemma gtb_false a b : (a >? b)%py = false <-> ~ (b < a)%Q.
Proof.
  rewrite <- gtb_true. destruct (a >? b)%py; split; congruence.
Qed.

Lemma default_eps_positive stock_id :
  (0 < EnhancedDataFetcher.get_default_eps stock_id)%Q.
Proof.
  unfold EnhancedDataFetcher.get_default_eps, EnhancedDataFetcher.large_caps.
  cbn [get].
  repeat match goal with
         | |- context [String.eqb ?a ?b] => destruct (String.eqb a b)
         end; reflexivity.
Qed.

(** C7.  [get_eps_guaranteed] returns the exchange's EPS when it is
    positive, else the second provider's when that is positive, else the
    default: the listed value of the instrument, or 2.5 when it is not
    listed.  A provider's zero or negative value is never returned, the
    result is always a positive number, and with both services failing it
    is the default. *)
Theorem get_eps_guaranteed_chain
        (s : EnhancedDataFetcher.Services) (stock_id : string) :
  let twse := EnhancedDataFetcher.get_eps_from_twse s stock_id in
  let finmind := EnhancedDataFetcher.get_eps_from_finmind s stock_id in
  let default := EnhancedDataFetcher.get_default_eps stock_id in
  let eps := EnhancedDataFetcher.get_eps_guaranteed s stock_id in
  ((0 < twse /\ eps = twse)
   \/ (~ 0 < twse /\ 0 < finmind /\ eps = finmind)
   \/ (~ 0 < twse /\ ~ 0 < finmind /\ eps = default))%Q
  /\ default = match get EnhancedDataFetcher.large_caps stock_id with
               | Some listed => listed
               | None => 2.5%Q
               end
  /\ (0 < eps)%Q
  /\ EnhancedDataFetcher.get_eps_guaranteed
       (EnhancedDataFetcher.mkServices None (fun _ => None)) stock_id
     = default.
Proof.
  intros twse finmind default eps.
  assert ((0 < twse /\ eps = twse)
          \/ (~ 0 < twse /\ 0 < finmind /\ eps = finmind)
          \/ (~ 0 < twse /\ ~ 0 < finmind /\ eps = default))%Q as Hchain.
  { subst eps. unfold EnhancedDataFetcher.get_eps_guaranteed.
    fold twse finmind default.
    destruct (twse >? 0)%py eqn:Ht.
    - left. split; [now apply gtb_true|reflexivity].
    - apply gtb_false in Ht. destruct (finmind >? 0)%py eqn:Hf.
      + right; left. repeat split; [exact Ht|now apply gtb_true].
      + right; right. apply gtb_false in Hf. repeat split; assumption. }
  split; [exact Hchain|].
  split; [reflexivity|].
  split; [|reflexivity].
  destruct Hchain as [[H ->]|[(_ & H & ->)|(_ & _ & ->)]]; try exact H.
  apply default_eps_positive.
Qed.

(** ** The evaluator on concrete snapshots *)

(** The engine's trust-holding check is a floor on the snapshot's value. *)
Lemma check_trust_holding_is_a_floor self inst threshold holding :
  _trust_holding self = Some (Some holding) ->
  check_trust_holding_with_value self inst threshold
  = ((holding >=? val threshold)%py, holding).
Proof.
  intros H. unfold check_trust_holding_with_value. rewrite H. reflexivity.
Qed.

(** C2.  On the scenario snapshot (EPS 39.2, ROE 28.5, trust holding 0.8)
    with EPS > 0, ROE > 10 and the trust-holding condition at 15, three
    conditions to pass, the engine records the trust-holding verdict as
    failed, counts two matches and does not pass; the trust-holding check
    of diagnostic_fix.py, a ceiling, passes on the same input. *)
Theorem trust_holding_scenario_fails :
  let r := result (check_all_conditions (init scenario_params offline)
                                        (ADict scenario_stock)) in
  get r "eps" = Some (RBool true)
  /\ get r "roe" = Some (RBool true)
  /\ get r "trust_holding" = Some (RBool false)
  /\ get r "matched_count" = Some (RInt 2)
  /\ get r "passed" = Some (RBool false)
  /\ fst (DiagnosticFix._check_trust_holding scenario_params scenario_stock) = true.
Proof. vm_compute. repeat split. Qed.

(** Fewer than nine bars: no golden cross, and no K or D to show. *)
Lemma kd_golden_needs_nine_bars df :
  (Pandas.len df < 9)%nat ->
  check_kd_golden_with_value (Some df) = (false, None, None).
Proof.
  intros H. unfold check_kd_golden_with_value, too_short.
  replace (Pandas.len df <? 9)%nat with true
    by (symmetry; apply Nat.ltb_lt; exact H).
  rewrite orb_true_r. reflexivity.
Qed.

(** C3.  On fourteen bars where K crosses above D at K = 82.3, the
    engine's daily KD check passes and the verdict is recorded as passed,
    although K is not below 80; [TechnicalCalculator.check_golden_cross],
    which has the overbought guard, rejects the same K and D lines. *)
Theorem kd_golden_cross_passes_when_overbought :
  match check_kd_golden_with_value (Some overbought_cross_frame) with
  | (passed, Some curr_k, Some curr_d) =>
      passed = true /\ (80 <= curr_k)%Q /\ (curr_d < curr_k)%Q
  | _ => False
  end
  /\ match kd_lines overbought_cross_frame 9 with
     | Some (k, d) => TechnicalCalculator.check_golden_cross k d = false
     | None => False
     end
  /\ get (result (check_all_conditions
                    (init technical_params offline)
                    (ADict (stock_with_price overbought_cross_frame))))
         "daily_kd_golden" = Some (RBool true).
Proof.
  vm_compute. repeat split; intros; discriminate.
Qed.

(** Fewer than sixty bars: no breakout. *)
Lemma break_60d_high_needs_sixty_bars df :
  (Pandas.len df < 60)%nat ->
  check_break_60d_high_with_value (Some df) = (false, None, None).
Proof.
  intros H. unfold check_break_60d_high_with_value, too_short.
  replace (Pandas.len df <? 60)%nat with true
    by (symmetry; apply Nat.ltb_lt; exact H).
  rewrite orb_true_r. reflexivity.
Qed.

(** C6.  Sixty bars with a high of 100, then a bar with high 120 closing
    at 110: the close is above the highest high of the sixty bars before
    today, yet the engine compares it with 120, today's own high, and
    records the breakout as failed; [TechnicalCalculator.check_new_high],
    which leaves today out, accepts the same series. *)
Theorem break_60d_high_counts_today :
  let highs := map (fun r => nth 1 r 0%Q) (Pandas.rows breakout_frame) in
  Pandas.max (Pandas.drop_last (Pandas.tail 61 highs)) = Some 100%Q
  /\ check_break_60d_high_with_value (Some breakout_frame)
     = (false, Some 110%Q, Some 120%Q)
  /\ TechnicalCalculator.check_new_high breakout_frame 60 = true
  /\ get (result (check_all_conditions
                    (init technical_params offline)
                    (ADict (stock_with_price breakout_frame))))
         "break_60d_high" = Some (RBool false).
Proof. vm_compute. repeat split. Qed.

(** A key that no enabled condition records is absent from the result. *)
Lemma unrecorded_key_absent self sd k :
  condition_enabled (params self) k = false -> bookkeeping k = false ->
  get (result (check_all_conditions self (ADict sd))) k = None.
Proof.
  intros Hk Hb.
  destruct (check_all_conditions_shape self sd) as (results & values & Hr & _ & ->).
  destruct (get _ k) as [v|] eqn:Hg; [|reflexivity].
  apply get_In_keys in Hg. unfold keys in Hg. rewrite map_app in Hg.
  apply in_app_or in Hg. destruct Hg as [Hin|Hin].
  - apply in_map_iff in Hin. destruct Hin as [[k' v'] [<- Hin]].
    rewrite Forall_forall in Hr. destruct (Hr _ Hin) as [He _].
    simpl in *. congruence.
  - simpl in Hin. unfold bookkeeping in Hb. simpl in Hb.
    destruct Hin as [<-|[<-|[<-|[]]]]; discriminate.
Qed.

(** C5.  The scoring test for the perfect-volume bonus reads the keys
    [volume_surge_3x] and [volume_surge_5x], which the evaluator never
    records (it records [volume_surge_20d_3x] and [volume_surge_60d_5x]):
    the test is false on every evaluation result.  On a series whose last
    volume is ten times every average, all three tiers are matched and
    the score still has no combination bonus. *)
Theorem perfect_volume_bonus_unreachable :
  (forall self sd,
      ScoringSystem.perfect_volume
        (result (check_all_conditions self (ADict sd))) = false)
  /\ let r := result (check_all_conditions
                        (init surge_params offline)
                        (ADict (stock_with_price surge_frame))) in
     get r "volume_surge_1_5x" = Some (RBool true)
     /\ get r "volume_surge_20d_3x" = Some (RBool true)
     /\ get r "volume_surge_60d_5x" = Some (RBool true)
     /\ ScoringSystem._calculate_combo_bonus r = 0%Z
     /\ ScoringSystem.total_score (ScoringSystem.calculate_score r) = 5%Z.
Proof.
  split.
  - intros self sd. unfold ScoringSystem.perfect_volume. cbn [forallb].
    change ("volume_surge_" ++ "3x") with "volume_surge_3x".
    unfold ScoringSystem.get_false at 2.
    rewrite (unrecorded_key_absent self sd "volume_surge_3x")
      by reflexivity.
    apply andb_false_iff. right. reflexivity.
  - vm_compute. repeat split.
Qed.

(** ** Counterexamples *)

(** C4, as stated.  Five bars without volume, then 1000 shares: the
    trailing average is zero, the verdict is failed, and the display is
    "0.00x" with the threshold, not "N/A". *)
Lemma zero_average_display_is_not_NA :
  let r := result (check_all_conditions
                     (init surge_params offline)
                     (ADict (stock_with_price quiet_frame))) in
  match VolumeSurgeSpec.volumes (Some quiet_frame) with
  | Some vol =>
      match VolumeSurgeSpec.trailing_average 5 vol with
      | Some avg => (avg == 0)%Q
      | None => False
      end
  | None => False
  end
  /\ get r "volume_surge_1_5x" = Some (RBool false)
  /\ get (displays r) "volume_surge_1_5x" = Some "爆量倍數: 0.00x (門檻: 1.5x)"
  /\ get (displays r) "volume_surge_1_5x" <> Some "N/A".
Proof.
  vm_compute. repeat split. discriminate.
Qed.

(** C9, as stated.  Same snapshot, same configuration, two calls: the
    exchange does not answer during the first (the trust holding falls
    back to the listed 0.8%) and answers 5.2% during the second; the
    trust-percentage verdict, the count and the pass flag differ. *)
Lemma second_call_differs_when_services_change :
  let first := check_all_conditions (init trust_pct_params offline)
                                    (ADict scenario_stock) in
  result (check_all_conditions (with_world online (engine first))
                               (snapshot first))
  <> result first.
Proof.
  vm_compute. discriminate.
Qed.

(** ** The theorems at concrete inputs *)

Lemma disabled_conditions_have_no_verdict_witness :
  In "eps" (keys (verdicts (result (check_all_conditions
                                      (init scenario_params offline)
                                      (ADict scenario_stock)))))
  /\ condition_enabled scenario_params "eps" = true.
Proof.
  assert (In "eps" (keys (verdicts (result (check_all_conditions
                                              (init scenario_params offline)
                                              (ADict scenario_stock))))))
    as Hin by (vm_compute; auto).
  split; [exact Hin|].
  apply (disabled_conditions_have_no_verdict
           (init scenario_params offline) scenario_stock "eps").
  left. exact Hin.
Defined.

Lemma check_all_conditions_repeatable_witness :
  same_answers offline offline (Some "2330")
  /\ let first := check_all_conditions (init trust_pct_params offline)
                                       (ADict scenario_stock) in
     result (check_all_conditions (with_world offline (engine first))
                                  (snapshot first))
     = result first.
Proof.
  assert (same_answers offline offline (Some "2330")) as Hw
      by (repeat split).
  split; [exact Hw|].
  apply (check_all_conditions_repeatable
           (init trust_pct_params offline) scenario_stock offline).
  exact Hw.
Defined.

Lemma volume_surge_ratio_and_undefined_display_witness :
  check_volume_surge_with_value (Some quiet_frame) (PyFloat 1.5) 5
  = VolumeSurgeSpec.volume_surge (Some quiet_frame) (PyFloat 1.5) 5
  /\ VolumeSurgeSpec.tier_block (init surge_params offline)
                                (Some quiet_frame) VolumeSurgeSpec.Tier5
     = Some (mkVerdict "volume_surge_1_5x" false "爆量倍數: 0.00x (門檻: 1.5x)").
Proof.
  destruct (volume_surge_ratio_and_undefined_display
              (init surge_params offline) (Some quiet_frame)
              VolumeSurgeSpec.Tier5 (mkCondition true (PyFloat 1.5))
              eq_refl eq_refl) as [Hratio Hdisplay].
  split; [exact Hratio|].
  rewrite Hdisplay; [reflexivity|].
  vm_compute. reflexivity.
Defined.

Lemma not_limit_up_passes_on_short_history_witness :
  (Z.of_nat (Pandas.len short_frame) < 3)%Z
  /\ check_not_limit_up_with_value (init limit_up_params offline)
                                   (Some short_frame) 3 = (true, 0%Z)
  /\ block_not_limit_up (init limit_up_params offline) (Some short_frame)
     = Some (mkVerdict "not_limit_up" true "連續漲停: 0天 (門檻: <3天)").
Proof.
  assert (Z.of_nat (Pandas.len short_frame) < 3)%Z as Hshort
      by (vm_compute; reflexivity).
  destruct (not_limit_up_passes_on_short_history
              (init limit_up_params offline) short_frame 3 Hshort)
    as [Hcheck Hblock].
  split; [exact Hshort|]. split; [exact Hcheck|].
  exact (Hblock (mkLimitUp true (Some 3%Z)) eq_refl eq_refl eq_refl).
Defined.

(* ================================================================== *)
(** * Further properties of the code                                   *)
(* ================================================================== *)

Import Cases Properties.

(** ** Comparisons *)

Lemma geb_true a b : (a >=? b)%py = true <-> (b <= a)%Q.
Proof. unfold geb. apply Qle_bool_iff. Qed.

Lemma ltb_true a b : (a <? b)%py = true <-> (a < b)%Q.
Proof.
  unfold ltb. rewrite negb_true_iff. split; intros H.
  - apply Qnot_le_lt. intros Hle. apply Qle_bool_iff in Hle. congruence.
  - destruct (Qle_bool b a) eqn:E; [|reflexivity].
    apply Qle_bool_iff in E. exfalso. exact (Qlt_not_le _ _ H E).
Qed.

Lemma leb_true a b : (a <=? b)%py = true <-> (a <= b)%Q.
Proof. unfold leb. apply Qle_bool_iff. Qed.

(** ** Scoring *)

Lemma get_In_pair (V : Type) (d : dict V) k v : get d k = Some v -> In (k, v) d.
Proof.
  induction d as [|[k' v'] d IH]; simpl; [discriminate|].
  destruct (String.eqb_spec k k') as [->|Hne].
  - intros [= ->]. now left.
  - intros H. right. auto.
Qed.

Lemma weights_nonnegative c w :
  get ScoringSystem.weights c = Some w -> (0 < w)%Z.
Proof.
  intros H. apply get_In_pair in H. unfold ScoringSystem.weights in H.
  simpl in H.
  repeat (destruct H as [[= <- <-]|H]; [reflexivity|]).
  destruct H.
Qed.

Lemma base_loop_spec items base matched :
  ScoringSystem.base_loop items base matched
  = ((base + fold_right Z.add 0 (map weight_of
                 (map fst (filter weighted_and_matched items))))%Z,
     (matched ++ map fst (filter weighted_and_matched items))%list).
Proof.
  revert base matched.
  induction items as [|[c v] items IH]; intros base matched;
    cbn [ScoringSystem.base_loop filter].
  - cbn [map fold_right]. now rewrite Z.add_0_r, app_nil_r.
  - assert (weighted_and_matched (c, v)
            = match get ScoringSystem.weights c with
              | Some _ => ScoringSystem.truthy v
              | None => false
              end) as Hwm.
    { unfold weighted_and_matched, mem. cbn [fst snd].
      destruct (get ScoringSystem.weights c); reflexivity. }
    rewrite Hwm.
    destruct (get ScoringSystem.weights c) as [w|] eqn:Hw; [|apply IH].
    destruct (ScoringSystem.truthy v); [|apply IH].
    rewrite IH. cbn [map fold_right fst].
    unfold weight_of at 2. rewrite Hw.
    rewrite <- app_assoc. cbn [app]. f_equal. lia.
Qed.

Lemma weight_sum_nonnegative cs :
  (0 <= fold_right Z.add 0 (map weight_of cs))%Z.
Proof.
  induction cs as [|c cs IH]; simpl; [lia|].
  unfold weight_of at 1.
  destruct (get ScoringSystem.weights c) as [w|] eqn:Hw; [|lia].
  apply weights_nonnegative in Hw. lia.
Qed.

Lemma combo_bonus_range r :
  (0 <= ScoringSystem._calculate_combo_bonus r <= 35)%Z.
Proof.
  unfold ScoringSystem._calculate_combo_bonus.
  change (ScoringSystem.bonus "perfect_volume") with 10%Z.
  change (ScoringSystem.bonus "tech_fundamental") with 15%Z.
  change (ScoringSystem.bonus "institutional_support") with 10%Z.
  destruct (ScoringSystem.perfect_volume r);
    destruct (_ && _); destruct (2 <=? _)%Z; lia.
Qed.

(** X1.  For every result dictionary the base score and the combo bonus are
    not negative, the bonus is at most 35, the total is the sum capped at
    100 and so lies within 0 and 100, and the grade is the grade of that
    total. *)
Theorem calculate_score_bounds r :
  let s := ScoringSystem.calculate_score r in
  (0 <= ScoringSystem.base_score s)%Z
  /\ (0 <= ScoringSystem.combo_score s <= 35)%Z
  /\ ScoringSystem.total_score s
     = Z.min 100 (ScoringSystem.base_score s + ScoringSystem.combo_score s)
  /\ (0 <= ScoringSystem.total_score s <= 100)%Z
  /\ ScoringSystem.grade s = ScoringSystem._get_grade (ScoringSystem.total_score s).
Proof.
  unfold ScoringSystem.calculate_score. rewrite base_loop_spec.
  cbn [ScoringSystem.base_score ScoringSystem.combo_score
       ScoringSystem.total_score ScoringSystem.grade app].
  pose proof (weight_sum_nonnegative
                (map fst (filter weighted_and_matched r))) as Hb.
  pose proof (combo_bonus_range r) as Hc.
  repeat split; try lia.
Qed.

(** X2.  The matched conditions of a score are, in the order of the result
    dictionary, exactly its keys that carry a weight and hold a truthy
    value; the base score is the sum of their weights. *)
Theorem calculate_score_matched_conditions r :
  let s := ScoringSystem.calculate_score r in
  ScoringSystem.matched_conditions s
  = map fst (filter weighted_and_matched r)
  /\ ScoringSystem.base_score s
     = fold_right Z.add 0%Z (map weight_of (ScoringSystem.matched_conditions s)).
Proof.
  unfold ScoringSystem.calculate_score. rewrite base_loop_spec.
  split; reflexivity.
Qed.

(** ** The score of an evaluation result *)

Lemma result_keys self sd k :
  In k (keys (result (check_all_conditions self (ADict sd)))) ->
  condition_enabled (params self) k = true \/ bookkeeping k = true.
Proof.
  destruct (check_all_conditions_shape self sd) as (results & values & Hr & _ & ->).
  unfold keys. rewrite map_app. intros Hin.
  apply in_app_or in Hin. destruct Hin as [Hin|Hin].
  - left. apply in_map_iff in Hin. destruct Hin as [[k' v] [<- Hin]].
    rewrite Forall_forall in Hr. apply (Hr _ Hin).
  - right. simpl in Hin. destruct Hin as [<-|[<-|[<-|[]]]]; reflexivity.
Qed.

Lemma enabled_key_listed p k :
  condition_enabled p k = true -> In k (keys (enabled_table p)).
Proof.
  unfold condition_enabled.
  destruct (get (enabled_table p) k) eqn:Hg; [|discriminate].
  intros _. eapply get_In_keys. exact Hg.
Qed.

(** X3.  Scoring the result of an evaluation: the combo bonus is 10 when at
    least two of trust_buy, trust_5d and inst_5d are matched and 0
    otherwise, so the bonus for technical plus fundamental strength is
    never added (the engine records the fundamentals as eps, roe and
    yield, the scorer reads eps_positive, roe_above and yield_above); and
    every matched condition is one of fifteen keys the two sides share. *)
Theorem evaluation_score_has_no_fundamental_bonus self sd :
  let r := result (check_all_conditions self (ADict sd)) in
  let s := ScoringSystem.calculate_score r in
  ScoringSystem.combo_score s
  = (if (2 <=? ScoringSystem.count_matched r ["trust_buy"; "trust_5d"; "inst_5d"])%Z
     then 10 else 0)%Z
  /\ forall c, In c (ScoringSystem.matched_conditions s) -> In c scored_keys.
Proof.
  intros r s. split.
  - subst s. unfold ScoringSystem.calculate_score.
    rewrite base_loop_spec. cbn [ScoringSystem.combo_score].
    unfold ScoringSystem._calculate_combo_bonus.
    assert (ScoringSystem.perfect_volume r = false) as ->.
    { unfold ScoringSystem.perfect_volume. cbn [forallb].
      change ("volume_surge_" ++ "3x") with "volume_surge_3x".
      unfold ScoringSystem.get_false at 2. subst r.
      rewrite (unrecorded_key_absent self sd "volume_surge_3x") by reflexivity.
      apply andb_false_iff. right. reflexivity. }
    assert (ScoringSystem.count_matched r
              ["eps_positive"; "roe_above"; "yield_above"] = 0%Z) as ->.
    { unfold ScoringSystem.count_matched. cbn [filter].
      unfold ScoringSystem.get_false. subst r.
      rewrite (unrecorded_key_absent self sd "eps_positive") by reflexivity.
      rewrite (unrecorded_key_absent self sd "roe_above") by reflexivity.
      rewrite (unrecorded_key_absent self sd "yield_above") by reflexivity.
      reflexivity. }
    rewrite andb_false_r.
    change (ScoringSystem.bonus "institutional_support") with 10%Z.
    reflexivity.
  - intros c Hc.
    subst s. unfold ScoringSystem.calculate_score in Hc.
    rewrite base_loop_spec in Hc.
    cbn [ScoringSystem.matched_conditions app] in Hc.
    apply in_map_iff in Hc. destruct Hc as [[c' v] [<- Hc]].
    apply filter_In in Hc. destruct Hc as [Hin Hw].
    unfold weighted_and_matched in Hw. apply andb_true_iff in Hw.
    destruct Hw as [Hw _]. cbn [fst] in *.
    assert (In c' (keys r)) as Hk by (apply in_map_iff; exists (c', v); auto).
    subst r. apply result_keys in Hk. destruct Hk as [Hk|Hk].
    + apply enabled_key_listed in Hk. cbn in Hk.
      repeat (destruct Hk as [<-|Hk];
              [first [discriminate Hw | (cbn; tauto)]|]).
      destruct Hk.
    + unfold bookkeeping in Hk. cbn in Hk.
      repeat match type of Hk with
             | (String.eqb ?a ?b || _) = true =>
                 destruct (String.eqb_spec a b) as [->|_];
                 [discriminate Hw|cbn in Hk]
             end.
      discriminate.
Qed.

(** ** Crossovers *)

(** X4.  The same K and D series never show a golden cross and a death
    cross at once. *)
Theorem golden_and_death_cross_exclude_each_other (k d : Pandas.Series) :
  TechnicalCalculator.check_golden_cross k d = true ->
  TechnicalCalculator.check_death_cross k d = false.
Proof.
  unfold TechnicalCalculator.check_golden_cross,
    TechnicalCalculator.check_death_cross.
  destruct ((length k <? 2)%nat || (length d <? 2)%nat); [discriminate|].
  destruct (Pandas.at_end k 1) as [k1|]; [|discriminate].
  destruct (Pandas.at_end d 1) as [d1|]; [|discriminate].
  destruct (Pandas.at_end k 2) as [k2|]; [|discriminate].
  destruct (Pandas.at_end d 2) as [d2|]; [|discriminate].
  cbn [bind ret try_except]. intros H.
  apply andb_true_iff in H. destruct H as [H _].
  apply andb_true_iff in H. destruct H as [Hgt _].
  apply gtb_true in Hgt.
  destruct (k1 <? d1)%py eqn:Hlt; [|reflexivity].
  apply ltb_true in Hlt. lra.
Qed.

(** X5.  A golden cross of the calculator (with its guard K < 80) is a
    golden cross for the engine's test on the same lines, with the
    current K above the current D and below 80. *)
Theorem calculator_golden_cross_implies_engine_golden_cross (k d : Pandas.Series) :
  TechnicalCalculator.check_golden_cross k d = true ->
  exists curr_k curr_d,
    golden_cross_of k d = Some (true, Some curr_k, Some curr_d)
    /\ (curr_d < curr_k < 80)%Q.
Proof.
  unfold TechnicalCalculator.check_golden_cross, golden_cross_of.
  destruct (length k <? 2)%nat eqn:Hk; [discriminate|].
  destruct (length d <? 2)%nat eqn:Hd; [discriminate|].
  apply Nat.ltb_ge in Hk, Hd.
  replace (2 <=? length k)%nat with true by (symmetry; now apply Nat.leb_le).
  replace (2 <=? length d)%nat with true by (symmetry; now apply Nat.leb_le).
  cbn [orb andb].
  destruct (Pandas.at_end k 1) as [k1|]; [|discriminate].
  destruct (Pandas.at_end d 1) as [d1|]; [|discriminate].
  destruct (Pandas.at_end k 2) as [k2|]; [|discriminate].
  destruct (Pandas.at_end d 2) as [d2|]; [|discriminate].
  cbn [bind ret try_except]. intros H.
  apply andb_true_iff in H. destruct H as [H Hob].
  apply andb_true_iff in H. destruct H as [Hgt Hle].
  exists k1, d1. rewrite Hgt, Hle. split; [reflexivity|].
  apply gtb_true in Hgt. apply ltb_true in Hob. lra.
Qed.

(** ** Highest values *)

Lemma fold_qmax_ge_init s x : (x <= fold_left qmax s x)%Q.
Proof.
  revert x. induction s as [|y s IH]; intros x; simpl; [lra|].
  specialize (IH (qmax x y)). unfold qmax in *.
  destruct (Qle_bool x y) eqn:E; [apply Qle_bool_iff in E|]; lra.
Qed.

Lemma fold_qmax_ge s x y : In y s -> (y <= fold_left qmax s x)%Q.
Proof.
  revert x. induction s as [|z s IH]; intros x; simpl; [tauto|].
  intros [->|Hin]; [|auto].
  pose proof (fold_qmax_ge_init s (qmax x y)) as H. unfold qmax in *.
  destruct (Qle_bool x y) eqn:E; [lra|].
  assert (~ (x <= y)%Q) by (intros Hc; apply Qle_bool_iff in Hc; congruence).
  lra.
Qed.

Lemma fold_qmax_In s x : fold_left qmax s x = x \/ In (fold_left qmax s x) s.
Proof.
  revert x. induction s as [|z s IH]; intros x; simpl; [now left|].
  destruct (IH (qmax x z)) as [H|H]; [|now right; right].
  rewrite H. unfold qmax. destruct (Qle_bool x z); [right; now left|now left].
Qed.

Lemma max_ge s m x : Pandas.max s = Some m -> In x s -> (x <= m)%Q.
Proof.
  destruct s as [|y s]; [discriminate|]. intros [= <-] [->|Hin].
  - apply fold_qmax_ge_init.
  - now apply fold_qmax_ge.
Qed.

Lemma max_In s m : Pandas.max s = Some m -> In m s.
Proof.
  destruct s as [|y s]; [discriminate|]. intros [= <-].
  destruct (fold_qmax_In s y) as [->|H]; [now left|now right].
Qed.

Lemma max_defined s : s <> [] -> exists m, Pandas.max s = Some m.
Proof. destruct s; [contradiction|]. simpl. eauto. Qed.

Lemma too_short_false df n :
  too_short (Some df) n = false ->
  Pandas.empty df = false /\ (n <= Pandas.len df)%nat.
Proof.
  unfold too_short. intros H. apply orb_false_iff in H.
  destruct H as [He Hl]. apply Nat.ltb_ge in Hl. auto.
Qed.

(** X6.  For a frame with a close column and days >= 1, check_new_high holds
    exactly when there are more than days bars and the last close is
    strictly above each of the days closes before it. *)
Theorem check_new_high_means_above_previous_closes
        (df : Pandas.DataFrame) (days : nat) (closes : Pandas.Series)
        (Hcol : Pandas.col df "close" = Some closes)
        (Hdays : (1 <= days)%nat) :
  TechnicalCalculator.check_new_high df days = true
  <-> (days + 1 <= length closes)%nat
      /\ exists today,
          VolumeSurgeSpec.latest closes = Some today
          /\ forall x, In x (VolumeSurgeSpec.trailing days closes) -> (x < today)%Q.
Proof.
  pose proof (col_length _ _ _ Hcol) as Hlen.
  unfold TechnicalCalculator.check_new_high. rewrite Hcol. cbn [bind].
  rewrite at_end_latest.
  destruct (Nat.ltb_spec (Pandas.len df) (days + 1)) as [Hlt|Hge].
  { cbn [ret try_except]. split; [discriminate|]. intros [H _]. lia. }
  rewrite drop_last_tail by lia.
  assert (VolumeSurgeSpec.trailing days closes <> []) as Hne.
  { unfold VolumeSurgeSpec.trailing. intros Hnil.
    apply (f_equal (@length Q)) in Hnil.
    rewrite length_firstn, length_skipn in Hnil. simpl in Hnil. lia. }
  destruct (max_defined _ Hne) as [m Hm]. rewrite Hm.
  destruct (VolumeSurgeSpec.latest closes) as [today|] eqn:Hl;
    cbn [bind ret try_except].
  - split.
    + intros Hgt. apply gtb_true in Hgt. split; [lia|].
      exists today. split; [reflexivity|]. intros x Hx.
      pose proof (max_ge _ _ _ Hm Hx). lra.
    + intros (_ & today' & [= <-] & Hall). apply gtb_true.
      apply Hall. eapply max_In. exact Hm.
  - split; [discriminate|]. intros (_ & today & Hd & _). discriminate.
Qed.

(** X7.  When the engine's 60-day breakout passes, there are at least 60
    bars, the latest close is at least the high of its own bar, and at
    least every high of the last 60 bars. *)
Theorem break_60d_high_requires_close_at_todays_high
        (df : Pandas.DataFrame) (highs closes : Pandas.Series)
        (Hhigh : Pandas.col df "max" = Some highs)
        (Hclose : Pandas.col df "close" = Some closes)
        (Hpass : fst (fst (check_break_60d_high_with_value (Some df))) = true) :
  (60 <= Pandas.len df)%nat
  /\ exists today high_today,
      VolumeSurgeSpec.latest closes = Some today
      /\ VolumeSurgeSpec.latest highs = Some high_today
      /\ (high_today <= today)%Q
      /\ forall x, In x (Pandas.tail 60 highs) -> (x <= today)%Q.
Proof.
  unfold check_break_60d_high_with_value in Hpass.
  destruct (too_short (Some df) 60) eqn:Hs; [discriminate|].
  apply too_short_false in Hs. destruct Hs as [_ Hlen].
  unfold frame in Hpass. cbn [bind] in Hpass.
  rewrite Hhigh, Hclose in Hpass. cbn [bind] in Hpass.
  rewrite at_end_latest in Hpass.
  pose proof (col_length _ _ _ Hhigh) as Hlh.
  destruct (VolumeSurgeSpec.latest closes) as [today|] eqn:Hl;
    [|discriminate].
  cbn [bind] in Hpass.
  destruct (Pandas.max (Pandas.tail 60 highs)) as [m|] eqn:Hm;
    [|discriminate].
  cbn [ret try_except fst] in Hpass. apply geb_true in Hpass.
  split; [exact Hlen|].
  assert (exists h, VolumeSurgeSpec.latest highs = Some h
                    /\ In h (Pandas.tail 60 highs)) as (h & Hh & Hin).
  { rewrite <- at_end_latest. unfold Pandas.at_end, Pandas.tail.
    destruct (Nat.leb_spec 1 (length highs)) as [_|Hc]; [|lia].
    destruct (nth_error highs (length highs - 1)) as [h|] eqn:Hn.
    - exists h. split; [reflexivity|].
      apply (nth_error_In _ (length highs - 1 - (length highs - 60))).
      rewrite nth_error_skipn. rewrite <- Hn. f_equal. lia.
    - apply nth_error_None in Hn. lia. }
  exists today, h. repeat split; auto.
  - pose proof (max_ge _ _ _ Hm Hin). lra.
  - intros x Hx. pose proof (max_ge _ _ _ Hm Hx). lra.
Qed.

(** ** The limit-up loops *)

Lemma limit_up_loop_range df thr range acc n :
  W.limit_up_loop df thr range acc = Some n ->
  (acc <= n <= acc + Z.of_nat (length range))%Z.
Proof.
  revert acc. induction range as [|i range IH]; intros acc; simpl.
  - intros [= <-]. lia.
  - destruct (Pandas.len df <? i + 2)%nat; [intros [= <-]; lia|].
    destruct (Pandas.col df "close") as [closes|]; [|discriminate].
    cbn [bind].
    destruct (Pandas.at_end closes (i + 2)) as [prev|]; [|discriminate].
    destruct (Pandas.at_end closes (i + 1)) as [curr|]; [|discriminate].
    cbn [bind].
    destruct (if Pandas.has_column "max" df then _ else _) as [highs|];
      [|discriminate].
    cbn [bind].
    destruct (Pandas.at_end highs (i + 1)) as [high|]; [|discriminate].
    cbn [bind].
    destruct (prev >? 0)%py.
    + destruct (_ && _).
      * intros H. apply IH in H. lia.
      * intros [= <-]. lia.
    + intros H. apply IH in H. lia.
Qed.

(** X8.  For days >= 1 the integrator's count of consecutive limit-up days
    lies within 0 and days; the flag can be true only below days, and a
    count of days makes it false. *)
Theorem consecutive_limit_up_count_is_bounded
        (w : W.World) (price_df : option Pandas.DataFrame) (stock_id : pyid)
        (days : Z) (Hdays : (1 <= days)%Z) :
  let '(is_not_consecutive, limit_days) :=
    W.check_consecutive_limit_up w price_df stock_id days in
  (0 <= limit_days <= days)%Z
  /\ (is_not_consecutive = true -> limit_days < days)%Z
  /\ (limit_days = days -> is_not_consecutive = false).
Proof.
  unfold W.check_consecutive_limit_up.
  destruct price_df as [df|]; [|cbn; repeat split; try lia; discriminate].
  destruct (Pandas.empty df || _);
    [cbn; repeat split; try lia; discriminate|].
  destruct (W.limit_up_loop df _ _ 0%Z) as [n|] eqn:Hloop;
    cbn [bind ret try_except].
  - apply limit_up_loop_range in Hloop. rewrite length_seq in Hloop.
    repeat split; try lia;
      try (intros H; apply Z.ltb_lt in H; exact H);
      try (intros ->; apply Z.ltb_irrefl).
  - repeat split; try lia; try (intros <-; lia).
Qed.

(** X9.  With a stock id set and a frame of exactly days bars, the engine's
    limit-up exclusion fails with a count of 0: the engine lets the frame
    through (it has days bars) and the integrator answers (False, 0) for
    a frame shorter than days + 1. *)
Theorem not_limit_up_fails_at_exactly_days_bars
        (self : Engine) (df : Pandas.DataFrame) (days : Z) (stock_id : pyid)
        (Hid : _current_stock_id self = Some stock_id)
        (Htruthy : truthy_id stock_id = true)
        (Hempty : Pandas.empty df = false)
        (Hlen : Z.of_nat (Pandas.len df) = days) :
  check_not_limit_up_with_value self (Some df) days = (false, 0%Z).
Proof.
  unfold check_not_limit_up_with_value. rewrite Hempty, Hid, Htruthy.
  replace (Z.of_nat (Pandas.len df) <? days)%Z with false
    by (symmetry; apply Z.ltb_ge; lia).
  cbn [orb bind ret try_except].
  unfold W.check_consecutive_limit_up. rewrite Hempty.
  replace (Z.of_nat (Pandas.len df) <? days + 1)%Z with true
    by (symmetry; apply Z.ltb_lt; lia).
  reflexivity.
Qed.

Lemma fallback_loop_range df range acc n :
  fallback_limit_up_loop df range acc = Some n ->
  (acc <= n <= acc + Z.of_nat (length range))%Z.
Proof.
  revert acc. induction range as [|i range IH]; intros acc; simpl.
  - intros [= <-]. lia.
  - destruct (Pandas.len df <=? i)%nat; [intros [= <-]; lia|].
    destruct (Pandas.iloc_end df i) as [curr|]; [|discriminate].
    cbn [bind].
    destruct (Pandas.item curr "close") as [curr_close|]; [|discriminate].
    cbn [bind].
    destruct (if (i + 1 <? Pandas.len df)%nat then _ else _) as [prev|];
      [|discriminate].
    cbn [bind].
    destruct (prev >? 0)%py.
    + destruct (_ && _).
      * intros H. apply IH in H. lia.
      * intros [= <-]. lia.
    + intros H. apply IH in H. lia.
Qed.

(** X10.  Without a stock id the engine counts by itself: the count is not
    negative, at most days and at most the number of bars less one, and
    a frame of at most days bars always passes. *)
Theorem not_limit_up_without_stock_id
        (self : Engine) (df : Pandas.DataFrame) (days : Z)
        (Hid : match _current_stock_id self with
               | Some i => truthy_id i
               | None => false
               end = false) :
  let '(passed, limit_up_days) :=
    check_not_limit_up_with_value self (Some df) days in
  (0 <= limit_up_days)%Z
  /\ (limit_up_days <= Z.max 0 days)%Z
  /\ (limit_up_days <= Z.max 0 (Z.of_nat (Pandas.len df) - 1))%Z
  /\ ((Z.of_nat (Pandas.len df) <= days)%Z -> passed = true).
Proof.
  unfold check_not_limit_up_with_value.
  destruct (Pandas.empty df || _) eqn:Hguard;
    [cbn; repeat split; lia|].
  apply orb_false_iff in Hguard. destruct Hguard as [Hne _].
  unfold Pandas.empty in Hne. apply orb_false_iff in Hne.
  destruct Hne as [Hne _]. apply Nat.eqb_neq in Hne.
  assert (truthy_id match _current_stock_id self with
                    | Some i => i
                    | None => None
                    end = false) as ->.
  { destruct (_current_stock_id self); [exact Hid|reflexivity]. }
  destruct (fallback_limit_up_loop df _ 0%Z) as [n|] eqn:Hloop;
    cbn [bind ret try_except].
  - apply fallback_loop_range in Hloop. rewrite length_seq in Hloop.
    repeat split; try lia;
      try (intros Hle; apply Z.ltb_lt; lia).
  - repeat split; try lia; try reflexivity.
Qed.



(** ** The integrator's fallback chains *)

Lemma default_roe_positive (i : pyid) :
  (0 < match W.lookup_id W.default_roe i with
       | Some v => v
       | None => 15
       end)%Q.
Proof.
  destruct i as [s|]; [|reflexivity].
  unfold W.lookup_id, W.default_roe. cbn [get].
  repeat match goal with
         | |- context [String.eqb ?a ?b] => destruct (String.eqb a b)
         end; reflexivity.
Qed.

(** X12.  get_real_roe is the ROE computed from the statements when that is
    positive, else the Yahoo value when that is positive, else the table
    value of the stock or 15; the result is always positive. *)
Theorem get_real_roe_chain (w : W.World) (stock_id : pyid) :
  let financial := W._calculate_roe_from_financial w stock_id in
  let yahoo := W._get_roe_from_yahoo w stock_id in
  let default := match W.lookup_id W.default_roe stock_id with
                 | Some v => v
                 | None => 15%Q
                 end in
  let roe := W.get_real_roe w stock_id in
  ((0 < financial /\ roe = financial)
   \/ (~ 0 < financial /\ 0 < yahoo /\ roe = yahoo)
   \/ (~ 0 < financial /\ ~ 0 < yahoo /\ roe = default))%Q
  /\ (0 < roe)%Q.
Proof.
  intros financial yahoo default roe.
  assert ((0 < financial /\ roe = financial)
          \/ (~ 0 < financial /\ 0 < yahoo /\ roe = yahoo)
          \/ (~ 0 < financial /\ ~ 0 < yahoo /\ roe = default))%Q as Hchain.
  { subst roe. unfold W.get_real_roe. fold financial yahoo default.
    destruct (financial >? 0)%py eqn:Hf.
    - left. split; [now apply gtb_true|reflexivity].
    - apply gtb_false in Hf. destruct (yahoo >? 0)%py eqn:Hy.
      + right; left. repeat split; [exact Hf|now apply gtb_true].
      + right; right. apply gtb_false in Hy. repeat split; assumption. }
  split; [exact Hchain|].
  destruct Hchain as [[H ->]|[(_ & H & ->)|(_ & _ & ->)]]; try exact H.
  apply default_roe_positive.
Qed.

Lemma default_holdings_positive (i : pyid) v :
  W.lookup_id W.default_holdings i = Some v -> (0 < v)%Q.
Proof.
  destruct i as [s|]; [|discriminate].
  unfold W.lookup_id, W.default_holdings. cbn [get].
  repeat match goal with
         | |- context [String.eqb ?a ?b] => destruct (String.eqb a b)
         end; intros [= <-]; reflexivity.
Qed.

(** X13.  The integrator's trust-holding percentage is the exchange's value
    when positive, else the value from the history when positive, else
    the table value of the stock, and 0 for a stock outside the table; it
    is never negative. *)
Theorem get_trust_holding_percentage_chain (w : W.World) (stock_id : pyid) :
  let twse := W._get_trust_holding_from_twse w stock_id in
  let history := W._calculate_trust_holding_from_history w stock_id in
  let pct := W.get_trust_holding_percentage w stock_id in
  ((0 < twse /\ pct = twse)
   \/ (~ 0 < twse /\ 0 < history /\ pct = history)
   \/ (~ 0 < twse /\ ~ 0 < history
       /\ ((exists listed, W.lookup_id W.default_holdings stock_id = Some listed
                           /\ pct = listed /\ 0 < listed)
           \/ (W.lookup_id W.default_holdings stock_id = None /\ pct = 0))))%Q
  /\ (0 <= pct)%Q.
Proof.
  intros twse history pct.
  match goal with |- ?A /\ _ => assert A as Hchain end.
  { subst pct. unfold W.get_trust_holding_percentage. fold twse history.
    destruct (twse >? 0)%py eqn:Ht.
    - left. split; [now apply gtb_true|reflexivity].
    - apply gtb_false in Ht. destruct (history >? 0)%py eqn:Hh.
      + right; left. repeat split; [exact Ht|now apply gtb_true].
      + right; right. apply gtb_false in Hh.
        split; [exact Ht|]. split; [exact Hh|].
        destruct (W.lookup_id W.default_holdings stock_id) as [v|] eqn:Hl.
        * left. exists v. repeat split.
          eapply default_holdings_positive. exact Hl.
        * right. split; reflexivity. }
  split; [exact Hchain|].
  destruct Hchain as [[H ->]|[(_ & H & ->)|(_ & _ & [(v & _ & -> & H)|[_ ->]])]];
    lra.
Qed.

(** ** EPS from the exchange listing *)

Lemma round_half_even_nonnegative q : (0 <= q)%Q -> (0 <= round_half_even q)%Z.
Proof.
  intros Hq. unfold round_half_even.
  assert (0 <= Qfloor q)%Z as Hf.
  { change 0%Z with (Qfloor 0). now apply Qfloor_resp_le. }
  destruct (_ <? _)%py; [exact Hf|].
  destruct (_ >? _)%py; [lia|].
  destruct (Z.even _); lia.
Qed.

Lemma round2_nonnegative x : (0 <= x)%Q -> (0 <= EnhancedDataFetcher.round2 x)%Q.
Proof.
  intros Hx. unfold EnhancedDataFetcher.round2.
  assert (0 <= round_half_even (x * 100))%Z as Hr
      by (apply round_half_even_nonnegative; lra).
  apply Qle_shift_div_l; [reflexivity|].
  rewrite Qmult_0_l. change 0%Q with (inject_Z 0). now rewrite <- Zle_Qle.
Qed.

Lemma twse_loop_nonnegative data stock_id :
  (0 <= EnhancedDataFetcher.twse_loop data stock_id)%Q.
Proof.
  induction data as [|item data IH]; simpl; [lra|].
  destruct (String.eqb _ _); [|exact IH].
  destruct ((EnhancedDataFetcher.PEratio item >? 0)%py
            && (EnhancedDataFetcher.Close item >? 0)%py) eqn:Hpp.
  - apply andb_true_iff in Hpp. destruct Hpp as [Hpe Hcl].
    apply gtb_true in Hpe, Hcl. apply round2_nonnegative.
    apply Qle_shift_div_l; [exact Hpe|]. lra.
  - destruct (EnhancedDataFetcher.EPS item >? 0)%py eqn:He; [|exact IH].
    apply gtb_true in He. lra.
Qed.

Lemma twse_loop_unlisted data stock_id :
  (forall item, In item data -> EnhancedDataFetcher.Code item <> stock_id) ->
  EnhancedDataFetcher.twse_loop data stock_id = 0%Q.
Proof.
  induction data as [|item data IH]; intros H; simpl; [reflexivity|].
  destruct (String.eqb_spec (EnhancedDataFetcher.Code item) stock_id) as [E|_].
  - exfalso. apply (H item); [now left|exact E].
  - apply IH. intros i Hi. apply H. now right.
Qed.

(** X14.  The EPS read from the exchange listing is never negative; it is 0
    when no row carries the stock's code and when the request fails. *)
Theorem get_eps_from_twse_range (s : EnhancedDataFetcher.Services) (stock_id : string) :
  (0 <= EnhancedDataFetcher.get_eps_from_twse s stock_id)%Q
  /\ (forall data,
         EnhancedDataFetcher.bwibbu_all s = Some data ->
         (forall item, In item data -> EnhancedDataFetcher.Code item <> stock_id) ->
         EnhancedDataFetcher.get_eps_from_twse s stock_id = 0%Q)
  /\ (EnhancedDataFetcher.bwibbu_all s = None ->
      EnhancedDataFetcher.get_eps_from_twse s stock_id = 0%Q).
Proof.
  unfold EnhancedDataFetcher.get_eps_from_twse.
  destruct (EnhancedDataFetcher.bwibbu_all s) as [data|];
    cbn [bind ret try_except].
  - split; [apply twse_loop_nonnegative|]. split; [|discriminate].
    intros data' [= <-]. apply twse_loop_unlisted.
  - split; [lra|]. split; [discriminate|reflexivity].
Qed.

(** ** Thresholds of the volume-surge check *)

(** X15.  A volume surge that passes a threshold passes every lower threshold
    with the same ratio. *)
Theorem volume_surge_is_monotone_in_threshold
        (price_df : option Pandas.DataFrame) (threshold lower : num) (days : nat)
        (Hlower : (val lower <= val threshold)%Q)
        (Hpass : fst (check_volume_surge_with_value price_df threshold days) = true) :
  check_volume_surge_with_value price_df lower days
  = check_volume_surge_with_value price_df threshold days.
Proof.
  rewrite !check_volume_surge_refines in *.
  unfold VolumeSurgeSpec.volume_surge in *.
  destruct (VolumeSurgeSpec.ratio price_df days) as [r|]; [|discriminate].
  cbn [fst] in Hpass. rewrite Hpass. apply geb_true in Hpass.
  f_equal. apply geb_true. lra.
Qed.

(** ** Keys of the result *)

Lemma keys_set (V : Type) (d : dict V) k v :
  keys (set d k v) = if mem k d then keys d else (keys d ++ [k])%list.
Proof.
  unfold mem. induction d as [|[k' v'] d IH]; simpl; [reflexivity|].
  destruct (String.eqb_spec k k') as [->|Hne]; simpl; [reflexivity|].
  rewrite IH. destruct (get d k); reflexivity.
Qed.

Lemma mem_false_not_In (V : Type) (d : dict V) k :
  mem k d = false -> ~ In k (keys d).
Proof.
  unfold mem. induction d as [|[k' v'] d IH]; simpl; [tauto|].
  destruct (String.eqb_spec k k') as [->|Hne]; [discriminate|].
  intros H [E|Hin]; [congruence|]. now apply IH.
Qed.

Lemma set_NoDup (V : Type) (d : dict V) k v :
  NoDup (keys d) -> NoDup (keys (set d k v)).
Proof.
  intros Hd. rewrite keys_set. destruct (mem k d) eqn:Hm; [exact Hd|].
  apply mem_false_not_In in Hm.
  apply NoDup_app; [exact Hd|repeat constructor; intros []|].
  intros x Hx [<-|[]]. contradiction.
Qed.

Lemma record_NoDup bs acc :
  NoDup (keys (fst acc)) -> NoDup (keys (fst (fold_left record bs acc))).
Proof.
  revert acc. induction bs as [|b bs IH]; intros acc H; simpl; [exact H|].
  apply IH. destruct b as [v|]; simpl; [|exact H]. now apply set_NoDup.
Qed.

Lemma verdicts_NoDup self sd :
  NoDup (keys (verdicts (result (check_all_conditions self (ADict sd))))).
Proof.
  unfold check_all_conditions.
  match goal with
  | |- context [fold_left record (blocks ?s ?a ?b ?c ?d) ?acc] =>
      pose proof (record_invariant (params self) (blocks s a b c d)
                    (blocks_enabled s a b c d) acc) as Hinv;
      pose proof (record_NoDup (blocks s a b c d) acc) as Hnd;
      destruct (fold_left record (blocks s a b c d) acc)
        as [results values] eqn:Hfold
  end.
  simpl in Hinv, Hnd.
  destruct Hinv as [Hr Hv]; [constructor|constructor|].
  specialize (Hnd (NoDup_nil _)).
  cbn [result].
  rewrite (set_fresh _ results "matched_count")
    by (eapply verdicts_fresh; eauto).
  rewrite (set_fresh _ (results ++ _)%list "passed").
  2:{ unfold keys. rewrite map_app. simpl. intros Hin.
      apply in_app_or in Hin. destruct Hin as [Hin|[Hin|[]]]; [|discriminate].
      revert Hin. eapply verdicts_fresh; eauto. }
  rewrite (set_fresh _ ((results ++ _) ++ _)%list "values").
  2:{ unfold keys. rewrite !map_app. simpl. intros Hin.
      apply in_app_or in Hin. destruct Hin as [Hin|[Hin|[]]]; [|discriminate].
      apply in_app_or in Hin. destruct Hin as [Hin|[Hin|[]]]; [|discriminate].
      revert Hin. eapply verdicts_fresh; eauto. }
  rewrite <- !app_assoc. cbn [app].
  rewrite (verdicts_of_shape _ _ _ _ _ Hr). exact Hnd.
Qed.

(** X16.  The result of an evaluation holds every key once; the number of
    passed conditions lies within 0 and the number of recorded verdicts,
    which is at most 25. *)
Theorem each_condition_is_recorded_once self sd :
  let r := result (check_all_conditions self (ADict sd)) in
  NoDup (keys r)
  /\ (0 <= count_passed r <= Z.of_nat (length (verdicts r)))%Z
  /\ (length (verdicts r) <= 25)%nat.
Proof.
  intros r. pose proof (verdicts_NoDup self sd) as Hnd. fold r in Hnd.
  assert (forall k, In k (keys (verdicts r)) ->
                    In k (keys (enabled_table (params self)))) as Hincl.
  { intros k Hk. subst r.
    destruct (check_all_conditions_shape self sd)
      as (results & values & Hr & _ & E).
    rewrite E in Hk. rewrite (verdicts_of_shape _ _ _ _ _ Hr) in Hk.
    unfold keys in Hk. apply in_map_iff in Hk.
    destruct Hk as [[k' v] [<- Hin]].
    rewrite Forall_forall in Hr. destruct (Hr _ Hin) as [He _].
    unfold condition_enabled in He. cbn [fst] in *.
    destruct (get (enabled_table (params self)) k') eqn:Hg; [|discriminate].
    eapply get_In_keys. exact Hg. }
  split; [|split].
  - subst r.
    destruct (check_all_conditions_shape self sd)
      as (results & values & Hr & _ & E).
    rewrite E in *. rewrite (verdicts_of_shape _ _ _ _ _ Hr) in Hnd.
    unfold keys. rewrite map_app. apply NoDup_app; [exact Hnd| |].
    + repeat constructor; simpl; intuition discriminate.
    + intros k Hk Hb. revert Hk.
      eapply (verdicts_fresh _ _ _ Hr). simpl in Hb.
      destruct Hb as [<-|[<-|[<-|[]]]]; reflexivity.
  - unfold count_passed. split; [lia|].
    apply inj_le. etransitivity; [apply filter_length_le|].
    unfold Py.values. now rewrite length_map.
  - pose proof (NoDup_incl_length Hnd Hincl) as H.
    unfold keys in H at 1. rewrite length_map in H.
    etransitivity; [exact H|]. cbn. lia.
Qed.

(** ** Lowest values *)

Lemma fold_qmin_le_init s x : (fold_left qmin s x <= x)%Q.
Proof.
  revert x. induction s as [|y s IH]; intros x; simpl; [lra|].
  specialize (IH (qmin x y)). unfold qmin in *.
  destruct (Qle_bool x y) eqn:E; [lra|].
  assert (~ (x <= y)%Q) by (intros Hc; apply Qle_bool_iff in Hc; congruence).
  lra.
Qed.

Lemma fold_qmin_le s x y : In y s -> (fold_left qmin s x <= y)%Q.
Proof.
  revert x. induction s as [|z s IH]; intros x; simpl; [tauto|].
  intros [->|Hin]; [|auto].
  pose proof (fold_qmin_le_init s (qmin x y)) as H. unfold qmin in *.
  destruct (Qle_bool x y) eqn:E; [apply Qle_bool_iff in E|]; lra.
Qed.

Lemma min_le s m x : Pandas.min s = Some m -> In x s -> (m <= x)%Q.
Proof.
  destruct s as [|y s]; [discriminate|]. intros [= <-] [->|Hin].
  - apply fold_qmin_le_init.
  - now apply fold_qmin_le.
Qed.

(** ** Rolling windows *)

Lemma nth_error_rolling window f s i :
  nth_error (Pandas.rolling window f s) i
  = if (i <? length s)%nat
    then Some match Pandas.window_at window s i with
              | Some w => f w
              | None => None
              end
    else None.
Proof.
  unfold Pandas.rolling. rewrite nth_error_map, nth_error_seq.
  destruct (i <? length s)%nat; reflexivity.
Qed.

Lemma window_has_current window s i w x :
  (1 <= window)%nat ->
  Pandas.window_at window s i = Some w -> nth_error s i = Some x -> In x w.
Proof.
  unfold Pandas.window_at. intros Hw.
  destruct (Nat.leb_spec window (S i)) as [Hle|]; [|discriminate].
  intros [= <-] Hx.
  apply (nth_error_In _ (window - 1)).
  rewrite nth_error_firstn.
  destruct (Nat.ltb_spec (window - 1) window) as [_|]; [|lia].
  rewrite nth_error_skipn. rewrite <- Hx. f_equal.
  destruct window; [lia|]. lia.
Qed.

(** ** RSV, K and D *)

Lemma rsv_at_percent c l h :
  (match l, h with
   | Some l, Some h => l <= c <= h
   | _, _ => True
   end)%Q ->
  percent (Pandas.rsv_at c l h).
Proof.
  unfold Pandas.rsv_at, percent.
  destruct l as [l|]; [|intros _; lra].
  destruct h as [h|]; [|intros _; lra].
  intros [Hl Hh].
  destruct (Qeq_bool (h - l) 0) eqn:E; [lra|].
  apply Qeq_bool_neq in E.
  assert (0 < h - l)%Q as Hpos.
  { destruct (Qlt_le_dec 0 (h - l)) as [H|H]; [exact H|].
    exfalso. apply E. lra. }
  assert (0 <= (c - l) / (h - l))%Q as H0
      by (apply Qle_shift_div_l; [exact Hpos|lra]).
  assert ((c - l) / (h - l) <= 1)%Q as H1
      by (apply Qle_shift_div_r; [exact Hpos|lra]).
  lra.
Qed.

Lemma rsv_series_percent closes low_n high_n :
  (forall i c l h,
      nth_error closes i = Some c -> nth_error low_n i = Some l ->
      nth_error high_n i = Some h -> percent (Pandas.rsv_at c l h)) ->
  Forall percent (Pandas.rsv_series closes low_n high_n).
Proof.
  revert low_n high_n.
  induction closes as [|c cs IH]; intros ls hs H; simpl; [constructor|].
  destruct ls as [|l ls]; [constructor|].
  destruct hs as [|h hs]; [constructor|].
  constructor.
  - apply (H 0%nat); reflexivity.
  - apply IH. intros i c' l' h' Hc Hl Hh. apply (H (S i)); assumption.
Qed.

Lemma rsv_series_length closes low_n high_n :
  length low_n = length closes -> length high_n = length closes ->
  length (Pandas.rsv_series closes low_n high_n) = length closes.
Proof.
  revert low_n high_n.
  induction closes as [|c cs IH]; intros ls hs Hl Hh; simpl; [reflexivity|].
  destruct ls as [|l ls]; [discriminate|].
  destruct hs as [|h hs]; [discriminate|].
  simpl in *. f_equal. apply IH; lia.
Qed.

Lemma ewm_from_percent alpha prev s :
  (0 <= alpha <= 1)%Q -> percent prev -> Forall percent s ->
  Forall percent (Pandas.ewm_from alpha prev s).
Proof.
  intros Ha Hp Hs. revert prev Hp.
  induction Hs as [|x s Hx Hs IH]; intros prev Hp; simpl; constructor.
  - unfold percent in *. nra.
  - apply IH. unfold percent in *. nra.
Qed.

Lemma ewm_percent alpha s :
  (0 <= alpha <= 1)%Q -> Forall percent s -> Forall percent (Pandas.ewm alpha s).
Proof.
  intros Ha Hs. destruct Hs as [|x s Hx Hs]; simpl; constructor; auto.
  now apply ewm_from_percent.
Qed.

Lemma ewm_from_length alpha prev s :
  length (Pandas.ewm_from alpha prev s) = length s.
Proof.
  revert prev. induction s as [|x s IH]; intros prev; simpl; [reflexivity|].
  now rewrite IH.
Qed.

Lemma ewm_length alpha s : length (Pandas.ewm alpha s) = length s.
Proof. destruct s; simpl; [reflexivity|]. now rewrite ewm_from_length. Qed.

(** X17.  For a frame whose bars have min <= close <= max and a window of at
    least one bar, the engine's K and D lines exist, have one value per
    bar, and every value lies within 0 and 100. *)
Theorem kd_lines_stay_within_0_and_100
        (df : Pandas.DataFrame) (window : nat)
        (lows closes highs : Pandas.Series)
        (Hwindow : (1 <= window)%nat)
        (Hlow : Pandas.col df "min" = Some lows)
        (Hclose : Pandas.col df "close" = Some closes)
        (Hhigh : Pandas.col df "max" = Some highs)
        (Hbars : bars_ordered lows closes highs) :
  exists k d,
    kd_lines df window = Some (k, d)
    /\ length k = Pandas.len df /\ length d = Pandas.len df
    /\ Forall percent k /\ Forall percent d.
Proof.
  unfold kd_lines. rewrite Hhigh, Hlow, Hclose. cbn [bind ret].
  eexists. eexists. split; [reflexivity|].
  pose proof (col_length _ _ _ Hlow) as Ll.
  pose proof (col_length _ _ _ Hclose) as Lc.
  pose proof (col_length _ _ _ Hhigh) as Lh.
  assert (0 <= Pandas.alpha_of_com 2 <= 1)%Q as Ha
      by (split; vm_compute; discriminate).
  assert (Forall percent
            (Pandas.rsv_series closes
               (Pandas.rolling window Pandas.min lows)
               (Pandas.rolling window Pandas.max highs))) as Hrsv.
  { apply rsv_series_percent. intros i c l h Hc Hl Hh.
    apply rsv_at_percent.
    rewrite nth_error_rolling in Hl, Hh.
    destruct (i <? length lows)%nat eqn:Hil; [|discriminate].
    destruct (i <? length highs)%nat eqn:Hih; [|discriminate].
    injection Hl as <-. injection Hh as <-.
    apply Nat.ltb_lt in Hil, Hih.
    destruct (nth_error lows i) as [lo|] eqn:Hlo;
      [|apply nth_error_None in Hlo; lia].
    destruct (nth_error highs i) as [hi|] eqn:Hhi;
      [|apply nth_error_None in Hhi; lia].
    destruct (Pandas.window_at window lows i) as [wl|] eqn:Hwl; [|exact I].
    destruct (Pandas.min wl) as [m|] eqn:Hm; [|exact I].
    destruct (Pandas.window_at window highs i) as [wh|] eqn:Hwh; [|exact I].
    destruct (Pandas.max wh) as [M|] eqn:HM; [|exact I].
    pose proof (min_le _ _ _ Hm (window_has_current _ _ _ _ _ Hwindow Hwl Hlo)).
    pose proof (max_ge _ _ _ HM (window_has_current _ _ _ _ _ Hwindow Hwh Hhi)).
    destruct (Hbars i lo c hi Hlo Hc Hhi). lra. }
  repeat split.
  - rewrite ewm_length, rsv_series_length; [lia| |];
      unfold Pandas.rolling; rewrite length_map, length_seq; lia.
  - rewrite !ewm_length, rsv_series_length; [lia| |];
      unfold Pandas.rolling; rewrite length_map, length_seq; lia.
  - now apply ewm_percent.
  - apply ewm_percent; [exact Ha|]. now apply ewm_percent.
Qed.

(** ** The fetcher's ROE and trust-holding chains *)

Lemma fetcher_default_roe_positive stock_id :
  (0 < Fetcher.get_default_roe stock_id)%Q.
Proof.
  unfold Fetcher.get_default_roe, Fetcher.roe_large_caps. cbn [get].
  repeat match goal with
         | |- context [String.eqb ?a ?b] => destruct (String.eqb a b)
         end; reflexivity.
Qed.

Lemma fetcher_default_trust_holding_positive stock_id :
  (0 < Fetcher.get_default_trust_holding stock_id)%Q.
Proof.
  unfold Fetcher.get_default_trust_holding, Fetcher.holding_large_caps.
  cbn [get].
  repeat match goal with
         | |- context [String.eqb ?a ?b] => destruct (String.eqb a b)
         end; reflexivity.
Qed.

Lemma get_eps_guaranteed_positive (s : EnhancedDataFetcher.Services) stock_id :
  (0 < EnhancedDataFetcher.get_eps_guaranteed s stock_id)%Q.
Proof.
  unfold EnhancedDataFetcher.get_eps_guaranteed.
  destruct (EnhancedDataFetcher.get_eps_from_twse s stock_id >? 0)%py eqn:Ht;
    cbn [ret try_except].
  - now apply gtb_true.
  - destruct (EnhancedDataFetcher.get_eps_from_finmind s stock_id >? 0)%py
      eqn:Hf; cbn [ret try_except].
    + now apply gtb_true.
    + apply default_eps_positive.
Qed.

Lemma get_roe_guaranteed_positive (f : Fetcher.Feeds) stock_id :
  (0 < Fetcher.get_roe_guaranteed f stock_id)%Q.
Proof.
  unfold Fetcher.get_roe_guaranteed.
  destruct (_ >? 0)%py eqn:Hc; cbn [ret try_except].
  - now apply gtb_true.
  - apply fetcher_default_roe_positive.
Qed.

Lemma get_trust_holding_percentage_positive (f : Fetcher.Feeds) stock_id :
  (0 < Fetcher.get_trust_holding_percentage f stock_id)%Q.
Proof.
  unfold Fetcher.get_trust_holding_percentage.
  destruct (Fetcher.get_trust_holding_from_twse f stock_id >? 0)%py eqn:Ht;
    cbn [ret try_except].
  - now apply gtb_true.
  - destruct (Fetcher.calculate_trust_holding f stock_id >? 0)%py eqn:Hc;
      cbn [ret try_except].
    + now apply gtb_true.
    + apply fetcher_default_trust_holding_positive.
Qed.

(** X18.  The fetcher's guaranteed ROE is the computed ROE when that is
    positive and the default otherwise; it is always positive, and the
    computed ROE is never negative. *)
Theorem get_roe_guaranteed_is_positive (f : Fetcher.Feeds) (stock_id : string) :
  let computed := Fetcher.calculate_roe_from_financial f stock_id in
  let roe := Fetcher.get_roe_guaranteed f stock_id in
  ((0 < computed /\ roe = computed)
   \/ (~ 0 < computed /\ roe = Fetcher.get_default_roe stock_id))%Q
  /\ (0 < roe)%Q
  /\ (0 <= computed)%Q.
Proof.
  intros computed roe.
  assert ((0 < computed /\ roe = computed)
          \/ (~ 0 < computed /\ roe = Fetcher.get_default_roe stock_id))%Q
    as Hchain.
  { subst roe. unfold Fetcher.get_roe_guaranteed. fold computed.
    destruct (computed >? 0)%py eqn:Hc.
    - left. split; [now apply gtb_true|reflexivity].
    - right. apply gtb_false in Hc. split; [exact Hc|reflexivity]. }
  split; [exact Hchain|]. split.
  - apply get_roe_guaranteed_positive.
  - subst computed. unfold Fetcher.calculate_roe_from_financial.
    destruct (Fetcher.financial_statements f stock_id) as [rows|];
      cbn [bind ret try_except]; [|lra].
    destruct rows as [|r rows]; [cbn; lra|].
    destruct (Pandas.at_end (r :: rows) 1) as [latest|];
      cbn [bind ret try_except]; [|lra].
    destruct (_ && _) eqn:Hpp; cbn [ret try_except]; [|lra].
    apply andb_true_iff in Hpp. destruct Hpp as [He Hn].
    apply gtb_true in He, Hn. apply round2_nonnegative.
    assert (0 <= Fetcher.NetIncome latest / Fetcher.Equity latest)%Q
      by (apply Qle_shift_div_l; [exact He|lra]).
    lra.
Qed.

(** X19.  The trust holding estimated from the buy and sell records lies
    within 0 and 5 percent. *)
Theorem calculate_trust_holding_is_capped (f : Fetcher.Feeds) (stock_id : string) :
  (0 <= Fetcher.calculate_trust_holding f stock_id <= 5)%Q.
Proof.
  unfold Fetcher.calculate_trust_holding.
  destruct (Fetcher.institutional_trades f stock_id) as [raw|];
    cbn [bind ret try_except]; [|lra].
  destruct (filter _ raw) as [|t ts]; [cbn; lra|].
  destruct (_ >? 0)%py eqn:Hc; cbn [ret try_except]; [|lra].
  apply gtb_true in Hc.
  assert (0 <= EnhancedDataFetcher.round2
                 (Fetcher.cumulative_net (t :: ts) / 100000000 * 0.1))%Q as Hr.
  { apply round2_nonnegative.
    assert (0 <= Fetcher.cumulative_net (t :: ts) / 100000000)%Q
      by (apply Qle_shift_div_l; [reflexivity|lra]).
    lra. }
  unfold qmin. destruct (Qle_bool _ 5) eqn:E.
  - apply Qle_bool_iff in E. lra.
  - lra.
Qed.

(** X20.  The fetcher's trust-holding percentage is the exchange's value when
    positive, else the estimate when positive, else the default; it is
    always positive. *)
Theorem fetcher_trust_holding_is_positive (f : Fetcher.Feeds) (stock_id : string) :
  let twse := Fetcher.get_trust_holding_from_twse f stock_id in
  let calc := Fetcher.calculate_trust_holding f stock_id in
  let holding := Fetcher.get_trust_holding_percentage f stock_id in
  ((0 < twse /\ holding = twse)
   \/ (~ 0 < twse /\ 0 < calc /\ holding = calc)
   \/ (~ 0 < twse /\ ~ 0 < calc
       /\ holding = Fetcher.get_default_trust_holding stock_id))%Q
  /\ (0 < holding)%Q.
Proof.
  intros twse calc holding.
  match goal with |- ?A /\ _ => assert A as Hchain end.
  { subst holding. unfold Fetcher.get_trust_holding_percentage.
    fold twse calc.
    destruct (twse >? 0)%py eqn:Ht.
    - left. split; [now apply gtb_true|reflexivity].
    - apply gtb_false in Ht. destruct (calc >? 0)%py eqn:Hc.
      + right; left. repeat split; [exact Ht|now apply gtb_true].
      + right; right. apply gtb_false in Hc. repeat split; assumption. }
  split; [exact Hchain|].
  apply get_trust_holding_percentage_positive.
Qed.

(** ** get_all_data *)

Ltac positive_default :=
  eexists; split;
  [reflexivity
  |first [apply default_eps_positive
         |apply fetcher_default_roe_positive
         |apply fetcher_default_trust_holding_positive
         |apply get_eps_guaranteed_positive
         |apply get_roe_guaranteed_positive
         |apply get_trust_holding_percentage_positive]].

(** X21.  Once the identifier is resolved, get_all_data returns a record for
    that identifier whose EPS, ROE and trust holding are positive numbers,
    also when the progress callback raises: without an error they are the
    guaranteed values and the three frames are set, with an error noted
    they are the defaults. *)
Theorem get_all_data_always_has_key_figures
        (f : Fetcher.Feeds) (id : string) (cb : option Fetcher.Callback) :
  let r := Fetcher.get_all_data_of f id cb in
  Fetcher.stock_id r = id
  /\ positive_figure (Fetcher.eps r)
  /\ positive_figure (Fetcher.roe r)
  /\ positive_figure (Fetcher.trust_holding r)
  /\ (Fetcher.error r = None ->
      Fetcher.eps r
      = Some (EnhancedDataFetcher.get_eps_guaranteed (Fetcher.eps_services f) id)
      /\ Fetcher.roe r = Some (Fetcher.get_roe_guaranteed f id)
      /\ Fetcher.trust_holding r = Some (Fetcher.get_trust_holding_percentage f id)
      /\ Fetcher.price r = Some (Fetcher.get_stock_price f id)
      /\ Fetcher.institutional r = Some (Fetcher.get_institutional_trading f id)
      /\ Fetcher.margin r = Some (Fetcher.get_margin_trading f id))
  /\ (Fetcher.error r <> None ->
      Fetcher.eps r = Some (EnhancedDataFetcher.get_default_eps id)
      /\ Fetcher.roe r = Some (Fetcher.get_default_roe id)
      /\ Fetcher.trust_holding r = Some (Fetcher.get_default_trust_holding id)).
Proof.
  unfold Fetcher.get_all_data_of.
  repeat match goal with
         | |- context [Fetcher.notify cb ?m] =>
             destruct (Fetcher.notify cb m);
             [cbn [Fetcher.on_error Fetcher.stock_id Fetcher.eps Fetcher.roe
                   Fetcher.trust_holding Fetcher.error Fetcher.type
                   Fetcher.price Fetcher.institutional Fetcher.margin
                   Fetcher.financial];
              repeat split; try positive_default; try discriminate|]
         end.
  cbn [Fetcher.stock_id Fetcher.eps Fetcher.roe Fetcher.trust_holding
       Fetcher.error Fetcher.type Fetcher.price Fetcher.institutional
       Fetcher.margin Fetcher.financial].
  repeat split; try positive_default.
  all: intros; congruence.
Qed.

(** ** The argument of get_all_data *)

(** X22.  get_all_data raises exactly for an integer argument below minus the
    length of the stock list; a string is used as it is, an integer at or
    beyond the length is used as its decimal string, and an integer
    within the list, counted from either end, is replaced by the
    identifier of that row. *)
Theorem get_all_data_raises_only_before_list_start
        (f : Fetcher.Feeds) (arg : Fetcher.IdArg) (cb : option Fetcher.Callback) :
  let n := Z.of_nat (length (Fetcher.get_stock_list f)) in
  (Fetcher.get_all_data f arg cb = None
   <-> exists i, arg = Fetcher.IntId i /\ (i < - n)%Z)
  /\ (forall s, arg = Fetcher.StrId s ->
                Fetcher.get_all_data f arg cb
                = Some (Fetcher.get_all_data_of f s cb))
  /\ (forall i, arg = Fetcher.IntId i -> (n <= i)%Z ->
                Fetcher.get_all_data f arg cb
                = Some (Fetcher.get_all_data_of f (str_int i) cb))
  /\ (forall i, arg = Fetcher.IntId i -> (0 <= i < n)%Z ->
                exists row,
                  nth_error (Fetcher.get_stock_list f) (Z.to_nat i) = Some row
                  /\ Fetcher.get_all_data f arg cb
                     = Some (Fetcher.get_all_data_of f (Fetcher.listed_id row) cb))
  /\ (forall i, arg = Fetcher.IntId i -> (- n <= i < 0)%Z ->
                exists row,
                  nth_error (Fetcher.get_stock_list f) (Z.to_nat (n + i)) = Some row
                  /\ Fetcher.get_all_data f arg cb
                     = Some (Fetcher.get_all_data_of f (Fetcher.listed_id row) cb)).
Proof.
  intros n. unfold Fetcher.get_all_data, Fetcher.resolve_id, Fetcher.iloc_id.
  fold n.
  assert (forall j, (0 <= j < n)%Z ->
                    exists row, nth_error (Fetcher.get_stock_list f) (Z.to_nat j)
                                = Some row) as Hnth.
  { intros j Hj.
    destruct (nth_error (Fetcher.get_stock_list f) (Z.to_nat j)) eqn:E;
      [eauto|]. apply nth_error_None in E. lia. }
  split; [|split; [|split; [|split]]].
  - destruct arg as [i|s]; cbn [bind ret].
    + destruct (Z.ltb_spec i n) as [Hlt|Hge].
      * destruct (Z.leb_spec 0 i) as [H0|Hneg].
        -- destruct (Hnth i (conj H0 Hlt)) as [row ->]. cbn.
           split; [discriminate|]. intros (j & [= <-] & Hj). lia.
        -- destruct (Z.leb_spec (- n) i) as [Hin|Hout].
           ++ destruct (Hnth (n + i)%Z ltac:(lia)) as [row ->]. cbn.
              split; [discriminate|]. intros (j & [= <-] & Hj). lia.
           ++ cbn. split; [intros _; exists i; split; [reflexivity|lia]|reflexivity].
      * cbn. split; [discriminate|]. intros (j & [= <-] & Hj). lia.
    + split; [discriminate|]. intros (j & Hj & _). discriminate.
  - intros s ->. reflexivity.
  - intros i -> Hi.
    replace (i <? n)%Z with false by (symmetry; apply Z.ltb_ge; lia).
    reflexivity.
  - intros i -> Hi.
    replace (i <? n)%Z with true by (symmetry; apply Z.ltb_lt; lia).
    replace (0 <=? i)%Z with true by (symmetry; apply Z.leb_le; lia).
    destruct (Hnth i Hi) as [row Hrow]. exists row. rewrite Hrow.
    split; reflexivity.
  - intros i -> Hi.
    replace (i <? n)%Z with true by (symmetry; apply Z.ltb_lt; lia).
    replace (0 <=? i)%Z with false by (symmetry; apply Z.leb_gt; lia).
    replace (- n <=? i)%Z with true by (symmetry; apply Z.leb_le; lia).
    destruct (Hnth (n + i)%Z ltac:(lia)) as [row Hrow]. exists row.
    rewrite Hrow. split; reflexivity.
Qed.

(** ** batch_fetch *)

Lemma batch_loop_quiet f cb total batch current results :
  (forall m, Fetcher.notify cb m = None) ->
  Fetcher.batch_loop f cb total batch current results
  = Some (results ++ map (fun id => Fetcher.get_all_data_of f id None) batch)%list.
Proof.
  intros Hq. revert current results.
  induction batch as [|id batch IH]; intros current results; simpl.
  - now rewrite app_nil_r.
  - rewrite Hq, IH, <- app_assoc. reflexivity.
Qed.

Lemma batches_from_quiet f cb ids step fuel i results :
  (forall m, Fetcher.notify cb m = None) ->
  (1 <= step)%nat -> (length ids - i <= fuel)%nat ->
  Fetcher.batches_from f cb ids step fuel i results
  = Some (results
          ++ map (fun id => Fetcher.get_all_data_of f id None) (skipn i ids))%list.
Proof.
  intros Hq Hstep. revert i results.
  induction fuel as [|fuel IH]; intros i results Hfuel; simpl.
  - rewrite skipn_all2 by lia. now rewrite app_nil_r.
  - destruct (Nat.ltb_spec i (length ids)) as [Hlt|Hge].
    + rewrite batch_loop_quiet by exact Hq. cbn [bind].
      rewrite IH by lia. rewrite <- app_assoc, <- map_app.
      replace (skipn (i + step) ids) with (skipn step (skipn i ids))
        by (rewrite skipn_skipn; f_equal; lia).
      now rewrite firstn_skipn.
    + rewrite skipn_all2 by lia. now rewrite app_nil_r.
Qed.

(** X23.  With a batch size of at least 1 and a progress callback that does
    not raise, batch_fetch returns one record per identifier, in the
    order given, each the record get_all_data gives without a callback. *)
Theorem batch_fetch_covers_every_id_once
        (f : Fetcher.Feeds) (stock_ids : list string) (batch_size : Z)
        (cb : option Fetcher.Callback)
        (Hsize : (1 <= batch_size)%Z)
        (Hquiet : forall m, Fetcher.notify cb m = None) :
  Fetcher.batch_fetch f stock_ids batch_size cb
  = Some (map (fun id => Fetcher.get_all_data_of f id None) stock_ids).
Proof.
  unfold Fetcher.batch_fetch.
  replace (batch_size =? 0)%Z with false by (symmetry; apply Z.eqb_neq; lia).
  replace (batch_size <? 0)%Z with false by (symmetry; apply Z.ltb_ge; lia).
  rewrite batches_from_quiet; [reflexivity|exact Hquiet|lia|lia].
Qed.

(** ** The fixed engine of diagnostic_fix.py *)

Lemma enabled_condition (c : option Condition) :
  is_enabled c = true -> exists c', c = Some c'.
Proof. destruct c as [c'|]; [eauto | discriminate]. Qed.

Lemma fixed_check_eps_returns p data :
  exists b v, Fixed._check_eps p data = Some (b, v) /\
              (is_enabled (Params.eps p) = false -> b = false /\ v = None).
Proof.
  unfold Fixed._check_eps.
  destruct (is_enabled (Params.eps p)) eqn:He; cbn [negb].
  - destruct (enabled_condition _ He) as [c ->]. cbn [bind].
    destruct (Stock.eps _); eexists; eexists; (split; [reflexivity | discriminate]).
  - eexists; eexists; split; [reflexivity | auto].
Qed.

Lemma fixed_check_roe_returns p data :
  exists b v, Fixed._check_roe p data = Some (b, v) /\
              (is_enabled (Params.roe p) = false -> b = false /\ v = None).
Proof.
  unfold Fixed._check_roe.
  destruct (is_enabled (Params.roe p)) eqn:He; cbn [negb].
  - destruct (enabled_condition _ He) as [c ->]. cbn [bind].
    destruct (Stock.roe _); eexists; eexists; (split; [reflexivity | discriminate]).
  - eexists; eexists; split; [reflexivity | auto].
Qed.

Lemma fixed_check_trust_holding_returns p data :
  exists b v, Fixed._check_trust_holding p data = Some (b, v) /\
              (is_enabled (Params.trust_holding p) = false -> b = false /\ v = None).
Proof.
  unfold Fixed._check_trust_holding, DiagnosticFix._check_trust_holding, ret.
  destruct (is_enabled (Params.trust_holding p)) eqn:He; cbn [negb].
  - destruct (enabled_condition _ He) as [c ->].
    destruct (Stock.trust_holding _) as [[v|]|];
      eexists; eexists; (split; [reflexivity | discriminate]).
  - eexists; eexists; split; [reflexivity | auto].
Qed.

Lemma fixed_check_kd_golden_returns p data :
  exists b v, Fixed._check_kd_golden p data = Some (b, v) /\
              (Params.daily_kd_golden p = false -> b = false /\ v = None).
Proof.
  unfold Fixed._check_kd_golden.
  destruct (Params.daily_kd_golden p); cbn [negb].
  - destruct (Fixed.kd_k data), (Fixed.kd_d data);
      eexists; eexists; (split; [reflexivity | discriminate]).
  - eexists; eexists; split; [reflexivity | auto].
Qed.

Lemma fixed_check_ma20_returns p data :
  exists b v, Fixed._check_ma20 p data = Some (b, v) /\
              (Params.above_ma20 p = false -> b = false /\ v = None).
Proof.
  unfold Fixed._check_ma20.
  destruct (Params.above_ma20 p); cbn [negb].
  - destruct (Fixed.close data), (Fixed.ma20 data);
      eexists; eexists; (split; [reflexivity | discriminate]).
  - eexists; eexists; split; [reflexivity | auto].
Qed.

Lemma leb_false (x y : Q) : (x <=? y)%py = false <-> (y < x)%Q.
Proof.
  unfold leb. destruct (Qle_bool x y) eqn:H.
  - apply Qle_bool_iff in H. split; [discriminate | intros; lra].
  - split; [intros _ | reflexivity].
    apply Qnot_le_lt. intros Hle. apply Qle_bool_iff in Hle. congruence.
Qed.

Lemma fixed_check_volume_surge_raises p data :
  Fixed._check_volume_surge p data = None <-> volume_is_None p data.
Proof.
  unfold Fixed._check_volume_surge, volume_is_None, Fixed.number.
  destruct (is_enabled (Params.volume_surge1 p)) eqn:He; cbn [negb].
  - destruct (enabled_condition _ He) as [c Hc]. rewrite Hc.
    destruct (Fixed.volume_5d_avg data) as [[avg|]|] eqn:Havg; cbn [Fixed.get0 bind].
    + destruct (avg <=? 0)%py eqn:Hle.
      * split; [discriminate |].
        intros [_ [H | [[a [Ha Hpos]] _]]]; [discriminate |].
        injection Ha as <-. apply leb_false in Hpos. congruence.
      * destruct (Fixed.volume data) as [[v|]|] eqn:Hv; cbn [Fixed.get0 bind].
        -- split; [discriminate |].
           intros [_ [H | [_ H]]]; discriminate.
        -- split; [intros _ | reflexivity].
           split; [reflexivity |]. right. split; [| reflexivity].
           exists avg. split; [reflexivity |]. now apply leb_false.
        -- split; [discriminate |].
           intros [_ [H | [_ H]]]; discriminate.
    + split; [intros _ | reflexivity]. split; [reflexivity |]. now left.
    + assert (H0 : (0 <=? 0)%py = true) by reflexivity.
      rewrite H0. split; [discriminate |].
      intros [_ [H | [[a [Ha Hpos]] _]]]; [discriminate |].
      injection Ha as <-. lra.
  - split; [discriminate | intros [H _]; discriminate].
Qed.

Lemma fixed_check_volume_surge_disabled p data :
  is_enabled (Params.volume_surge1 p) = false ->
  Fixed._check_volume_surge p data = Some (false, None).
Proof. intros H. unfold Fixed._check_volume_surge. now rewrite H. Qed.

Lemma fixed_check_trust_buy_raises p data :
  Fixed._check_trust_buy p data = None <-> trust_buy_is_None p data.
Proof.
  unfold Fixed._check_trust_buy, trust_buy_is_None, Fixed.number.
  destruct (is_enabled (Params.trust_buy p)) eqn:He; cbn [negb].
  - destruct (enabled_condition _ He) as [c Hc]. rewrite Hc.
    destruct (Fixed.trust_buy data) as [[v|]|]; cbn [bind].
    + split; [discriminate | intros [_ H]; discriminate].
    + split; [intros _; split; reflexivity | reflexivity].
    + split; [discriminate | intros [_ H]; discriminate].
  - split; [discriminate | intros [H _]; discriminate].
Qed.

Lemma fixed_check_trust_buy_disabled p data :
  is_enabled (Params.trust_buy p) = false ->
  Fixed._check_trust_buy p data = Some (false, None).
Proof. intros H. unfold Fixed._check_trust_buy. now rewrite H. Qed.

Lemma conditions_check_raises p data :
  Fixed.conditions_check p data = None <->
  volume_is_None p data \/ trust_buy_is_None p data.
Proof.
  unfold Fixed.conditions_check.
  destruct (fixed_check_eps_returns p data) as (b1 & v1 & -> & _).
  destruct (fixed_check_roe_returns p data) as (b2 & v2 & -> & _).
  destruct (fixed_check_trust_holding_returns p data) as (b3 & v3 & -> & _).
  destruct (fixed_check_kd_golden_returns p data) as (b5 & v5 & -> & _).
  destruct (fixed_check_ma20_returns p data) as (b6 & v6 & -> & _).
  cbn [bind].
  rewrite <- fixed_check_volume_surge_raises, <- fixed_check_trust_buy_raises.
  destruct (Fixed._check_volume_surge p data) as [c4|]; cbn [bind].
  - destruct (Fixed._check_trust_buy p data) as [c7|]; cbn [bind ret].
    + split; [discriminate | intros [H | H]; discriminate].
    + split; [now right | reflexivity].
  - split; [now left | reflexivity].
Qed.

Lemma conditions_check_shape p data checks :
  Fixed.conditions_check p data = Some checks ->
  exists c1 c2 c3 c4 c5 c6 c7,
    checks = [ ("eps", c1); ("roe", c2); ("trust_holding", c3);
               ("volume_surge", c4); ("kd_golden", c5); ("ma20", c6);
               ("trust_buy", c7) ] /\
    forall k, fixed_switch p k = false ->
              nth_error [("eps", c1); ("roe", c2); ("trust_holding", c3);
                         ("volume_surge", c4); ("kd_golden", c5);
                         ("ma20", c6); ("trust_buy", c7)]
                        (position k) = Some (k, (false, None)) \/
              ~ In k fixed_keys.
Proof.
  unfold Fixed.conditions_check.
  destruct (fixed_check_eps_returns p data) as (b1 & v1 & -> & H1).
  destruct (fixed_check_roe_returns p data) as (b2 & v2 & -> & H2).
  destruct (fixed_check_trust_holding_returns p data) as (b3 & v3 & -> & H3).
  destruct (fixed_check_kd_golden_returns p data) as (b5 & v5 & -> & H5).
  destruct (fixed_check_ma20_returns p data) as (b6 & v6 & -> & H6).
  cbn [bind].
  destruct (Fixed._check_volume_surge p data) as [c4|] eqn:H4; cbn [bind];
    [| discriminate].
  destruct (Fixed._check_trust_buy p data) as [c7|] eqn:H7; cbn [bind ret];
    [| discriminate].
  intros [= <-]. do 7 eexists. split; [reflexivity |].
  intros k Hk.
  destruct (in_dec string_dec k fixed_keys) as [Hin | Hout]; [left | now right].
  cbn [In fixed_keys] in Hin.
  repeat destruct Hin as [<- | Hin]; try contradiction;
    cbn in Hk; cbn [position nth_error].
  - now destruct (H1 Hk) as [-> ->].
  - now destruct (H2 Hk) as [-> ->].
  - now destruct (H3 Hk) as [-> ->].
  - rewrite (fixed_check_volume_surge_disabled _ _ Hk) in H4. now injection H4 as <-.
  - now destruct (H5 Hk) as [-> ->].
  - now destruct (H6 Hk) as [-> ->].
  - rewrite (fixed_check_trust_buy_disabled _ _ Hk) in H7. now injection H7 as <-.
Qed.

(** X24.  The fixed engine raises on a dict exactly when the volume check is
    enabled and volume_5d_avg holds None, or the average is positive and
    volume holds None, or when the trust-buy check is enabled and
    trust_buy holds None. *)
Theorem fixed_engine_raises_exactly_on_None_numbers p data :
  Fixed.check_all_conditions p (Fixed.ADict data) = None <->
  volume_is_None p data \/ trust_buy_is_None p data.
Proof.
  rewrite <- conditions_check_raises.
  unfold Fixed.check_all_conditions.
  destruct (Fixed.conditions_check p data) as [checks|]; cbn [bind].
  - destruct (Fixed.tally _ _ _ _) as [[result values] matched_count].
    split; discriminate.
  - split; reflexivity.
Qed.

(** X25.  A result the fixed engine returns for a dict holds the three
    bookkeeping keys and then the seven condition keys, a display value
    for each of the seven, the number of true verdicts as matched_count,
    and passed as the comparison of that number with the minimum (0 when
    not configured). *)
Theorem fixed_engine_records_all_seven_conditions p data r :
  Fixed.check_all_conditions p (Fixed.ADict data) = Some r ->
  keys r = "matched_count" :: "passed" :: "values" :: fixed_keys /\
  exists values,
    get r "values" = Some (Fixed.RValues values) /\
    keys values = fixed_keys /\
    let n := Z.of_nat (length (filter (fixed_true r) fixed_keys)) in
    get r "matched_count" = Some (Fixed.RInt n) /\
    get r "passed" = Some (Fixed.RBool (Fixed.min_conditions p <=? n)%Z).
Proof.
  unfold Fixed.check_all_conditions.
  destruct (Fixed.conditions_check p data) as [checks|] eqn:Hc; cbn [bind];
    [| discriminate].
  destruct (conditions_check_shape _ _ _ Hc)
    as ([b1 v1] & [b2 v2] & [b3 v3] & [b4 v4] & [b5 v5] & [b6 v6] & [b7 v7]
        & -> & _).
  intros [= <-]. vm_compute.
  split; [reflexivity |]. eexists. split; [reflexivity |].
  split; [reflexivity |].
  destruct b1, b2, b3, b4, b5, b6, b7; split; reflexivity.
Qed.

(** X26.  In a result of the fixed engine a condition that is switched off is
    still recorded: its verdict is False and its display value None. *)
Theorem fixed_engine_records_disabled_conditions_as_failed p data r k :
  Fixed.check_all_conditions p (Fixed.ADict data) = Some r ->
  In k fixed_keys ->
  fixed_switch p k = false ->
  get r k = Some (Fixed.RBool false) /\
  exists values,
    get r "values" = Some (Fixed.RValues values) /\ get values k = Some None.
Proof.
  unfold Fixed.check_all_conditions.
  destruct (Fixed.conditions_check p data) as [checks|] eqn:Hc; cbn [bind];
    [| discriminate].
  destruct (conditions_check_shape _ _ _ Hc)
    as ([b1 v1] & [b2 v2] & [b3 v3] & [b4 v4] & [b5 v5] & [b6 v6] & [b7 v7]
        & -> & Hoff).
  intros [= <-] Hk Hs.
  destruct (Hoff k Hs) as [Hoff' | Hout]; [| contradiction].
  cbn [In fixed_keys] in Hk.
  repeat destruct Hk as [<- | Hk]; try contradiction;
    cbn [position nth_error String.eqb Ascii.eqb Bool.eqb] in Hoff';
    injection Hoff' as -> ->;
    (split; [reflexivity |]); eexists; split; reflexivity.
Qed.

(** ** TechnicalCalculator: KD lines, volume ratio, average support *)

Lemma nth_error_rolling_min1 window f s i :
  nth_error (Indicators.rolling_min1 window f s) i
  = if (i <? length s)%nat
    then Some (f (Indicators.window_min1 window s i))
    else None.
Proof.
  unfold Indicators.rolling_min1. rewrite nth_error_map, nth_error_seq.
  destruct (i <? length s)%nat; reflexivity.
Qed.

Lemma window_min1_has_current window s i x :
  (1 <= window)%nat -> nth_error s i = Some x ->
  In x (Indicators.window_min1 window s i).
Proof.
  unfold Indicators.window_min1. intros Hw Hx.
  apply (nth_error_In _ (Nat.min window (S i) - 1)).
  rewrite nth_error_firstn.
  destruct (Nat.ltb_spec (Nat.min window (S i) - 1) (Nat.min window (S i)))
    as [_|]; [|lia].
  rewrite nth_error_skipn. rewrite <- Hx. f_equal. lia.
Qed.

(** X27.  For a frame whose bars have low <= close <= high and a period of at
    least 1, the calculator's K and D lines have one value per bar, all
    within 0 and 100. *)
Theorem calculate_kd_stays_within_0_and_100
        (df : Pandas.DataFrame) (period : nat)
        (lows closes highs : Pandas.Series)
        (Hperiod : (1 <= period)%nat)
        (Hlow : Pandas.col df "low" = Some lows)
        (Hclose : Pandas.col df "close" = Some closes)
        (Hhigh : Pandas.col df "high" = Some highs)
        (Hbars : bars_ordered lows closes highs) :
  let (k, d) := Indicators.calculate_kd df period in
  length k = Pandas.len df /\ length d = Pandas.len df
  /\ Forall percent k /\ Forall percent d.
Proof.
  unfold Indicators.calculate_kd.
  destruct period as [|period]; [lia|]. cbn [Nat.eqb].
  rewrite Hhigh, Hlow, Hclose. cbn [bind ret try_except].
  pose proof (col_length _ _ _ Hlow) as Ll.
  pose proof (col_length _ _ _ Hclose) as Lc.
  pose proof (col_length _ _ _ Hhigh) as Lh.
  assert (0 <= 1 / 3 <= 1)%Q as Ha by (split; vm_compute; discriminate).
  assert (Forall percent
            (Pandas.rsv_series closes
               (Indicators.rolling_min1 (S period) Pandas.min lows)
               (Indicators.rolling_min1 (S period) Pandas.max highs))) as Hrsv.
  { apply rsv_series_percent. intros i c l h Hc Hl Hh.
    apply rsv_at_percent.
    rewrite nth_error_rolling_min1 in Hl, Hh.
    destruct (i <? length lows)%nat eqn:Hil; [|discriminate].
    destruct (i <? length highs)%nat eqn:Hih; [|discriminate].
    injection Hl as <-. injection Hh as <-.
    apply Nat.ltb_lt in Hil, Hih.
    destruct (nth_error lows i) as [lo|] eqn:Hlo;
      [|apply nth_error_None in Hlo; lia].
    destruct (nth_error highs i) as [hi|] eqn:Hhi;
      [|apply nth_error_None in Hhi; lia].
    destruct (Pandas.min _) as [m|] eqn:Hm; [|exact I].
    destruct (Pandas.max _) as [M|] eqn:HM; [|exact I].
    pose proof (min_le _ _ _ Hm (window_min1_has_current _ _ _ _ Hperiod Hlo)).
    pose proof (max_ge _ _ _ HM (window_min1_has_current _ _ _ _ Hperiod Hhi)).
    destruct (Hbars i lo c hi Hlo Hc Hhi). lra. }
  repeat split.
  - rewrite ewm_length, rsv_series_length; [lia| |];
      unfold Indicators.rolling_min1; rewrite length_map, length_seq; lia.
  - rewrite !ewm_length, rsv_series_length; [lia| |];
      unfold Indicators.rolling_min1; rewrite length_map, length_seq; lia.
  - now apply ewm_percent.
  - apply ewm_percent; [exact Ha|]. now apply ewm_percent.
Qed.

(** X28.  With exactly five bars the five-day average of the volume ratio is
    taken over the four bars before today: the ratio is the last volume
    over the mean of the first four. *)
Theorem calculate_volume_ratio_of_five_bars_averages_four
        (df : Pandas.DataFrame) (a b c d e : Q)
        (Hcols : Pandas.has_column "Trading_Volume" df = false)
        (Hvol : Pandas.col df "volume" = Some [a; b; c; d; e])
        (Hpos : (0 < a + b + c + d)%Q) :
  (Indicators.calculate_volume_ratio df == e / ((a + b + c + d) / 4))%Q.
Proof.
  unfold Indicators.calculate_volume_ratio. rewrite Hcols, Hvol.
  cbn [bind ret length Nat.ltb Nat.leb Pandas.at_end nth_error Nat.sub
       Indicators.five_before_last Pandas.tail Pandas.drop_last skipn
       removelast Pandas.mean Pandas.sum fold_left].
  assert (Hs : (0 + a + b + c + d == a + b + c + d)%Q) by ring.
  destruct (gtb _ 0) eqn:Hg.
  - change (try_except (ret ?x) _) with x.
    change (inject_Z (Z.of_nat 4)) with 4%Q.
    now rewrite Hs.
  - apply gtb_false in Hg. exfalso. apply Hg.
    change (inject_Z (Z.of_nat 4)) with 4%Q.
    apply Qlt_shift_div_l; lra.
Qed.

Lemma In_firstn_In (A : Type) n (l : list A) x : In x (firstn n l) -> In x l.
Proof.
  intros H. rewrite <- (firstn_skipn n l). apply in_or_app. now left.
Qed.

Lemma In_skipn_In (A : Type) n (l : list A) x : In x (skipn n l) -> In x l.
Proof.
  intros H. rewrite <- (firstn_skipn n l). apply in_or_app. now right.
Qed.




Lemma fold_Qplus_acc s acc :
  (fold_left Qplus s acc == acc + fold_left Qplus s 0)%Q.
Proof.
  revert acc. induction s as [|x s IH]; intros acc; cbn [fold_left]; [ring|].
  rewrite (IH (acc + x)%Q), (IH (0 + x)%Q). ring.
Qed.


Lemma sum_nonnegative s :
  Forall (fun x => 0 <= x)%Q s -> (0 <= Pandas.sum s)%Q.
Proof.
  unfold Pandas.sum. induction 1 as [|x s Hx Hs IH]; cbn [fold_left]; [lra|].
  rewrite fold_Qplus_acc. lra.
Qed.

Lemma mean_nonnegative s m :
  Forall (fun x => 0 <= x)%Q s -> Pandas.mean s = Some m -> (0 <= m)%Q.
Proof.
  intros Hs. destruct s as [|x s]; [discriminate|]. intros [= <-].
  apply Qle_shift_div_l.
  - change 0%Q with (inject_Z 0). rewrite <- Zlt_Qlt.
    cbn [length]. lia.
  - pose proof (sum_nonnegative _ Hs). lra.
Qed.


(** X30.  For closes that are not negative, a frame that passes the engine's
    test of a close above the 20-day average passes the calculator's
    support test for 20 days. *)
Theorem above_ma20_implies_ma_support
        (df : Pandas.DataFrame) (closes : Pandas.Series)
        (Hclose : Pandas.col df "close" = Some closes)
        (Hprices : Forall (fun c => 0 <= c)%Q closes)
        (Hpass : fst (fst (check_above_ma20_with_value (Some df))) = true) :
  Indicators.check_ma_support df 20 = true.
Proof.
  unfold check_above_ma20_with_value in Hpass.
  unfold Indicators.check_ma_support.
  destruct (too_short (Some df) 20) eqn:Hshort; [discriminate|].
  cbn [too_short] in Hshort. apply orb_false_iff in Hshort.
  destruct Hshort as [_ Hlen]. rewrite Hlen.
  unfold frame in Hpass. cbn [bind] in Hpass. rewrite Hclose in *.
  cbn [bind] in *.
  destruct (Pandas.at_end (Pandas.rolling 20 Pandas.mean closes) 1)
    as [ma|] eqn:Hma; [|discriminate].
  cbn [bind] in *.
  destruct (Pandas.at_end closes 1) as [latest|]; [|discriminate].
  cbn [bind] in *.
  destruct ma as [ma|]; [|discriminate].
  cbn [try_except ret fst] in *.
  apply gtb_true in Hpass. apply geb_true.
  assert (0 <= ma)%Q; [|lra].
  unfold Pandas.at_end in Hma.
  destruct (1 <=? length (Pandas.rolling 20 Pandas.mean closes))%nat;
    [|discriminate].
  apply nth_error_In in Hma. unfold Pandas.rolling in Hma.
  apply in_map_iff in Hma. destruct Hma as (i & Hi & _).
  unfold Pandas.window_at in Hi.
  destruct (20 <=? S i)%nat; [|discriminate].
  apply (fun H => mean_nonnegative _ ma H Hi).
  apply Forall_forall. intros x Hx.
  apply In_firstn_In, In_skipn_In in Hx.
  revert x Hx. now apply Forall_forall.
Qed.

(** ** The further theorems at concrete inputs *)

Lemma golden_and_death_cross_exclude_each_other_witness :
  TechnicalCalculator.check_golden_cross crossing_k crossing_d = true
  /\ TechnicalCalculator.check_death_cross crossing_k crossing_d = false.
Proof.
  split; [reflexivity |].
  apply (golden_and_death_cross_exclude_each_other crossing_k crossing_d).
  reflexivity.
Defined.

Lemma calculator_golden_cross_implies_engine_golden_cross_witness :
  TechnicalCalculator.check_golden_cross crossing_k crossing_d = true
  /\ exists curr_k curr_d,
      golden_cross_of crossing_k crossing_d
      = Some (true, Some curr_k, Some curr_d)
      /\ (curr_d < curr_k < 80)%Q.
Proof.
  split; [reflexivity |].
  apply (calculator_golden_cross_implies_engine_golden_cross
           crossing_k crossing_d).
  reflexivity.
Defined.

Lemma check_new_high_means_above_previous_closes_witness :
  TechnicalCalculator.check_new_high rising_frame 2 = true
  <-> (2 + 1 <= length [100; 102; 105]%Q)%nat
      /\ exists today,
          VolumeSurgeSpec.latest [100; 102; 105]%Q = Some today
          /\ forall x, In x (VolumeSurgeSpec.trailing 2 [100; 102; 105]%Q)
                       -> (x < today)%Q.
Proof.
  apply (check_new_high_means_above_previous_closes
           rising_frame 2 [100; 102; 105]%Q); [reflexivity | lia].
Defined.

Lemma break_60d_high_requires_close_at_todays_high_witness :
  (60 <= Pandas.len clean_breakout_frame)%nat
  /\ exists today high_today,
      VolumeSurgeSpec.latest breakout_closes = Some today
      /\ VolumeSurgeSpec.latest breakout_closes = Some high_today
      /\ (high_today <= today)%Q
      /\ forall x, In x (Pandas.tail 60 breakout_closes)
                   -> (x <= today)%Q.
Proof.
  apply (break_60d_high_requires_close_at_todays_high clean_breakout_frame
           breakout_closes breakout_closes);
    vm_compute; reflexivity.
Defined.

Lemma consecutive_limit_up_count_is_bounded_witness :
  let '(is_not_consecutive, limit_days) :=
    W.check_consecutive_limit_up offline (Some limit_up_frame) (Some "2330") 3 in
  (0 <= limit_days <= 3)%Z
  /\ (is_not_consecutive = true -> limit_days < 3)%Z
  /\ (limit_days = 3%Z -> is_not_consecutive = false).
Proof.
  apply (consecutive_limit_up_count_is_bounded
           offline (Some limit_up_frame) (Some "2330") 3).
  lia.
Defined.

Lemma not_limit_up_fails_at_exactly_days_bars_witness :
  check_not_limit_up_with_value engine_on_2330 (Some rising_frame) 3
  = (false, 0%Z).
Proof.
  apply (not_limit_up_fails_at_exactly_days_bars
           engine_on_2330 rising_frame 3 (Some "2330")); reflexivity.
Defined.

Lemma not_limit_up_without_stock_id_witness :
  let '(passed, limit_up_days) :=
    check_not_limit_up_with_value (init limit_up_params offline)
                                  (Some limit_up_frame) 3 in
  (0 <= limit_up_days)%Z
  /\ (limit_up_days <= Z.max 0 3)%Z
  /\ (limit_up_days <= Z.max 0 (Z.of_nat (Pandas.len limit_up_frame) - 1))%Z
  /\ ((Z.of_nat (Pandas.len limit_up_frame) <= 3)%Z -> passed = true).
Proof.
  apply (not_limit_up_without_stock_id
           (init limit_up_params offline) limit_up_frame 3).
  reflexivity.
Defined.


Lemma volume_surge_is_monotone_in_threshold_witness :
  check_volume_surge_with_value (Some surge_frame) (PyInt 1) 5
  = check_volume_surge_with_value (Some surge_frame) (PyFloat 1.5) 5.
Proof.
  apply (volume_surge_is_monotone_in_threshold
           (Some surge_frame) (PyFloat 1.5) (PyInt 1) 5);
    vm_compute; [discriminate | reflexivity].
Defined.

Lemma kd_lines_stay_within_0_and_100_witness :
  exists k d,
    kd_lines rising_frame 2 = Some (k, d)
    /\ length k = Pandas.len rising_frame
    /\ length d = Pandas.len rising_frame
    /\ Forall percent k /\ Forall percent d.
Proof.
  apply (kd_lines_stay_within_0_and_100 rising_frame 2
           [99; 100; 101]%Q [100; 102; 105]%Q [101; 103; 106]%Q);
    [lia | reflexivity | reflexivity | reflexivity |].
  intros i lo c hi Hlo Hc Hhi.
  destruct i as [|[|[|i]]]; cbn in Hlo, Hc, Hhi;
    try (destruct i; discriminate);
    injection Hlo as <-; injection Hc as <-; injection Hhi as <-;
    split; vm_compute; discriminate.
Defined.

Lemma batch_fetch_covers_every_id_once_witness :
  Fetcher.batch_fetch feeds_down ["2330"; "2317"; "1101"] 2 None
  = Some (map (fun id => Fetcher.get_all_data_of feeds_down id None)
              ["2330"; "2317"; "1101"]).
Proof.
  apply (batch_fetch_covers_every_id_once
           feeds_down ["2330"; "2317"; "1101"] 2 None); [lia |].
  intros m. reflexivity.
Defined.

Lemma fixed_engine_records_all_seven_conditions_witness :
  exists r,
    Fixed.check_all_conditions scenario_params (Fixed.ADict fixed_scenario)
    = Some r
    /\ keys r = "matched_count" :: "passed" :: "values" :: fixed_keys
    /\ exists values,
        get r "values" = Some (Fixed.RValues values)
        /\ keys values = fixed_keys
        /\ let n := Z.of_nat (length (filter (fixed_true r) fixed_keys)) in
           get r "matched_count" = Some (Fixed.RInt n)
           /\ get r "passed"
              = Some (Fixed.RBool (Fixed.min_conditions scenario_params <=? n)%Z).
Proof.
  eexists. split; [vm_compute; reflexivity |].
  apply (fixed_engine_records_all_seven_conditions
           scenario_params fixed_scenario).
  vm_compute. reflexivity.
Defined.

Lemma fixed_engine_records_disabled_conditions_as_failed_witness :
  exists r,
    Fixed.check_all_conditions scenario_params (Fixed.ADict fixed_scenario)
    = Some r
    /\ get r "kd_golden" = Some (Fixed.RBool false)
    /\ exists values,
        get r "values" = Some (Fixed.RValues values)
        /\ get values "kd_golden" = Some None.
Proof.
  eexists. split; [vm_compute; reflexivity |].
  apply (fixed_engine_records_disabled_conditions_as_failed
           scenario_params fixed_scenario);
    [vm_compute; reflexivity | cbn; tauto | reflexivity].
Defined.

Lemma calculate_kd_stays_within_0_and_100_witness :
  let (k, d) := Indicators.calculate_kd calculator_frame 9 in
  length k = Pandas.len calculator_frame
  /\ length d = Pandas.len calculator_frame
  /\ Forall percent k /\ Forall percent d.
Proof.
  apply (calculate_kd_stays_within_0_and_100 calculator_frame 9
           [99; 100; 101; 103; 104]%Q [100; 102; 105; 104; 108]%Q
           [101; 103; 106; 107; 108]%Q);
    [lia | reflexivity | reflexivity | reflexivity |].
  intros i lo c hi Hlo Hc Hhi.
  destruct i as [|[|[|[|[|i]]]]]; cbn in Hlo, Hc, Hhi;
    try (destruct i; discriminate);
    injection Hlo as <-; injection Hc as <-; injection Hhi as <-;
    split; vm_compute; discriminate.
Defined.

Lemma calculate_volume_ratio_of_five_bars_averages_four_witness :
  (Indicators.calculate_volume_ratio calculator_frame
   == 6000 / ((1000 + 2000 + 3000 + 2000) / 4))%Q.
Proof.
  apply (calculate_volume_ratio_of_five_bars_averages_four
           calculator_frame 1000 2000 3000 2000 6000);
    reflexivity.
Defined.


Lemma above_ma20_implies_ma_support_witness :
  Indicators.check_ma_support clean_breakout_frame 20 = true.
Proof.
  apply (above_ma20_implies_ma_support clean_breakout_frame
           breakout_closes);
    [vm_compute; reflexivity | | vm_compute; reflexivity].
  unfold breakout_closes. apply Forall_app. split.
  - apply Forall_forall. intros x Hx. apply repeat_spec in Hx. subst x.
    vm_compute. discriminate.
  - constructor; [vm_compute; discriminate | constructor].
Defined.
